(** * The provider-agnostic chat adapter of [december]

    A shallow embedding of [backend/src/services/llm.ts] (session store,
    content normalizer, single-shot and streaming chat adapter) and of
    [backend/src/services/ai-config.ts] (provider configuration store),
    followed by the properties of the adapter.

    Conventions of the embedding.
    - A JavaScript string is a [string] (its UTF-8 bytes); template literals
      are concatenations.
    - [Date.now()] and [new Date()] read a wall clock.  The clock is the
      environment's: [clock env k] is the k-th reading of the run, and the
      world counts the readings taken so far.  An ISO-8601 timestamp
      ([toISOString]) is represented by the instant it denotes, in
      milliseconds since the epoch.
    - [Map<string, ChatSession>] keeps insertion order, and
      [getOrCreateChatSession] depends on it, so the map is an association
      list.  A session object is referred to by the slot of the map that
      holds it; [session.messages.push] and [session.updatedAt = ...] update
      that slot in place.
    - [await]ed collaborators (file tree, provider SDKs, [fetch], the
      configuration file) are oracles of the environment that either return
      or throw; every request handed to a provider is also recorded in the
      world's [outbox].
    - An async generator is modelled by the list of events a consumer
      receives when it drains the generator, with the way the drain ended. *)

From Stdlib Require Import ZArith Floats Ascii String List.
From stdpp Require Import base option list strings pretty.

Local Open Scope string_scope.
Local Open Scope list_scope.

(** ** Data model *)

Inductive Role := user | assistant.

Inductive AttachmentType := image | document.

Record Attachment := {
  att_type : AttachmentType;
  att_data : string;
  att_name : string;
  att_mimeType : string;
  att_size : Z;
}.

(** [attachments?: Attachment[]]: [None] is [undefined]. *)
Record Message := {
  msg_id : string;
  msg_role : Role;
  msg_content : string;
  msg_timestamp : Z;
  msg_attachments : option (list Attachment);
}.

Record ChatSession := {
  cs_id : string;
  cs_containerId : string;
  cs_messages : list Message;
  cs_createdAt : Z;
  cs_updatedAt : Z;
}.

#[global] Instance Role_eq_dec : EqDecision Role.
Proof. solve_decision. Defined.

#[global] Instance AttachmentType_eq_dec : EqDecision AttachmentType.
Proof. solve_decision. Defined.

(** ** Text helpers *)

Definition nl : string := String "010"%char EmptyString.
Definition dquote : string := String "034"%char EmptyString.

(** JavaScript truthiness of a string: non-empty. *)
Definition truthy (s : string) : bool :=
  match s with EmptyString => false | String _ _ => true end.

(** [a || b] on strings. *)
Definition str_or (a b : string) : string := if truthy a then a else b.

(** [x?.f || b] where [x?.f] may be [undefined]. *)
Definition opt_or (a : option string) (b : string) : string :=
  match a with Some s => str_or s b | None => b end.

(** [Array.prototype.join("")]. *)
Definition join (l : list string) : string := fold_right String.append EmptyString l.

(** *** [String.prototype.trim]

    White space and line terminators of ECMAScript, as UTF-8 byte
    sequences: TAB, LF, VT, FF, CR, SP, U+00A0, U+1680, U+2000..U+200A,
    U+2028, U+2029, U+202F, U+205F, U+3000 and U+FEFF. *)

Definition bytes (l : list nat) : string :=
  fold_right (fun n s => String (ascii_of_nat n) s) EmptyString l.

Definition whiteSpace : list string :=
  map bytes
    ([ [9]; [10]; [11]; [12]; [13]; [32]; [194; 160]; [225; 154; 128] ]
     ++ map (fun k => [226; 128; k]) (seq 128 11)
     ++ [ [226; 128; 168]; [226; 128; 169]; [226; 128; 175];
          [226; 129; 159]; [227; 128; 128]; [239; 187; 191] ]).

Fixpoint stripPrefix (p s : string) : option string :=
  match p, s with
  | EmptyString, _ => Some s
  | String a p', String b s' => if Ascii.eqb a b then stripPrefix p' s' else None
  | String _ _, EmptyString => None
  end.

(** The rest of [s] after one leading white-space character, if any. *)
Definition dropSpace (ws : list string) (s : string) : option string :=
  fold_right (fun p r => match stripPrefix p s with Some t => Some t | None => r end)
             None ws.

Fixpoint trimStartFuel (ws : list string) (fuel : nat) (s : string) : string :=
  match fuel with
  | O => s
  | S fuel' =>
      match dropSpace ws s with
      | Some t => trimStartFuel ws fuel' t
      | None => s
      end
  end.

Definition trimStart (s : string) : string :=
  trimStartFuel whiteSpace (String.length s) s.

Definition revString (s : string) : string :=
  string_of_list_ascii (rev (list_ascii_of_string s)).

Definition trimEnd (s : string) : string :=
  revString (trimStartFuel (map revString whiteSpace) (String.length s) (revString s)).

Definition trim (s : string) : string := trimEnd (trimStart s).

(** ** Content normalizer *)

Inductive OpenAIPart :=
  | OText (text : string)
  | OImageUrl (url : string).

Inductive AnthropicPart :=
  | AText (text : string)
  | AImage (media_type data : string).

Inductive GeminiPart :=
  | GText (text : string)
  | GInlineData (mimeType data : string).

Section Normalizer.

(** [Buffer.from(data, "base64").toString("utf-8")] of the Node runtime. *)
Variable decodeBase64Utf8 : string -> string.

(** The text every builder pushes for a document attachment. *)
Definition documentText (a : Attachment) : string :=
  nl +:+ nl +:+ "Document " +:+ dquote +:+ att_name a +:+ dquote +:+ " content:"
     +:+ nl +:+ decodeBase64Utf8 (att_data a).

Definition openAIPart (a : Attachment) : OpenAIPart :=
  match att_type a with
  | image => OImageUrl ("data:" +:+ att_mimeType a +:+ ";base64," +:+ att_data a)
  | document => OText (documentText a)
  end.

Definition buildMessageContent (message : string) (attachments : list Attachment)
  : list OpenAIPart :=
  fold_left (fun content a => content ++ [openAIPart a]) attachments [OText message].

Definition anthropicPart (a : Attachment) : AnthropicPart :=
  match att_type a with
  | image => AImage (att_mimeType a) (att_data a)
  | document => AText (documentText a)
  end.

Definition buildAnthropicContent (message : string) (attachments : list Attachment)
  : list AnthropicPart :=
  fold_left (fun content a => content ++ [anthropicPart a]) attachments [AText message].

Definition geminiPart (a : Attachment) : GeminiPart :=
  match att_type a with
  | image => GInlineData (att_mimeType a) (att_data a)
  | document => GText (documentText a)
  end.

Definition buildGeminiParts (message : string) (attachments : list Attachment)
  : list GeminiPart :=
  fold_left (fun parts a => parts ++ [geminiPart a]) attachments [GText message].

End Normalizer.

(** ** Errors and results *)

(** A thrown [Error]: its message and, for file-system errors, its [code]. *)
Record Error := {
  err_message : string;
  err_code : option string;
}.

Definition mkError (message : string) : Error :=
  {| err_message := message; err_code := None |}.

Inductive Result (A : Type) :=
  | Ok (value : A)
  | Throw (error : Error).

Arguments Ok {A} value.
Arguments Throw {A} error.

(** ** Provider configuration ([ai-config.ts]) *)

Inductive AiProvider := openai | openrouter | anthropic | google_gemini.

#[global] Instance AiProvider_eq_dec : EqDecision AiProvider.
Proof. solve_decision. Defined.

Record AiConfig := {
  cfg_provider : AiProvider;
  cfg_apiKey : string;
  cfg_baseUrl : option string;
  cfg_model : string;
  cfg_temperature : option float;
}.

(** What may sit under the [temperature] key of a parsed or spread object
    typed [Partial<AiConfig>]: a number; the [null] that [JSON.stringify]
    writes for a number that is not finite; or, in a request body, a value
    that is no number at all (a string that is no numeric literal, an
    object). *)
Inductive JsTemperature :=
  | TNull
  | TNumber (f : float)
  | TNonNumeric.

(** [Number(v)] on those values. *)
Definition Number (v : JsTemperature) : float :=
  match v with
  | TNull => 0%float
  | TNumber f => f
  | TNonNumeric => nan
  end.

(** [Partial<AiConfig>] as [normalizeConfig] reads it: [None] is a key that
    is absent, [undefined] or (for the string keys) [null]. *)
Record RawConfig := {
  raw_provider : option AiProvider;
  raw_apiKey : option string;
  raw_baseUrl : option string;
  raw_model : option string;
  raw_temperature : option JsTemperature;
}.

(** The argument of [updateAiConfig]: for every key, [None] when the object
    has no such own key, [Some v] when it has one with value [v]. *)
Record ConfigUpdate := {
  upd_provider : option (option AiProvider);
  upd_apiKey : option (option string);
  upd_baseUrl : option (option string);
  upd_model : option (option string);
  upd_temperature : option (option JsTemperature);
}.

Record ProviderMetadata := {
  pm_id : AiProvider;
  pm_name : string;
  pm_description : string;
  pm_defaultBaseUrl : string;
  pm_documentationUrl : string;
  pm_supportsStreaming : bool;
}.

Definition providerMetadata : list ProviderMetadata :=
  [ {| pm_id := openai; pm_name := "OpenAI";
       pm_description := "ChatGPT and GPT-4 family with native streaming";
       pm_defaultBaseUrl := "https://api.openai.com/v1";
       pm_documentationUrl := "https://platform.openai.com/docs/overview";
       pm_supportsStreaming := true |};
    {| pm_id := openrouter; pm_name := "OpenRouter";
       pm_description := "Unified access to multiple models with OpenAI-compatible API";
       pm_defaultBaseUrl := "https://openrouter.ai/api/v1";
       pm_documentationUrl := "https://openrouter.ai/docs";
       pm_supportsStreaming := true |};
    {| pm_id := anthropic; pm_name := "Anthropic Claude";
       pm_description := "Claude 3 family with native JSON and vision support";
       pm_defaultBaseUrl := "https://api.anthropic.com";
       pm_documentationUrl := "https://docs.anthropic.com/claude/reference";
       pm_supportsStreaming := false |};
    {| pm_id := google_gemini; pm_name := "Google Gemini";
       pm_description := "Gemini models with native multimodal capabilities";
       pm_defaultBaseUrl := "https://generativelanguage.googleapis.com/v1beta";
       pm_documentationUrl := "https://ai.google.dev/gemini-api/docs";
       pm_supportsStreaming := false |} ].

(** The literal [0.2]: the binary64 number nearest to it. *)
Definition defaultTemperature : float := 0x1.999999999999ap-3%float.

Definition normalizeConfig (raw : RawConfig) : AiConfig :=
  let provider := default openai (raw_provider raw) in
  let providerDefaults := find (fun item => bool_decide (pm_id item = provider)) providerMetadata in
  let baseUrl :=
    opt_or (trim <$> raw_baseUrl raw)
           (opt_or (pm_defaultBaseUrl <$> providerDefaults) "https://api.openai.com/v1") in
  let temperature :=
    match raw_temperature raw with
    | None => defaultTemperature
    | Some v => Number v
    end in
  {| cfg_provider := provider;
     cfg_apiKey := opt_or (trim <$> raw_apiKey raw) EmptyString;
     cfg_baseUrl := Some baseUrl;
     cfg_model := opt_or (trim <$> raw_model raw) "gpt-4o-mini";
     cfg_temperature := Some temperature |}.

(** [{}]. *)
Definition emptyRaw : RawConfig :=
  {| raw_provider := None; raw_apiKey := None; raw_baseUrl := None;
     raw_model := None; raw_temperature := None |}.

(** [{ ...current, ...update }]. *)
Definition spread (current : AiConfig) (update : ConfigUpdate) : RawConfig :=
  {| raw_provider := default (Some (cfg_provider current)) (upd_provider update);
     raw_apiKey := default (Some (cfg_apiKey current)) (upd_apiKey update);
     raw_baseUrl := default (cfg_baseUrl current) (upd_baseUrl update);
     raw_model := default (Some (cfg_model current)) (upd_model update);
     raw_temperature := default (TNumber <$> cfg_temperature current) (upd_temperature update) |}.

(** [Number.isNaN]. *)
Definition isNaN (f : float) : bool := negb (PrimFloat.eqb f f).

(** Truthiness of a number: neither [NaN] nor a zero. *)
Definition truthyNumber (f : float) : bool :=
  negb (isNaN f || PrimFloat.eqb f 0%float).

(** [t || 0] for an optional number [t]. *)
Definition num_or_zero (t : option float) : float :=
  match t with
  | Some f => if truthyNumber f then f else 0%float
  | None => 0%float
  end.

(** ** Wire formats *)

Inductive OpenAIContent :=
  | OPlain (text : string)
  | OParts (parts : list OpenAIPart).

Record OpenAIMessage := {
  oa_role : string;
  oa_content : OpenAIContent;
}.

Record AnthropicMessage := {
  an_role : string;
  an_content : list AnthropicPart;
}.

Record GeminiContent := {
  g_role : string;
  g_parts : list GeminiPart;
}.

Record GeminiPayload := {
  contents : list GeminiContent;
  systemInstruction : GeminiContent;
  generationConfig_temperature : float;
}.

(** A call that leaves the adapter. *)
Inductive Request :=
  | OpenAIChat (apiKey baseURL model : string) (messages : list OpenAIMessage)
               (temperature : option float) (stream : bool)
  | AnthropicCreate (apiKey : string) (baseURL : option string) (model : string)
                    (max_tokens : Z) (temperature : float) (system : string)
                    (messages : list AnthropicMessage)
  | GeminiFetch (url : string) (body : GeminiPayload).

(** [completion.choices[i]?.message?.content]. *)
Record ChatCompletion := {
  completion_choices : list (option (option string));
}.

(** [chunk.choices[i]?.delta?.content]. *)
Record Chunk := {
  chunk_choices : list (option (option string));
}.

(** An opened stream: the chunks it delivers and, when it breaks, the error
    that ends the iteration. *)
Record ChunkStream := {
  stream_chunks : list Chunk;
  stream_failure : option Error;
}.

Inductive AnthropicBlock :=
  | TextBlock (text : string)
  | OtherBlock.

Record AnthropicResponse := {
  response_content : list AnthropicBlock;
}.

(** [data?.error?.message] and [data?.candidates?.[i]?.content?.parts],
    whose parts may carry a [text]. *)
Record GeminiData := {
  error_message : option string;
  candidates : list (option (list (option string)));
}.

(** The [Response] of [fetch]: [ok] and the outcome of [response.json()]. *)
Record FetchResponse := {
  response_ok : bool;
  response_json : Result (option GeminiData);
}.

Definition roleName (r : Role) : string :=
  match r with user => "user" | assistant => "assistant" end.

(** ** Environment and world *)

Inductive FileState :=
  | Missing
  | Unreadable (e : Error)
  | Content (text : string).

(** What the adapter does not control: the clock, the file tree of a
    container (already serialized by [JSON.stringify(tree, null, 2)]), the
    providers, and whether the configuration directory can be written. *)
Record Env := {
  clock : nat -> Z;
  codeContext : string -> Result string;
  chatCompletion : Request -> Result ChatCompletion;
  chatCompletionStream : Request -> Result ChunkStream;
  anthropicMessages : Request -> Result AnthropicResponse;
  fetch : Request -> Result FetchResponse;
  writeFailure : option Error;
}.

(** The module state of [llm.ts] ([chatSessions]) and of [ai-config.ts]
    ([cachedConfig]), the configuration file, the number of clock readings
    taken and the requests sent. *)
Record World := {
  chatSessions : list (string * ChatSession);
  cachedConfig : option AiConfig;
  configFile : FileState;
  reads : nat;
  outbox : list Request;
}.

Definition set_chatSessions (f : list (string * ChatSession) -> list (string * ChatSession))
    (w : World) : World :=
  {| chatSessions := f (chatSessions w); cachedConfig := cachedConfig w;
     configFile := configFile w; reads := reads w; outbox := outbox w |}.

Definition set_cachedConfig (c : option AiConfig) (w : World) : World :=
  {| chatSessions := chatSessions w; cachedConfig := c;
     configFile := configFile w; reads := reads w; outbox := outbox w |}.

Definition set_configFile (f : FileState) (w : World) : World :=
  {| chatSessions := chatSessions w; cachedConfig := cachedConfig w;
     configFile := f; reads := reads w; outbox := outbox w |}.

Definition set_reads (n : nat) (w : World) : World :=
  {| chatSessions := chatSessions w; cachedConfig := cachedConfig w;
     configFile := configFile w; reads := n; outbox := outbox w |}.

Definition set_outbox (o : list Request) (w : World) : World :=
  {| chatSessions := chatSessions w; cachedConfig := cachedConfig w;
     configFile := configFile w; reads := reads w; outbox := o |}.

(** *** Computations that read and change the world and may throw *)

Definition M (A : Type) : Type := World -> Result A * World.

Definition ret {A} (a : A) : M A := fun w => (Ok a, w).

Definition throw {A} (e : Error) : M A := fun w => (Throw e, w).

Definition bind {A B} (m : M A) (k : A -> M B) : M B :=
  fun w =>
    match m w with
    | (Ok a, w') => k a w'
    | (Throw e, w') => (Throw e, w')
    end.

Notation "'let!' x ':=' m 'in' k" := (bind m (fun x => k))
  (at level 10, x name, m at level 100, k at level 200).
Notation "'run!' m 'in' k" := (bind m (fun _ => k))
  (at level 10, m at level 100, k at level 200).

(** [try { m } catch (error) { handler(error) }]. *)
Definition try_catch {A} (m : M A) (handler : Error -> M A) : M A :=
  fun w =>
    match m w with
    | (Ok a, w') => (Ok a, w')
    | (Throw e, w') => handler e w'
    end.

Definition liftResult {A} (r : Result A) : M A := fun w => (r, w).

Definition modify (f : World -> World) : M unit := fun w => (Ok tt, f w).

Definition gets {A} (f : World -> A) : M A := fun w => (Ok (f w), w).

(** *** Asynchronous sequences: the events of a full drain *)

Inductive EventType := ev_user | ev_assistant | ev_done.

Record Event := {
  ev_type : EventType;
  ev_data : Message;
}.

Definition Gen (A : Type) : Type := World -> (list Event * Result A) * World.

Definition gret {A} (a : A) : Gen A := fun w => (([], Ok a), w).

Definition yield (e : Event) : Gen unit := fun w => (([e], Ok tt), w).

Definition lift {A} (m : M A) : Gen A := fun w => let (r, w') := m w in (([], r), w').

Definition gbind {A B} (g : Gen A) (k : A -> Gen B) : Gen B :=
  fun w =>
    match g w with
    | ((evs, Ok a), w') =>
        match k a w' with
        | ((evs', r), w'') => ((evs ++ evs', r), w'')
        end
    | ((evs, Throw e), w') => ((evs, Throw e), w')
    end.

Notation "'let~' x ':=' g 'in' k" := (gbind g (fun x => k))
  (at level 10, x name, g at level 100, k at level 200).
Notation "'run~' g 'in' k" := (gbind g (fun _ => k))
  (at level 10, g at level 100, k at level 200).

(** *** [encodeURIComponent] and the trailing-slash removal *)

Definition unreserved (c : ascii) : bool :=
  let n := nat_of_ascii c in
  ((65 <=? n) && (n <=? 90) || (97 <=? n) && (n <=? 122) || (48 <=? n) && (n <=? 57)
   || bool_decide (c ∈ list_ascii_of_string "-_.!~*'()"))%nat.

Definition hexDigit (n : nat) : ascii :=
  ascii_of_nat (if (n <? 10)%nat then 48 + n else 55 + n).

Fixpoint encodeURIComponent (s : string) : string :=
  match s with
  | EmptyString => EmptyString
  | String c rest =>
      if unreserved c then String c (encodeURIComponent rest)
      else
        let n := nat_of_ascii c in
        String "%"%char
          (String (hexDigit (n / 16)) (String (hexDigit (n mod 16)) (encodeURIComponent rest)))
  end.

(** [s.replace(/\/$/, "")]. *)
Definition stripTrailingSlash (s : string) : string :=
  match revString s with
  | String "/"%char rest => revString rest
  | _ => s
  end.

(** ** The services *)

Definition fallbackText : string := "Sorry, I could not generate a response.".

Definition pushMessage (m : Message) (s : ChatSession) : ChatSession :=
  {| cs_id := cs_id s; cs_containerId := cs_containerId s;
     cs_messages := cs_messages s ++ [m];
     cs_createdAt := cs_createdAt s; cs_updatedAt := cs_updatedAt s |}.

Definition setUpdatedAt (t : Z) (s : ChatSession) : ChatSession :=
  {| cs_id := cs_id s; cs_containerId := cs_containerId s;
     cs_messages := cs_messages s;
     cs_createdAt := cs_createdAt s; cs_updatedAt := t |}.

(** [Map.prototype.set]: an existing key keeps its place. *)
Definition keyIndex (k : string) (m : list (string * ChatSession)) : option nat :=
  fst <$> list_find (fun kv => kv.1 = k) m.

Definition mapSet (k : string) (v : ChatSession) (m : list (string * ChatSession))
  : list (string * ChatSession) :=
  match keyIndex k m with
  | Some i => <[i := (k, v)]> m
  | None => m ++ [(k, v)]
  end.

(** The slot that holds the value just [set] under [k]. *)
Definition slotOf (k : string) (m : list (string * ChatSession)) : nat :=
  default (length m) (keyIndex k m).

(** [Map.prototype.get]. *)
Definition mapGet (k : string) (m : list (string * ChatSession)) : option ChatSession :=
  (fun found => found.2.2) <$> list_find (fun kv => kv.1 = k) m.

(** [Array.from(chatSessions.values()).find(session => session.containerId === containerId)],
    as the slot of the session found. *)
Definition findByContainer (containerId : string) (m : list (string * ChatSession)) : option nat :=
  fst <$> list_find (fun kv => cs_containerId kv.2 = containerId) m.

Section Services.

(** The Node runtime and the bundled prompt template
    ([../utils/prompt.txt]). *)
Variable decodeBase64Utf8 : string -> string.
Variable prompt : string.
(** [JSON.parse(content) as Partial<AiConfig>] and
    [JSON.stringify(config, null, 2)]. *)
Variable parseConfig : string -> Result RawConfig.
Variable stringifyConfig : AiConfig -> string.

Variable env : Env.

(** [Date.now()], [new Date()]. *)
Definition now : M Z :=
  fun w => (Ok (clock env (reads w)), set_reads (S (reads w)) w).

Definition send {A} (oracle : Request -> Result A) (r : Request) : M A :=
  fun w => (oracle r, set_outbox (outbox w ++ [r]) w).

(** *** [ai-config.ts] *)

Definition readFile : M string :=
  fun w =>
    match configFile w with
    | Missing =>
        (Throw {| err_message := "ENOENT: no such file or directory";
                  err_code := Some "ENOENT" |}, w)
    | Unreadable e => (Throw e, w)
    | Content text => (Ok text, w)
    end.

Definition writeConfig (config : AiConfig) : M unit :=
  match writeFailure env with
  | Some e => throw e
  | None => modify (set_configFile (Content (stringifyConfig config)))
  end.

Definition readConfig : M AiConfig :=
  try_catch
    (let! content := readFile in
     let! parsed := liftResult (parseConfig content) in
     ret (normalizeConfig parsed))
    (fun error =>
       if bool_decide (err_code error = Some "ENOENT") then
         let defaults := normalizeConfig emptyRaw in
         run! writeConfig defaults in
         ret defaults
       else throw error).

Definition getAiConfig : M AiConfig :=
  let! cached := gets cachedConfig in
  match cached with
  | Some config => ret config
  | None =>
      let! config := readConfig in
      run! modify (set_cachedConfig (Some config)) in
      ret config
  end.

Definition updateAiConfig (update : ConfigUpdate) : M AiConfig :=
  let! current := getAiConfig in
  let merged := normalizeConfig (spread current update) in
  if negb (truthy (cfg_apiKey merged)) then throw (mkError "API key is required")
  else if negb (truthy (cfg_model merged)) then throw (mkError "Model is required")
  else if isNaN (num_or_zero (cfg_temperature merged)) then
    throw (mkError "Temperature must be a number")
  else if match cfg_temperature merged with
          | Some t => PrimFloat.ltb t 0%float || PrimFloat.ltb 2%float t
          | None => false
          end
  then throw (mkError "Temperature must be between 0 and 2")
  else
    run! modify (set_cachedConfig (Some merged)) in
    run! writeConfig merged in
    ret merged.

Definition getSupportedProviders : list ProviderMetadata := providerMetadata.

(** *** Session store *)

(** A fresh session object, registered under its id; the result is the
    slot that holds it. *)
Definition registerSession (containerId : string) : M nat :=
  let! t := now in
  let sessionId := containerId +:+ "-" +:+ pretty t in
  let! createdAt := now in
  let! updatedAt := now in
  let session :=
    {| cs_id := sessionId; cs_containerId := containerId; cs_messages := [];
       cs_createdAt := createdAt; cs_updatedAt := updatedAt |} in
  let! slot := gets (fun w => slotOf sessionId (chatSessions w)) in
  run! modify (set_chatSessions (mapSet sessionId session)) in
  ret slot.

(** The session object a first [getOrCreateChatSession] creates. *)
Definition freshSession (containerId : string) (w : World) : ChatSession :=
  {| cs_id := containerId +:+ "-" +:+ pretty (clock env (reads w));
     cs_containerId := containerId; cs_messages := [];
     cs_createdAt := clock env (S (reads w));
     cs_updatedAt := clock env (S (S (reads w))) |}.

Definition createChatSession (containerId : string) : M nat :=
  registerSession containerId.

Definition getChatSession (sessionId : string) : M (option ChatSession) :=
  gets (fun w => mapGet sessionId (chatSessions w)).

Definition getOrCreateChatSession (containerId : string) : M nat :=
  let! existingSession := gets (fun w => findByContainer containerId (chatSessions w)) in
  match existingSession with
  | Some slot => ret slot
  | None => registerSession containerId
  end.

(** Reading and updating the session object held in a slot. *)
Definition sessionAt (slot : nat) (w : World) : option ChatSession :=
  snd <$> chatSessions w !! slot.

Definition messagesOf (slot : nat) : M (list Message) :=
  gets (fun w => from_option cs_messages [] (sessionAt slot w)).

Definition updateSession (slot : nat) (f : ChatSession -> ChatSession) : M unit :=
  modify (set_chatSessions (alter (fun kv => (kv.1, f kv.2)) slot)).

(** *** History translation *)

Definition toOpenAIMessages (systemPrompt : string) (messages : list Message)
  : list OpenAIMessage :=
  {| oa_role := "system"; oa_content := OPlain systemPrompt |}
  :: map (fun msg =>
            {| oa_role := roleName (msg_role msg);
               oa_content :=
                 match msg_role msg, msg_attachments msg with
                 | user, Some attachments =>
                     OParts (buildMessageContent decodeBase64Utf8 (msg_content msg) attachments)
                 | _, _ => OPlain (msg_content msg)
                 end |})
         messages.

Definition toAnthropicMessages (messages : list Message) : list AnthropicMessage :=
  map (fun msg =>
         {| an_role := roleName (msg_role msg);
            an_content :=
              match msg_role msg, msg_attachments msg with
              | user, Some attachments =>
                  buildAnthropicContent decodeBase64Utf8 (msg_content msg) attachments
              | _, _ => [AText (msg_content msg)]
              end |})
      messages.

Definition toGeminiHistory (messages : list Message) : list GeminiContent :=
  map (fun msg =>
         {| g_role := match msg_role msg with assistant => "model" | user => "user" end;
            g_parts :=
              match msg_role msg, msg_attachments msg with
              | user, Some attachments =>
                  buildGeminiParts decodeBase64Utf8 (msg_content msg) attachments
              | _, _ => [GText (msg_content msg)]
              end |})
      messages.

Definition getSystemPrompt (containerId : string) : M string :=
  let! context := liftResult (codeContext env containerId) in
  ret (prompt +:+ nl +:+ nl +:+ "Current codebase structure and content:" +:+ nl +:+ context).

Definition createAssistantMessage (slot : nat) (content : string) : M Message :=
  let! t := now in
  let! timestamp := now in
  let assistantMsg :=
    {| msg_id := "assistant-" +:+ pretty t; msg_role := assistant; msg_content := content;
       msg_timestamp := timestamp; msg_attachments := None |} in
  run! updateSession slot (pushMessage assistantMsg) in
  let! updatedAt := now in
  run! updateSession slot (setUpdatedAt updatedAt) in
  ret assistantMsg.

(** The user message both adapters construct and append. *)
Definition newUserMessage (userMessage : string) (attachments : list Attachment) : M Message :=
  let! t := now in
  let! timestamp := now in
  ret {| msg_id := "user-" +:+ pretty t; msg_role := user; msg_content := userMessage;
         msg_timestamp := timestamp;
         msg_attachments :=
           if (0 <? length attachments)%nat then Some attachments else None |}.

(** *** Single-shot call *)

(** [choices[0]?.message?.content] and [choices[0]?.delta?.content]. *)
Definition firstContent (choices : list (option (option string))) : option string :=
  match choices with
  | Some (Some content) :: _ => Some content
  | _ => None
  end.

(** [data?.error?.message]. *)
Definition errorMessageOf (data : option GeminiData) : option string :=
  match data with
  | Some d => error_message d
  | None => None
  end.

(** [data?.candidates?.[0]?.content?.parts]. *)
Definition firstCandidateParts (data : option GeminiData) : option (list (option string)) :=
  match data with
  | Some d =>
      match candidates d with
      | Some parts :: _ => Some parts
      | _ => None
      end
  | None => None
  end.

Definition isOpenAICompatible (p : AiProvider) : bool :=
  bool_decide (p = openai) || bool_decide (p = openrouter).

(** [response.content.map((part) => (part.type === "text" ? part.text : "")).join("").trim()]. *)
Definition anthropicText (response : AnthropicResponse) : string :=
  trim (join (map (fun part =>
                     match part with
                     | TextBlock text => text
                     | OtherBlock => EmptyString
                     end)
                  (response_content response))).

(** [(data?.candidates?.[0]?.content?.parts || []).map((part) => part.text || "").join("").trim()]. *)
Definition geminiText (data : option GeminiData) : string :=
  trim (join (map (fun part => opt_or part EmptyString)
                  (default [] (firstCandidateParts data)))).

(** The provider dispatch of [sendMessage] (its [if] / [else if] /
    [else]): the value it leaves in [assistantContent]. *)
Definition dispatch (aiConfig : AiConfig) (systemPrompt : string) (session : nat)
    (userMsg : Message) : M string :=
  if isOpenAICompatible (cfg_provider aiConfig) then
    let! messages := messagesOf session in
    let! completion :=
      send (chatCompletion env)
           (OpenAIChat (cfg_apiKey aiConfig)
                       (opt_or (cfg_baseUrl aiConfig) "https://api.openai.com/v1")
                       (cfg_model aiConfig)
                       (toOpenAIMessages systemPrompt messages)
                       (cfg_temperature aiConfig) false) in
    ret (opt_or (firstContent (completion_choices completion)) fallbackText)
  else if bool_decide (cfg_provider aiConfig = anthropic) then
    let! messages := messagesOf session in
    let! response :=
      send (anthropicMessages env)
           (AnthropicCreate (cfg_apiKey aiConfig) (cfg_baseUrl aiConfig)
                            (cfg_model aiConfig) 4096
                            (default defaultTemperature (cfg_temperature aiConfig))
                            systemPrompt (toAnthropicMessages messages)) in
    ret (anthropicText response)
  else
    let baseUrl :=
      stripTrailingSlash
        (opt_or (cfg_baseUrl aiConfig) "https://generativelanguage.googleapis.com/v1beta") in
    let! messages := messagesOf session in
    let history := toGeminiHistory (removelast messages) in
    let userParts :=
      buildGeminiParts decodeBase64Utf8 (msg_content userMsg)
                       (default [] (msg_attachments userMsg)) in
    let url :=
      baseUrl +:+ "/models/" +:+ encodeURIComponent (cfg_model aiConfig)
              +:+ ":generateContent?key=" +:+ encodeURIComponent (cfg_apiKey aiConfig) in
    let payload :=
      {| contents := history ++ [ {| g_role := "user"; g_parts := userParts |} ];
         systemInstruction := {| g_role := "system"; g_parts := [GText systemPrompt] |};
         generationConfig_temperature :=
           default defaultTemperature (cfg_temperature aiConfig) |} in
    let! response := send (fetch env) (GeminiFetch url payload) in
    let! data := liftResult (response_json response) in
    if negb (response_ok response) then
      throw (mkError (opt_or (errorMessageOf data) "Gemini request failed"))
    else ret (geminiText data).

Definition sendMessage (containerId userMessage : string) (attachments : list Attachment)
  : M (Message * Message) :=
  let! session := getOrCreateChatSession containerId in
  let! userMsg := newUserMessage userMessage attachments in
  run! updateSession session (pushMessage userMsg) in
  let! aiConfig := getAiConfig in
  let! systemPrompt := getSystemPrompt containerId in
  let! assistantContent := dispatch aiConfig systemPrompt session userMsg in
  let assistantContent :=
    if negb (truthy assistantContent) then fallbackText else assistantContent in
  let! assistantMsg := createAssistantMessage session assistantContent in
  ret (userMsg, assistantMsg).

(** *** Incremental call *)

Definition event (type : EventType) (data : Message) : Event :=
  {| ev_type := type; ev_data := data |}.

(** [for await (const chunk of stream) { ... }], threading the
    accumulated text. *)
Fixpoint streamLoop (assistantId : string) (chunks : list Chunk) (assistantContent : string)
  : Gen string :=
  match chunks with
  | [] => gret assistantContent
  | chunk :: rest =>
      match firstContent (chunk_choices chunk) with
      | Some content =>
          if truthy content then
            let assistantContent := assistantContent +:+ content in
            let~ timestamp := lift now in
            run~ yield (event ev_assistant
                          {| msg_id := assistantId; msg_role := assistant;
                             msg_content := assistantContent;
                             msg_timestamp := timestamp; msg_attachments := None |}) in
            streamLoop assistantId rest assistantContent
          else streamLoop assistantId rest assistantContent
      | None => streamLoop assistantId rest assistantContent
      end
  end.

(** For the statements about the loop: the text a chunk contributes (its
    first choice's delta content, when not empty), the texts a stream
    contributes, and the snapshot events that a list of texts gives rise
    to, starting from the text accumulated so far and the number of the
    next clock reading. *)
Definition deltaOf (chunk : Chunk) : option string :=
  match firstContent (chunk_choices chunk) with
  | Some content => if truthy content then Some content else None
  | None => None
  end.

Definition deltasOf (chunks : list Chunk) : list string := omap deltaOf chunks.

Fixpoint snapshots (assistantId : string) (deltas : list string) (accumulated : string)
    (reading : nat) : list Event :=
  match deltas with
  | [] => []
  | delta :: rest =>
      event ev_assistant
        {| msg_id := assistantId; msg_role := assistant;
           msg_content := accumulated +:+ delta;
           msg_timestamp := clock env reading; msg_attachments := None |}
      :: snapshots assistantId rest (accumulated +:+ delta) (S reading)
  end.

Definition sendMessageStream (containerId userMessage : string)
    (attachments : list Attachment) : Gen unit :=
  let~ aiConfig := lift getAiConfig in
  if negb (isOpenAICompatible (cfg_provider aiConfig)) then
    let~ result := lift (sendMessage containerId userMessage attachments) in
    run~ yield (event ev_user result.1) in
    run~ yield (event ev_assistant result.2) in
    yield (event ev_done result.2)
  else
    let~ session := lift (getOrCreateChatSession containerId) in
    let~ userMsg := lift (newUserMessage userMessage attachments) in
    run~ lift (updateSession session (pushMessage userMsg)) in
    run~ yield (event ev_user userMsg) in
    let~ systemPrompt := lift (getSystemPrompt containerId) in
    let~ messages := lift (messagesOf session) in
    let openaiMessages := toOpenAIMessages systemPrompt messages in
    let~ t := lift now in
    let assistantId := "assistant-" +:+ pretty t in
    let~ stream :=
      lift (send (chatCompletionStream env)
                 (OpenAIChat (cfg_apiKey aiConfig)
                             (opt_or (cfg_baseUrl aiConfig) "https://api.openai.com/v1")
                             (cfg_model aiConfig) openaiMessages
                             (cfg_temperature aiConfig) true)) in
    let~ assistantContent := streamLoop assistantId (stream_chunks stream) EmptyString in
    run~ match stream_failure stream with
         | Some e => lift (throw e)
         | None => gret tt
         end in
    let~ finalAssistantMsg := lift (createAssistantMessage session assistantContent) in
    yield (event ev_done finalAssistantMsg).

End Services.

(** ** Concrete instances for the examples *)

(** A base64 decoder for the examples: both alphabets of RFC 4648, other
    characters skipped, decoding stopped at the padding.  On the base64 of
    well-formed UTF-8 text it yields that text. *)
Definition sextet (c : ascii) : option N :=
  let n := N_of_ascii c in
  (if (65 <=? n) && (n <=? 90) then Some (n - 65)
   else if (97 <=? n) && (n <=? 122) then Some (n - 71)
   else if (48 <=? n) && (n <=? 57) then Some (n + 4)
   else if (n =? 43) || (n =? 45) then Some 62
   else if (n =? 47) || (n =? 95) then Some 63
   else None)%N.

Fixpoint base64Go (s : string) (acc bits : N) : string :=
  match s with
  | EmptyString => EmptyString
  | String c rest =>
      if Ascii.eqb c "="%char then EmptyString
      else
        match sextet c with
        | None => base64Go rest acc bits
        | Some v =>
            let acc := (acc * 64 + v)%N in
            let bits := (bits + 6)%N in
            if (8 <=? bits)%N then
              String (ascii_of_N (acc / 2 ^ (bits - 8)))
                     (base64Go rest (acc mod 2 ^ (bits - 8)) (bits - 8))
            else base64Go rest acc bits
        end
  end.

Definition base64Text (data : string) : string := base64Go data 0 0.

Definition pic : Attachment :=
  {| att_type := image; att_data := "iVBORw=="; att_name := "pic.png";
     att_mimeType := "image/png"; att_size := 4 |}.

Definition notes : Attachment :=
  {| att_type := document; att_data := "aGVsbG8="; att_name := "notes.txt";
     att_mimeType := "text/plain"; att_size := 5 |}.

(** An environment in which every collaborator answers: the clock ticks
    once per reading, the file tree is empty, every provider replies. *)
Definition demoEnv : Env :=
  {| clock := fun k => (1000 + Z.of_nat k)%Z;
     codeContext := fun _ => Ok "{}";
     chatCompletion := fun _ => Ok {| completion_choices := [Some (Some "Hello")] |};
     chatCompletionStream := fun _ =>
       Ok {| stream_chunks :=
               [ {| chunk_choices := [Some (Some "Hel")] |};
                 {| chunk_choices := [Some None] |};
                 {| chunk_choices := [Some (Some "lo")] |};
                 {| chunk_choices := [] |} ];
             stream_failure := None |};
     anthropicMessages := fun _ => Ok {| response_content := [TextBlock " Hi "; OtherBlock] |};
     fetch := fun _ =>
       Ok {| response_ok := true;
             response_json :=
               Ok (Some {| error_message := None;
                           candidates := [Some [Some "Hey"; None]] |}) |};
     writeFailure := None |}.

Definition demoConfig (p : AiProvider) : AiConfig :=
  {| cfg_provider := p; cfg_apiKey := "k"; cfg_baseUrl := None;
     cfg_model := "m-1"; cfg_temperature := Some defaultTemperature |}.

(** A world with no session, whose cached configuration selects [p]. *)
Definition demoWorld (p : AiProvider) : World :=
  {| chatSessions := []; cachedConfig := Some (demoConfig p); configFile := Missing;
     reads := 0; outbox := [] |}.

(** [JSON.parse] and [JSON.stringify] stand-ins for the examples: the
    configuration file is never parsed there, and a configuration is
    written as an empty object. *)
Definition demoParse (text : string) : Result RawConfig := Throw (mkError "Unexpected token").
Definition demoStringify (config : AiConfig) : string := "{}".

(** The same environment, except that the file tree of the container
    cannot be read. *)
Definition noContextEnv : Env :=
  {| clock := clock demoEnv;
     codeContext := fun _ => Throw (mkError "container not found");
     chatCompletion := chatCompletion demoEnv;
     chatCompletionStream := chatCompletionStream demoEnv;
     anthropicMessages := anthropicMessages demoEnv;
     fetch := fetch demoEnv;
     writeFailure := None |}.

(** An environment whose providers reply with no text at all. *)
Definition silentEnv : Env :=
  {| clock := clock demoEnv;
     codeContext := codeContext demoEnv;
     chatCompletion := fun _ => Ok {| completion_choices := [Some (Some EmptyString)] |};
     chatCompletionStream := fun _ =>
       Ok {| stream_chunks :=
               [ {| chunk_choices := [Some None] |};
                 {| chunk_choices := [Some (Some EmptyString)] |};
                 {| chunk_choices := [] |} ];
             stream_failure := None |};
     anthropicMessages := fun _ => Ok {| response_content := [TextBlock "  "; OtherBlock] |};
     fetch := fun _ =>
       Ok {| response_ok := true;
             response_json := Ok (Some {| error_message := None; candidates := [] |}) |};
     writeFailure := None |}.

(** The world after a first Gemini turn that carried a picture. *)
Definition worldAfterPicture : World :=
  (sendMessage base64Text "PROMPT" demoParse demoStringify demoEnv "c1" "look" [pic]
               (demoWorld google_gemini)).2.

(** Updates of a single key. *)
Definition noUpdate : ConfigUpdate :=
  {| upd_provider := None; upd_apiKey := None; upd_baseUrl := None;
     upd_model := None; upd_temperature := None |}.

Definition temperatureUpdate (v : JsTemperature) : ConfigUpdate :=
  {| upd_provider := None; upd_apiKey := None; upd_baseUrl := None;
     upd_model := None; upd_temperature := Some (Some v) |}.

Definition modelUpdate (m : string) : ConfigUpdate :=
  {| upd_provider := None; upd_apiKey := None; upd_baseUrl := None;
     upd_model := Some (Some m); upd_temperature := None |}.

Definition apiKeyUpdate (k : string) : ConfigUpdate :=
  {| upd_provider := None; upd_apiKey := Some (Some k); upd_baseUrl := None;
     upd_model := None; upd_temperature := None |}.

(** ** The configuration routes (the Express router over the configuration store) *)

(** What a handler hands to [res.json], with the status set before it
    (200 when the handler sets none). *)
Inductive ResponseBody :=
  | ConfigBody (config : AiConfig)
  | ProvidersBody (providers : list ProviderMetadata)
  | ErrorBody (error : string).

Record HttpResponse := {
  res_status : nat;
  res_success : bool;
  res_body : ResponseBody;
}.

Section Routes.

Variable parseConfig : string -> Result RawConfig.
Variable stringifyConfig : AiConfig -> string.
Variable env : Env.

(** [router.get("/ai", ...)].  Every value the services throw is an
    [Error], so [error instanceof Error] holds in the handler. *)
Definition getAiRoute : M HttpResponse :=
  try_catch
    (let! config := getAiConfig parseConfig stringifyConfig env in
     ret {| res_status := 200; res_success := true; res_body := ConfigBody config |})
    (fun error =>
       ret {| res_status := 500; res_success := false;
              res_body := ErrorBody (err_message error) |}).

(** [router.put("/ai", ...)]; [body] is [req.body], [None] when it is
    [undefined]. *)
Definition putAiRoute (body : option ConfigUpdate) : M HttpResponse :=
  try_catch
    (let! updated :=
       updateAiConfig parseConfig stringifyConfig env (default noUpdate body) in
     ret {| res_status := 200; res_success := true; res_body := ConfigBody updated |})
    (fun error =>
       ret {| res_status := 400; res_success := false;
              res_body := ErrorBody (err_message error) |}).

(** [router.get("/ai/providers", ...)]. *)
Definition getProvidersRoute : HttpResponse :=
  {| res_status := 200; res_success := true;
     res_body := ProvidersBody getSupportedProviders |}.

End Routes.

(** ** Well-formed session stores *)

(** Every session is registered under its own id, and no id is registered
    twice: what [Map] and the two places that call [set] guarantee. *)
Definition storeOk (m : list (string * ChatSession)) : Prop :=
  NoDup m.*1 /\ forall i k s, m !! i = Some (k, s) -> cs_id s = k.

(** A disk that cannot be written. *)
Definition readOnlyEnv : Env :=
  {| clock := clock demoEnv;
     codeContext := codeContext demoEnv;
     chatCompletion := chatCompletion demoEnv;
     chatCompletionStream := chatCompletionStream demoEnv;
     anthropicMessages := anthropicMessages demoEnv;
     fetch := fetch demoEnv;
     writeFailure := Some {| err_message := "EACCES: permission denied";
                             err_code := Some "EACCES" |} |}.

(** A stream that breaks after its first chunk, and a Gemini endpoint that
    answers with an error status. *)
Definition brokenEnv : Env :=
  {| clock := clock demoEnv;
     codeContext := codeContext demoEnv;
     chatCompletion := chatCompletion demoEnv;
     chatCompletionStream := fun _ =>
       Ok {| stream_chunks := [ {| chunk_choices := [Some (Some "Hel")] |} ];
             stream_failure := Some (mkError "socket hang up") |};
     anthropicMessages := anthropicMessages demoEnv;
     fetch := fun _ =>
       Ok {| response_ok := false;
             response_json :=
               Ok (Some {| error_message := Some "API key not valid";
                           candidates := [] |}) |};
     writeFailure := None |}.

(** A [JSON.parse] stand-in that reads every text as the empty object. *)
Definition parseEmptyObject (text : string) : Result RawConfig := Ok emptyRaw.

(** A world with nothing cached and no configuration file. *)
Definition emptyWorld : World :=
  {| chatSessions := []; cachedConfig := None; configFile := Missing;
     reads := 0; outbox := [] |}.

(** * Properties *)

(** ** Content normalizer *)

Lemma fold_left_push {A B} (f : A -> B) (l : list A) (init : list B) :
  fold_left (fun acc a => acc ++ [f a]) l init = init ++ map f l.
Proof.
  revert init. induction l as [|a l IH]; intros init; simpl.
  - by rewrite app_nil_r.
  - rewrite IH. by rewrite <- app_assoc.
Qed.

Section NormalizerFacts.

Variable decode : string -> string.

Lemma buildMessageContent_map message attachments :
  buildMessageContent decode message attachments
  = OText message :: map (openAIPart decode) attachments.
Proof. unfold buildMessageContent. by rewrite fold_left_push. Qed.

Lemma buildAnthropicContent_map message attachments :
  buildAnthropicContent decode message attachments
  = AText message :: map (anthropicPart decode) attachments.
Proof. unfold buildAnthropicContent. by rewrite fold_left_push. Qed.

Lemma buildGeminiParts_map message attachments :
  buildGeminiParts decode message attachments
  = GText message :: map (geminiPart decode) attachments.
Proof. unfold buildGeminiParts. by rewrite fold_left_push. Qed.

(** C1 (as the code has it).  Every builder returns the primary text part
    followed by one part per attachment, in the order of the attachment
    list.  The part of a document attachment at index [i] is therefore at
    index [i + 1]; for all three providers it is a text part, never an
    image or inline-data part, and its text is two line feeds, then
    [Document "<name>" content:], a line feed and the decoded data. *)
Theorem document_attachment_is_text_part message attachments i a :
  attachments !! i = Some a ->
  att_type a = document ->
  let text := nl +:+ nl +:+ "Document " +:+ dquote +:+ att_name a +:+ dquote
                 +:+ " content:" +:+ nl +:+ decode (att_data a) in
  (buildMessageContent decode message attachments !! 0 = Some (OText message)
   /\ length (buildMessageContent decode message attachments) = S (length attachments)
   /\ buildMessageContent decode message attachments !! S i = Some (OText text))
  /\ (buildAnthropicContent decode message attachments !! 0 = Some (AText message)
      /\ length (buildAnthropicContent decode message attachments) = S (length attachments)
      /\ buildAnthropicContent decode message attachments !! S i = Some (AText text))
  /\ (buildGeminiParts decode message attachments !! 0 = Some (GText message)
      /\ length (buildGeminiParts decode message attachments) = S (length attachments)
      /\ buildGeminiParts decode message attachments !! S i = Some (GText text)).
Proof.
  intros Hi Hdoc text.
  rewrite buildMessageContent_map, buildAnthropicContent_map, buildGeminiParts_map.
  simpl. rewrite !length_map, !list_lookup_fmap, Hi. simpl.
  unfold openAIPart, anthropicPart, geminiPart. rewrite Hdoc.
  repeat split.
Qed.

End NormalizerFacts.

Lemma document_attachment_is_text_part_witness :
  buildGeminiParts base64Text "hi" [pic; notes] !! 2
  = Some (GText (nl +:+ nl +:+ "Document " +:+ dquote +:+ "notes.txt" +:+ dquote
                    +:+ " content:" +:+ nl +:+ "hello")).
Proof.
  pose proof (document_attachment_is_text_part base64Text "hi" [pic; notes] 1 notes
                eq_refl eq_refl) as H.
  apply H.
Defined.

(** C1 (as stated) fails.  With an image attachment before the document,
    the part right after the primary text is the image; and the text of
    the document part starts with two line feeds, so it is not exactly
    [Document "<name>" content:] followed by a line feed and the text. *)
Lemma document_part_not_right_after_text :
  buildMessageContent base64Text "hi" [pic; notes]
  = [ OText "hi";
      OImageUrl "data:image/png;base64,iVBORw==";
      OText (nl +:+ nl +:+ "Document " +:+ dquote +:+ "notes.txt" +:+ dquote
                +:+ " content:" +:+ nl +:+ "hello") ]
  /\ buildMessageContent base64Text "hi" [pic; notes] !! 1
     <> Some (OText ("Document " +:+ dquote +:+ "notes.txt" +:+ dquote
                        +:+ " content:" +:+ nl +:+ "hello"))
  /\ buildMessageContent base64Text "hi" [notes] !! 1
     <> Some (OText ("Document " +:+ dquote +:+ "notes.txt" +:+ dquote
                        +:+ " content:" +:+ nl +:+ "hello")).
Proof. split; [reflexivity | split; vm_compute; discriminate]. Qed.

(** ** Session store *)

Lemma findByContainer_Some containerId m slot :
  findByContainer containerId m = Some slot <->
  exists k s, m !! slot = Some (k, s) /\ cs_containerId s = containerId
    /\ forall j k' s', (j < slot)%nat -> m !! j = Some (k', s') -> cs_containerId s' <> containerId.
Proof.
  unfold findByContainer. split.
  - destruct (list_find _ m) as [[i [k s]]|] eqn:E; simpl; [|done].
    intros [= <-]. apply list_find_Some in E as (Hi & HP & Hlt).
    exists k, s. split_and!; [done..|].
    intros j k' s' Hj Hl. exact (Hlt j (k', s') Hl Hj).
  - intros (k & s & Hi & HP & Hlt).
    assert (list_find (fun kv : string * ChatSession => cs_containerId kv.2 = containerId) m
            = Some (slot, (k, s))) as ->; [|done].
    apply list_find_Some. split_and!; [done..|].
    intros j [k' s'] Hl Hj. exact (Hlt j k' s' Hj Hl).
Qed.

Lemma findByContainer_None containerId m :
  findByContainer containerId m = None <->
  forall j k s, m !! j = Some (k, s) -> cs_containerId s <> containerId.
Proof.
  unfold findByContainer. rewrite fmap_None, list_find_None, Forall_lookup.
  split.
  - intros H j k s Hl. exact (H j (k, s) Hl).
  - intros H j [k s] Hl. exact (H j k s Hl).
Qed.

Lemma keyIndex_lt k m i : keyIndex k m = Some i -> (i < length m)%nat.
Proof.
  unfold keyIndex. destruct (list_find _ m) as [[j x]|] eqn:E; simpl; [|done].
  intros [= <-]. apply list_find_Some in E as (Hi & _). by eapply lookup_lt_Some.
Qed.

(** After [set], the slot of the key holds the value set. *)
Lemma mapSet_lookup k v m : mapSet k v m !! slotOf k m = Some (k, v).
Proof.
  unfold mapSet, slotOf. destruct (keyIndex k m) as [i|] eqn:E; simpl.
  - apply list_lookup_insert_eq. by eapply keyIndex_lt.
  - rewrite lookup_app_r by lia. by rewrite Nat.sub_diag.
Qed.

(** Every other slot holds what it held. *)
Lemma mapSet_lookup_ne k v m j :
  j <> slotOf k m -> mapSet k v m !! j = m !! j.
Proof.
  unfold mapSet, slotOf. destruct (keyIndex k m) as [i|] eqn:E; simpl; intros Hne.
  - by apply list_lookup_insert_ne.
  - destruct (decide (j < length m)%nat) as [Hlt|Hge].
    + by rewrite lookup_app_l.
    + rewrite lookup_app_r by lia.
      rewrite (lookup_ge_None_2 m j) by lia.
      destruct (j - length m)%nat eqn:Ed; [lia|done].
Qed.

Lemma findByContainer_mapSet containerId k v m :
  findByContainer containerId m = None ->
  cs_containerId v = containerId ->
  findByContainer containerId (mapSet k v m) = Some (slotOf k m).
Proof.
  intros Hnone Hv. apply findByContainer_Some.
  exists k, v. split_and!; [apply mapSet_lookup | done |].
  intros j k' s' Hj Hl. rewrite mapSet_lookup_ne in Hl by lia.
  eapply findByContainer_None; eauto.
Qed.

Section SessionStoreFacts.

Variable env : Env.

Lemma getOrCreateChatSession_found containerId w slot :
  findByContainer containerId (chatSessions w) = Some slot ->
  getOrCreateChatSession env containerId w = (Ok slot, w).
Proof. intros H. unfold getOrCreateChatSession, bind, gets. simpl. by rewrite H. Qed.

Lemma getOrCreateChatSession_fresh containerId w :
  findByContainer containerId (chatSessions w) = None ->
  getOrCreateChatSession env containerId w
  = (Ok (slotOf (cs_id (freshSession env containerId w)) (chatSessions w)),
     set_chatSessions (mapSet (cs_id (freshSession env containerId w)) (freshSession env containerId w))
                      (set_reads (S (S (S (reads w)))) w)).
Proof. intros H. unfold getOrCreateChatSession, bind, gets. simpl. by rewrite H. Qed.

(** C9.  [getOrCreateChatSession] always returns, and what it returns is
    the slot of the first registered session whose [containerId] matches.
    A second call with the same [containerId] returns the same slot and
    leaves the world, hence the object in that slot, as it was.  When a
    matching session was registered before the first call, that call
    changes nothing either; when none was, it registers a new session
    with no messages under the id made of the container id and the
    clock. *)
Theorem getOrCreateChatSession_idempotent containerId w :
  exists slot w1,
    getOrCreateChatSession env containerId w = (Ok slot, w1)
    /\ getOrCreateChatSession env containerId w1 = (Ok slot, w1)
    /\ (exists k s,
          chatSessions w1 !! slot = Some (k, s) /\ cs_containerId s = containerId
          /\ forall j k' s', (j < slot)%nat -> chatSessions w1 !! j = Some (k', s') ->
               cs_containerId s' <> containerId)
    /\ (forall slot0, findByContainer containerId (chatSessions w) = Some slot0 ->
          slot = slot0 /\ w1 = w)
    /\ (findByContainer containerId (chatSessions w) = None ->
          chatSessions w1
          = mapSet (cs_id (freshSession env containerId w)) (freshSession env containerId w)
                   (chatSessions w)
          /\ sessionAt slot w1 = Some (freshSession env containerId w)
          /\ cs_messages (freshSession env containerId w) = []).
Proof.
  destruct (findByContainer containerId (chatSessions w)) as [slot0|] eqn:E.
  - exists slot0, w. rewrite (getOrCreateChatSession_found _ _ _ E).
    split_and!; [done | done | by apply findByContainer_Some | | done].
    by intros ? [= <-].
  - eexists _, _. rewrite (getOrCreateChatSession_fresh _ _ E).
    assert (findByContainer containerId
              (mapSet (cs_id (freshSession env containerId w)) (freshSession env containerId w)
                      (chatSessions w))
            = Some (slotOf (cs_id (freshSession env containerId w)) (chatSessions w))) as Hf
      by (by apply findByContainer_mapSet).
    split_and!; [done | | | done |].
    + by apply getOrCreateChatSession_found.
    + by apply findByContainer_Some.
    + intros _. split_and!; [done | | done].
      unfold sessionAt. simpl. by rewrite mapSet_lookup.
Qed.

End SessionStoreFacts.

(** ** The configuration store and the collaborators leave the sessions alone *)

Section AdapterFacts.

Variable decode : string -> string.
Variable prompt : string.
Variable parseConfig : string -> Result RawConfig.
Variable stringifyConfig : AiConfig -> string.
Variable env : Env.

Lemma getAiConfig_frame w r w' :
  getAiConfig parseConfig stringifyConfig env w = (r, w') ->
  chatSessions w' = chatSessions w /\ reads w' = reads w /\ outbox w' = outbox w
  /\ forall config, r = Ok config -> cachedConfig w' = Some config.
Proof.
  unfold getAiConfig, bind, gets, readConfig, try_catch, bind, readFile, writeConfig,
    liftResult, modify, ret, throw.
  destruct (cachedConfig w) as [c|] eqn:Ec.
  { intros [= <- <-]. split_and!; try done. by intros ? [= <-]. }
  destruct (configFile w) as [|e|text]; simpl.
  - destruct (writeFailure env); simpl; intros [= <- <-]; split_and!; try done.
    by intros ? [= <-].
  - destruct (bool_decide _); [destruct (writeFailure env)|]; simpl;
      intros [= <- <-]; split_and!; try done.
    by intros ? [= <-].
  - destruct (parseConfig text) as [raw|e]; simpl.
    + intros [= <- <-]. split_and!; try done. by intros ? [= <-].
    + destruct (bool_decide _); [destruct (writeFailure env)|]; simpl;
        intros [= <- <-]; split_and!; try done.
      by intros ? [= <-].
Qed.

Lemma getSystemPrompt_frame containerId w r w' :
  getSystemPrompt prompt env containerId w = (r, w') -> w' = w.
Proof.
  unfold getSystemPrompt, bind, liftResult, ret.
  destruct (codeContext env containerId); by intros [= <- <-].
Qed.

(** [dispatch] sends one request and changes nothing else. *)
Lemma dispatch_frame aiConfig systemPrompt session userMsg w r w' :
  dispatch decode env aiConfig systemPrompt session userMsg w = (r, w') ->
  chatSessions w' = chatSessions w /\ reads w' = reads w
  /\ cachedConfig w' = cachedConfig w
  /\ exists request, outbox w' = outbox w ++ [request].
Proof.
  unfold dispatch, bind, messagesOf, gets, send, liftResult, ret, throw.
  destruct (isOpenAICompatible _); [|destruct (bool_decide _)]; simpl.
  - destruct (chatCompletion env _); intros [= <- <-]; simpl; eauto 10.
  - destruct (anthropicMessages env _); intros [= <- <-]; simpl; eauto 10.
  - destruct (fetch env _) as [resp|e]; simpl; [|intros [= <- <-]; simpl; eauto 10].
    destruct (response_json resp); simpl; [|intros [= <- <-]; simpl; eauto 10].
    destruct (negb _); intros [= <- <-]; simpl; eauto 10.
Qed.

Lemma createAssistantMessage_run slot content w :
  createAssistantMessage env slot content w
  = (Ok {| msg_id := "assistant-" +:+ pretty (clock env (reads w));
           msg_role := assistant; msg_content := content;
           msg_timestamp := clock env (S (reads w)); msg_attachments := None |},
     set_chatSessions
       (alter (fun kv => (kv.1, setUpdatedAt (clock env (S (S (reads w)))) kv.2)) slot)
       (set_reads (S (S (S (reads w))))
          (set_chatSessions
             (alter (fun kv =>
                       (kv.1, pushMessage
                                {| msg_id := "assistant-" +:+ pretty (clock env (reads w));
                                   msg_role := assistant; msg_content := content;
                                   msg_timestamp := clock env (S (reads w));
                                   msg_attachments := None |} kv.2)) slot)
             w))).
Proof. reflexivity. Qed.

Lemma getOrCreateChatSession_total containerId w :
  exists slot w0 s,
    getOrCreateChatSession env containerId w = (Ok slot, w0)
    /\ sessionAt slot w0 = Some s
    /\ cs_containerId s = containerId
    /\ (forall j s0, sessionAt j w = Some s0 -> sessionAt j w0 = Some s0 \/ j = slot)
    /\ (sessionAt slot w = Some s \/
        s = freshSession env containerId w /\ reads w0 = S (S (S (reads w))))
    /\ (reads w <= reads w0)%nat
    /\ cachedConfig w0 = cachedConfig w /\ configFile w0 = configFile w
    /\ outbox w0 = outbox w.
Proof.
  destruct (findByContainer containerId (chatSessions w)) as [slot|] eqn:E.
  - rewrite (getOrCreateChatSession_found _ _ _ _ E).
    apply findByContainer_Some in E as (k & s & Hl & Hc & _).
    exists slot, w, s. unfold sessionAt. rewrite Hl. simpl. split_and!; auto.
  - rewrite (getOrCreateChatSession_fresh _ _ _ E).
    eexists _, _, (freshSession env containerId w).
    split_and!; [done | | done | | | simpl; lia | done..].
    + unfold sessionAt. simpl. by rewrite mapSet_lookup.
    + intros j s0 Hj. unfold sessionAt in *. simpl.
      destruct (decide (j = slotOf (cs_id (freshSession env containerId w)) (chatSessions w)))
        as [->|Hne]; [by right|left].
      by rewrite mapSet_lookup_ne.
    + right. done.
Qed.

End AdapterFacts.

(** ** Single-shot call *)

Section SendMessageFacts.

Variable decode : string -> string.
Variable prompt : string.
Variable parseConfig : string -> Result RawConfig.
Variable stringifyConfig : AiConfig -> string.
Variable env : Env.

#[local] Abbreviation send_message := (sendMessage decode prompt parseConfig stringifyConfig env).
#[local] Abbreviation get_config := (getAiConfig parseConfig stringifyConfig env).

(** The steps of a call of [sendMessage], whatever its outcome. *)
Lemma sendMessage_inv containerId userMessage attachments w r w' :
  send_message containerId userMessage attachments w = (r, w') ->
  exists slot w0 userMsg w1,
    getOrCreateChatSession env containerId w = (Ok slot, w0)
    /\ newUserMessage env userMessage attachments w0
       = (Ok userMsg, set_reads (S (S (reads w0))) w0)
    /\ w1 = set_chatSessions (alter (fun kv => (kv.1, pushMessage userMsg kv.2)) slot)
                             (set_reads (S (S (reads w0))) w0)
    /\ ((exists e, r = Throw e /\ chatSessions w' = chatSessions w1 /\ reads w' = reads w1)
        \/ (exists aiConfig w2 context text w3,
              get_config w1 = (Ok aiConfig, w2)
              /\ codeContext env containerId = Ok context
              /\ dispatch decode env aiConfig
                   (prompt +:+ nl +:+ nl +:+ "Current codebase structure and content:"
                           +:+ nl +:+ context)
                   slot userMsg w2 = (Ok text, w3)
              /\ chatSessions w3 = chatSessions w1 /\ reads w3 = reads w1
              /\ exists assistantMsg,
                   createAssistantMessage env slot
                     (if negb (truthy text) then fallbackText else text) w3
                   = (Ok assistantMsg, w')
                   /\ r = Ok (userMsg, assistantMsg))).
Proof.
  unfold sendMessage. unfold bind at 1.
  destruct (getOrCreateChatSession_total env containerId w)
    as (slot & w0 & s & Hget & _). rewrite Hget.
  unfold bind at 1. unfold newUserMessage at 1. unfold bind at 1 2, now, ret. simpl.
  unfold bind at 1. unfold updateSession at 1, modify. simpl.
  set (userMsg := {| msg_id := _ |}).
  set (w1 := set_chatSessions _ _).
  intros H. exists slot, w0, userMsg, w1. split_and!; [done..|].
  unfold bind at 1 in H.
  destruct (get_config w1) as [[aiConfig|e] w2] eqn:Ecfg;
    apply getAiConfig_frame in Ecfg as Hcfg; destruct Hcfg as (Hs2 & Hr2 & _);
    [|injection H as <- <-; left; eauto].
  unfold bind at 1 in H. unfold getSystemPrompt, bind, liftResult, ret in H.
  destruct (codeContext env containerId) as [context|e] eqn:Ectx;
    [|injection H as <- <-; left; eauto].
  match type of H with
  | context [dispatch ?d ?e ?c ?sp ?sl ?u ?w] =>
      destruct (dispatch d e c sp sl u w) as [[text|err] w3] eqn:Ed
  end;
    apply dispatch_frame in Ed as Hd; destruct Hd as (Hs3 & Hr3 & _);
    [|injection H as <- <-; left; exists err; split_and!; congruence].
  right. exists aiConfig, w2, context, text, w3.
  split_and!; [done | done | done | congruence | congruence |].
  rewrite createAssistantMessage_run in H |- *.
  injection H as <- <-. eexists. split; reflexivity.
Qed.


Lemma sessionAt_alter slot f w j :
  sessionAt j (set_chatSessions (alter (fun kv => (kv.1, f kv.2)) slot) w)
  = if decide (j = slot) then f <$> sessionAt j w else sessionAt j w.
Proof.
  unfold sessionAt. simpl. destruct (decide (j = slot)) as [->|Hne].
  - rewrite list_lookup_alter_eq. by destruct (chatSessions w !! slot) as [[k s]|].
  - by rewrite list_lookup_alter_ne.
Qed.

Lemma sessionAt_ext j w w' :
  chatSessions w = chatSessions w' -> sessionAt j w = sessionAt j w'.
Proof. unfold sessionAt. by intros ->. Qed.


End SendMessageFacts.


Section DispatchFacts.

Variable decode : string -> string.
Variable env : Env.

(** What [dispatch] sent and received when it returns. *)
Lemma dispatch_inv aiConfig systemPrompt slot userMsg w text w' :
  dispatch decode env aiConfig systemPrompt slot userMsg w = (Ok text, w') ->
  let messages := from_option cs_messages [] (sessionAt slot w) in
  match cfg_provider aiConfig with
  | openai | openrouter =>
      exists completion,
        let request :=
          OpenAIChat (cfg_apiKey aiConfig)
                     (opt_or (cfg_baseUrl aiConfig) "https://api.openai.com/v1")
                     (cfg_model aiConfig) (toOpenAIMessages decode systemPrompt messages)
                     (cfg_temperature aiConfig) false in
        outbox w' = outbox w ++ [request]
        /\ chatCompletion env request = Ok completion
        /\ text = opt_or (firstContent (completion_choices completion)) fallbackText
  | anthropic =>
      exists response,
        let request :=
          AnthropicCreate (cfg_apiKey aiConfig) (cfg_baseUrl aiConfig) (cfg_model aiConfig)
                          4096 (default defaultTemperature (cfg_temperature aiConfig))
                          systemPrompt (toAnthropicMessages decode messages) in
        outbox w' = outbox w ++ [request]
        /\ anthropicMessages env request = Ok response
        /\ text = anthropicText response
  | google_gemini =>
      exists response data,
        let request :=
          GeminiFetch
            (stripTrailingSlash
               (opt_or (cfg_baseUrl aiConfig)
                       "https://generativelanguage.googleapis.com/v1beta")
               +:+ "/models/" +:+ encodeURIComponent (cfg_model aiConfig)
               +:+ ":generateContent?key=" +:+ encodeURIComponent (cfg_apiKey aiConfig))
            {| contents :=
                 toGeminiHistory decode (removelast messages)
                 ++ [ {| g_role := "user";
                         g_parts := buildGeminiParts decode (msg_content userMsg)
                                      (default [] (msg_attachments userMsg)) |} ];
               systemInstruction := {| g_role := "system"; g_parts := [GText systemPrompt] |};
               generationConfig_temperature :=
                 default defaultTemperature (cfg_temperature aiConfig) |} in
        outbox w' = outbox w ++ [request]
        /\ fetch env request = Ok response
        /\ response_json response = Ok data
        /\ response_ok response = true
        /\ text = geminiText data
  end.
Proof.
  unfold dispatch, isOpenAICompatible, bind, messagesOf, gets, send, liftResult, ret, throw.
  destruct (cfg_provider aiConfig); simpl.
  1,2: destruct (chatCompletion env _) as [c|] eqn:E; [|done];
       intros [= <- <-]; by exists c.
  - destruct (anthropicMessages env _) as [r|] eqn:E; [|done].
    intros [= <- <-]. by exists r.
  - destruct (fetch env _) as [resp|] eqn:E; [|done]. simpl.
    destruct (response_json resp) as [data|] eqn:Ej; [|done]. simpl.
    destruct (response_ok resp) eqn:Eok; [|done]. simpl.
    intros [= <- <-]. by exists resp, data.
Qed.

End DispatchFacts.

Lemma truthy_true s : truthy s = true <-> s <> EmptyString.
Proof. destruct s; simpl; split; congruence. Qed.

Lemma str_or_nonempty a b : b <> EmptyString -> str_or a b <> EmptyString.
Proof. unfold str_or. destruct a; simpl; congruence. Qed.

Lemma opt_or_str_or a b : opt_or a b = str_or (opt_or a EmptyString) b.
Proof. destruct a as [[|c s]|]; reflexivity. Qed.

Section SendMessageClaims.

Variable decode : string -> string.
Variable prompt : string.
Variable parseConfig : string -> Result RawConfig.
Variable stringifyConfig : AiConfig -> string.
Variable env : Env.

#[local] Abbreviation send_message :=
  (sendMessage decode prompt parseConfig stringifyConfig env).

(** C5.  When [sendMessage] throws, whatever the step that failed
    (configuration, context fetch, provider transport, a Gemini error
    status), the session it resolved holds exactly what it held plus the
    user message: nothing was rolled back, no assistant message was
    appended and [updatedAt] was not touched. *)
Theorem sendMessage_failure_keeps_user_message
    containerId userMessage attachments w e w' :
  send_message containerId userMessage attachments w = (Throw e, w') ->
  exists slot w0 s userMsg,
    getOrCreateChatSession env containerId w = (Ok slot, w0)
    /\ sessionAt slot w0 = Some s
    /\ msg_role userMsg = user /\ msg_content userMsg = userMessage
    /\ sessionAt slot w' = Some (pushMessage userMsg s)
    /\ cs_messages (pushMessage userMsg s) = cs_messages s ++ [userMsg]
    /\ chatSessions w'
       = alter (fun kv => (kv.1, pushMessage userMsg kv.2)) slot (chatSessions w0).
Proof.
  intros H. apply sendMessage_inv in H
    as (slot & w0 & u & w1 & Hget & Hu & Hw1 & [(e' & _ & Hs & _)|Hok]).
  2: { destruct Hok as (? & ? & ? & ? & ? & _ & _ & _ & _ & _ & ? & _ & [=]). }
  destruct (getOrCreateChatSession_total env containerId w)
    as (slot' & w0' & s & Hget' & Hs0 & _).
  rewrite Hget in Hget'. injection Hget' as <- <-.
  unfold newUserMessage, bind, now, ret in Hu. simpl in Hu. injection Hu as Hu.
  exists slot, w0, s, u. split_and!; try done.
  - by rewrite <- Hu.
  - by rewrite <- Hu.
  - rewrite (sessionAt_ext slot w' w1) by done.
    rewrite Hw1, sessionAt_alter, decide_True by done.
    change (sessionAt slot (set_reads (S (S (reads w0))) w0)) with (sessionAt slot w0).
    by rewrite Hs0.
  - rewrite Hs, Hw1. reflexivity.
Qed.

(** C6.  The assistant message [sendMessage] returns never has empty
    content, and it is the last message of the session.  Its content is
    the text of the provider's reply, or the fallback sentence when that
    text is empty: for an OpenAI-compatible provider the text is the
    content of the first choice, for Anthropic the trimmed concatenation
    of the text blocks, for Gemini the trimmed concatenation of the text
    parts of the first candidate. *)
Theorem sendMessage_empty_completion_fallback
    containerId userMessage attachments w userMsg assistantMsg w' :
  send_message containerId userMessage attachments w = (Ok (userMsg, assistantMsg), w') ->
  msg_content assistantMsg <> EmptyString
  /\ (exists slot w0 s',
        getOrCreateChatSession env containerId w = (Ok slot, w0)
        /\ sessionAt slot w' = Some s'
        /\ last (cs_messages s') = Some assistantMsg)
  /\ exists aiConfig request text,
       cachedConfig w' = Some aiConfig
       /\ last (outbox w') = Some request
       /\ match cfg_provider aiConfig with
          | openai | openrouter =>
              exists completion,
                chatCompletion env request = Ok completion
                /\ text = opt_or (firstContent (completion_choices completion)) EmptyString
          | anthropic =>
              exists response,
                anthropicMessages env request = Ok response
                /\ text = anthropicText response
          | google_gemini =>
              exists response data,
                fetch env request = Ok response
                /\ response_json response = Ok data
                /\ text = geminiText data
          end
       /\ (text = EmptyString -> msg_content assistantMsg = fallbackText)
       /\ (text <> EmptyString -> msg_content assistantMsg = text).
Proof.
  intros H. apply sendMessage_inv in H
    as (slot & w0 & u & w1 & Hget & Hu & Hw1 & [(e & [=] & _)|Hok]).
  destruct Hok as (aiConfig & w2 & context & text & w3 & Hcfg & _ & Hd & Hs3 & Hr3
                   & a & Ha & [= <- <-]).
  apply getAiConfig_frame in Hcfg as (_ & _ & _ & Hcached).
  specialize (Hcached _ eq_refl).
  apply dispatch_frame in Hd as Hframe. destruct Hframe as (_ & _ & Hc3 & _).
  apply dispatch_inv in Hd.
  rewrite createAssistantMessage_run in Ha. injection Ha as Ha <-.
  destruct (getOrCreateChatSession_total env containerId w)
    as (slot' & w0' & s & Hget' & Hs0 & _).
  rewrite Hget in Hget'. injection Hget' as <- <-.
  assert (sessionAt slot w3 = Some (pushMessage userMsg s)) as Hs3'.
  { rewrite (sessionAt_ext slot w3 w1) by done.
    rewrite Hw1, sessionAt_alter, decide_True by done.
    change (sessionAt slot (set_reads (S (S (reads w0))) w0)) with (sessionAt slot w0).
    by rewrite Hs0. }
  split_and!.
  - rewrite <- Ha. simpl. destruct (truthy text) eqn:Et; simpl; [|done].
    by apply truthy_true.
  - exists slot, w0. eexists. split; [done|].
    rewrite sessionAt_alter, decide_True by done.
    rewrite (sessionAt_ext slot (set_reads _ _) (set_chatSessions _ w3)) by done.
    rewrite sessionAt_alter, decide_True by done.
    rewrite Hs3'. simpl. split; [reflexivity|]. simpl.
    rewrite <- Ha. apply last_snoc.
  - exists aiConfig. simpl. rewrite Hc3, Hcached.
    destruct (cfg_provider aiConfig).
    1,2: destruct Hd as (c & Hout & Hc & ->);
         eexists _, (opt_or (firstContent (completion_choices c)) EmptyString);
         (split; [done|]); rewrite Hout, last_snoc; (split; [done|]);
         (split; [by exists c|]); rewrite <- Ha; simpl;
         destruct (firstContent (completion_choices c)) as [[|ch t]|]; simpl; by split.
    + destruct Hd as (r & Hout & Hr & ->).
      eexists _, (anthropicText r). split; [done|]. rewrite Hout, last_snoc. split; [done|].
      split; [by exists r|]. rewrite <- Ha. simpl.
      destruct (anthropicText r); simpl; by split.
    + destruct Hd as (resp & data & Hout & Hr & Hj & _ & ->).
      eexists _, (geminiText data). split; [done|]. rewrite Hout, last_snoc. split; [done|].
      split; [by exists resp, data|]. rewrite <- Ha. simpl.
      destruct (geminiText data); simpl; by split.
Qed.

End SendMessageClaims.

Lemma sendMessage_failure_keeps_user_message_witness :
  exists e w',
    sendMessage base64Text "PROMPT" demoParse demoStringify noContextEnv "c1" "list files" []
                (demoWorld openai)
    = (Throw e, w')
    /\ exists slot w0 s userMsg,
         getOrCreateChatSession noContextEnv "c1" (demoWorld openai) = (Ok slot, w0)
         /\ sessionAt slot w0 = Some s
         /\ sessionAt slot w' = Some (pushMessage userMsg s)
         /\ cs_messages (pushMessage userMsg s) = [userMsg].
Proof.
  eexists _, _. split; [vm_compute; reflexivity|].
  edestruct (sendMessage_failure_keeps_user_message base64Text "PROMPT" demoParse
               demoStringify noContextEnv "c1" "list files" [] (demoWorld openai))
    as (slot & w0 & s & u & H1 & H2 & _ & _ & H3 & H4 & _); [vm_compute; reflexivity|].
  exists slot, w0, s, u. split_and!; [done..|].
  rewrite H4. vm_compute in H1. injection H1 as <- <-.
  vm_compute in H2. injection H2 as <-. reflexivity.
Defined.

Lemma sendMessage_empty_completion_fallback_witness :
  exists userMsg assistantMsg w',
    sendMessage base64Text "PROMPT" demoParse demoStringify silentEnv "c1" "list files" []
                (demoWorld google_gemini)
    = (Ok (userMsg, assistantMsg), w')
    /\ msg_content assistantMsg = "Sorry, I could not generate a response.".
Proof.
  eexists _, _, _. split; [vm_compute; reflexivity|].
  edestruct (sendMessage_empty_completion_fallback base64Text "PROMPT" demoParse
               demoStringify silentEnv "c1" "list files" [] (demoWorld google_gemini))
    as (_ & _ & cfg & req & text & _); [vm_compute; reflexivity|].
  reflexivity.
Defined.

(** ** The Gemini request *)

Section GeminiFacts.

Variable decode : string -> string.
Variable prompt : string.
Variable parseConfig : string -> Result RawConfig.
Variable stringifyConfig : AiConfig -> string.
Variable env : Env.

Lemma newUserMessage_attachments userMessage attachments w userMsg w' :
  newUserMessage env userMessage attachments w = (Ok userMsg, w') ->
  msg_content userMsg = userMessage
  /\ default [] (msg_attachments userMsg) = attachments.
Proof.
  unfold newUserMessage, bind, now, ret. simpl. intros [= <- _]. simpl.
  split; [done|]. by destruct attachments.
Qed.

(** C3 (as the code has it).  On the Gemini path the [contents] of the
    request are the mapped history of the messages the session held before
    the call, followed by a separate [user] entry built from the new
    message and its attachments.  In the mapped history [assistant]
    becomes [model]; an entry is a single plain text part for an assistant
    message and for a user message without attachments, and a user
    message that carries attachments is normalized with them, exactly as
    the newest turn is. *)
Theorem gemini_contents_history_then_new_turn
    containerId userMessage attachments w userMsg assistantMsg w' aiConfig :
  sendMessage decode prompt parseConfig stringifyConfig env
              containerId userMessage attachments w
  = (Ok (userMsg, assistantMsg), w') ->
  cachedConfig w' = Some aiConfig ->
  cfg_provider aiConfig = google_gemini ->
  exists slot w0 s url body,
    getOrCreateChatSession env containerId w = (Ok slot, w0)
    /\ sessionAt slot w0 = Some s
    /\ last (outbox w') = Some (GeminiFetch url body)
    /\ contents body
       = toGeminiHistory decode (cs_messages s)
         ++ [ {| g_role := "user";
                 g_parts := buildGeminiParts decode userMessage attachments |} ]
    /\ length (contents body) = S (length (cs_messages s))
    /\ forall i m,
         cs_messages s !! i = Some m ->
         contents body !! i
         = Some {| g_role := match msg_role m with assistant => "model" | user => "user" end;
                   g_parts :=
                     match msg_role m, msg_attachments m with
                     | user, Some files => buildGeminiParts decode (msg_content m) files
                     | _, _ => [GText (msg_content m)]
                     end |}.
Proof.
  intros H Hcached Hprov. apply sendMessage_inv in H
    as (slot & w0 & u & w1 & Hget & Hu & Hw1 & [(e & [=] & _)|Hok]).
  destruct Hok as (cfg & w2 & context & text & w3 & Hcfg & _ & Hd & Hs3 & Hr3
                   & a & Ha & [= <- <-]).
  apply getAiConfig_frame in Hcfg as (Hs2 & _ & _ & Hc2).
  specialize (Hc2 _ eq_refl).
  apply dispatch_frame in Hd as Hframe. destruct Hframe as (_ & _ & Hc3 & _).
  apply dispatch_inv in Hd.
  rewrite createAssistantMessage_run in Ha. injection Ha as Ha <-.
  simpl in Hcached. rewrite Hc3, Hc2 in Hcached. injection Hcached as ->.
  rewrite Hprov in Hd. destruct Hd as (resp & data & Hout & _).
  destruct (getOrCreateChatSession_total env containerId w)
    as (slot' & w0' & s & Hget' & Hs0 & _).
  rewrite Hget in Hget'. injection Hget' as <- <-.
  assert (sessionAt slot w2 = Some (pushMessage userMsg s)) as Hsess.
  { rewrite (sessionAt_ext slot w2 w1) by done.
    rewrite Hw1, sessionAt_alter, decide_True by done.
    change (sessionAt slot (set_reads (S (S (reads w0))) w0)) with (sessionAt slot w0).
    by rewrite Hs0. }
  rewrite Hsess in Hout. simpl in Hout.
  rewrite removelast_last in Hout.
  apply newUserMessage_attachments in Hu as [Hcontent Hatt].
  rewrite Hcontent, Hatt in Hout.
  exists slot, w0, s. eexists _, _. simpl. rewrite Hout, last_snoc.
  split_and!; [done | done | reflexivity | reflexivity | |].
  - simpl. rewrite length_app. unfold toGeminiHistory. rewrite length_map. simpl. lia.
  - intros i m Hm. simpl.
    rewrite lookup_app_l.
    2: { unfold toGeminiHistory. rewrite length_map. by eapply lookup_lt_Some. }
    unfold toGeminiHistory. rewrite list_lookup_fmap, Hm. simpl.
    by destruct (msg_role m).
Qed.

End GeminiFacts.

Lemma gemini_contents_history_then_new_turn_witness :
  exists userMsg assistantMsg w',
    sendMessage base64Text "PROMPT" demoParse demoStringify demoEnv "c1" "and now?" [notes]
                worldAfterPicture
    = (Ok (userMsg, assistantMsg), w')
    /\ cachedConfig w' = Some (demoConfig google_gemini)
    /\ exists slot w0 s url body,
         getOrCreateChatSession demoEnv "c1" worldAfterPicture = (Ok slot, w0)
         /\ sessionAt slot w0 = Some s
         /\ last (outbox w') = Some (GeminiFetch url body)
         /\ contents body
            = toGeminiHistory base64Text (cs_messages s)
              ++ [ {| g_role := "user";
                      g_parts := buildGeminiParts base64Text "and now?" [notes] |} ].
Proof.
  eexists _, _, _. split; [vm_compute; reflexivity|]. split; [reflexivity|].
  edestruct (gemini_contents_history_then_new_turn base64Text "PROMPT" demoParse
               demoStringify demoEnv "c1" "and now?" [notes] worldAfterPicture)
    as (slot & w0 & s & url & body & H1 & H2 & H3 & H4 & _);
    [vm_compute; reflexivity | reflexivity | reflexivity |].
  exists slot, w0, s, url, body. auto.
Defined.

(** C3 (as stated) fails.  After a first turn that carried a picture, the
    history of the second Gemini request holds that turn with its
    inline-data part: attachments are not normalized for the newest turn
    only. *)
Lemma gemini_history_keeps_attachments :
  last (outbox (sendMessage base64Text "PROMPT" demoParse demoStringify demoEnv
                            "c1" "and now?" [] worldAfterPicture).2)
  = Some
      (GeminiFetch
         "https://generativelanguage.googleapis.com/v1beta/models/m-1:generateContent?key=k"
         {| contents :=
              [ {| g_role := "user";
                   g_parts := [GText "look"; GInlineData "image/png" "iVBORw=="] |};
                {| g_role := "model"; g_parts := [GText "Hey"] |};
                {| g_role := "user"; g_parts := [GText "and now?"] |} ];
            systemInstruction :=
              {| g_role := "system";
                 g_parts :=
                   [GText ("PROMPT" +:+ nl +:+ nl +:+ "Current codebase structure and content:"
                                    +:+ nl +:+ "{}")] |};
            generationConfig_temperature := defaultTemperature |}).
Proof. vm_compute. reflexivity. Qed.

(** ** Incremental call *)

Lemma append_cons c a b : String c a +:+ b = String c (a +:+ b).
Proof. reflexivity. Qed.

Lemma append_nil_l s : EmptyString +:+ s = s.
Proof. reflexivity. Qed.

Lemma append_nil_r s : s +:+ EmptyString = s.
Proof. induction s as [|c s IH]; [done|]. by rewrite append_cons, IH. Qed.

Lemma append_assoc a b c : (a +:+ b) +:+ c = a +:+ (b +:+ c).
Proof. induction a as [|x a IH]; [done|]. by rewrite !append_cons, IH. Qed.

Lemma length_append a b : String.length (a +:+ b) = (String.length a + String.length b)%nat.
Proof. induction a as [|x a IH]; [done|]. rewrite append_cons. simpl. by rewrite IH. Qed.

Lemma set_reads_id w : set_reads (reads w) w = w.
Proof. by destruct w. Qed.

Lemma gbind_lift_ok {A B} (m : M A) (k : A -> Gen B) w a w1 :
  m w = (Ok a, w1) -> gbind (lift m) k w = k a w1.
Proof. intros H. unfold gbind, lift. rewrite H. by destruct (k a w1) as [[evs r] w2]. Qed.

Lemma gbind_lift_throw {A B} (m : M A) (k : A -> Gen B) w e w1 :
  m w = (Throw e, w1) -> gbind (lift m) k w = (([], Throw e), w1).
Proof. intros H. unfold gbind, lift. by rewrite H. Qed.

Lemma gbind_yield {B} (e : Event) (k : unit -> Gen B) w :
  gbind (yield e) k w = (let '((evs, r), w') := k tt w in ((e :: evs, r), w')).
Proof. reflexivity. Qed.

Lemma gbind_ok {A B} (g : Gen A) (k : A -> Gen B) w evs a w1 :
  g w = ((evs, Ok a), w1) ->
  gbind g k w = (let '((evs', r), w') := k a w1 in ((evs ++ evs', r), w')).
Proof. intros H. unfold gbind. by rewrite H. Qed.

Lemma gbind_gret {A B} (a : A) (k : A -> Gen B) w : gbind (gret a) k w = k a w.
Proof. unfold gbind, gret. simpl. by destruct (k a w) as [[evs r] w']. Qed.

Lemma sessionAt_set_reads j n w : sessionAt j (set_reads n w) = sessionAt j w.
Proof. reflexivity. Qed.

Lemma sessionAt_set_outbox j o w : sessionAt j (set_outbox o w) = sessionAt j w.
Proof. reflexivity. Qed.

Section StreamFacts.

Variable decode : string -> string.
Variable prompt : string.
Variable parseConfig : string -> Result RawConfig.
Variable stringifyConfig : AiConfig -> string.
Variable env : Env.

Lemma streamLoop_run assistantId chunks accumulated w :
  streamLoop env assistantId chunks accumulated w
  = ((snapshots env assistantId (deltasOf chunks) accumulated (reads w),
      Ok (accumulated +:+ join (deltasOf chunks))),
     set_reads (reads w + length (deltasOf chunks)) w).
Proof.
  revert accumulated w. induction chunks as [|chunk rest IH]; intros accumulated w.
  - simpl. unfold gret. by rewrite append_nil_r, Nat.add_0_r, set_reads_id.
  - simpl. unfold deltasOf. simpl. fold (deltasOf rest). unfold deltaOf.
    destruct (firstContent (chunk_choices chunk)) as [content|]; [|apply IH].
    destruct (truthy content); [|apply IH].
    unfold gbind, lift, now, yield. simpl. rewrite IH. simpl.
    rewrite append_assoc. f_equal. unfold set_reads. simpl. f_equal. lia.
Qed.

Lemma snapshots_lookup assistantId deltas accumulated reading k :
  snapshots env assistantId deltas accumulated reading !! k
  = (fun _ => event ev_assistant
                {| msg_id := assistantId; msg_role := assistant;
                   msg_content := accumulated +:+ join (take (S k) deltas);
                   msg_timestamp := clock env (reading + k); msg_attachments := None |})
      <$> deltas !! k.
Proof.
  revert accumulated reading k. induction deltas as [|d ds IH]; intros acc r k; [done|].
  destruct k as [|k]; simpl.
  - destruct ds; simpl; by rewrite append_nil_r, Nat.add_0_r.
  - rewrite IH. rewrite append_assoc. by replace (S r + k)%nat with (r + S k)%nat by lia.
Qed.

Lemma snapshots_length assistantId deltas accumulated reading :
  length (snapshots env assistantId deltas accumulated reading) = length deltas.
Proof. revert accumulated reading. induction deltas; intros; simpl; auto. Qed.


#[local] Abbreviation send_stream :=
  (sendMessageStream decode prompt parseConfig stringifyConfig env).
#[local] Abbreviation get_config := (getAiConfig parseConfig stringifyConfig env).

(** A drain of the OpenAI-compatible path that ends normally. *)
Lemma sendMessageStream_openai_inv
    containerId userMessage attachments w aiConfig w1 events w' :
  get_config w = (Ok aiConfig, w1) ->
  isOpenAICompatible (cfg_provider aiConfig) = true ->
  send_stream containerId userMessage attachments w = ((events, Ok tt), w') ->
  exists slot w0 s userMsg context stream,
    getOrCreateChatSession env containerId w1 = (Ok slot, w0)
    /\ sessionAt slot w0 = Some s
    /\ newUserMessage env userMessage attachments w0
       = (Ok userMsg, set_reads (S (S (reads w0))) w0)
    /\ codeContext env containerId = Ok context
    /\ chatCompletionStream env
         (OpenAIChat (cfg_apiKey aiConfig)
                     (opt_or (cfg_baseUrl aiConfig) "https://api.openai.com/v1")
                     (cfg_model aiConfig)
                     (toOpenAIMessages decode
                        (prompt +:+ nl +:+ nl +:+ "Current codebase structure and content:"
                                +:+ nl +:+ context)
                        (cs_messages s ++ [userMsg]))
                     (cfg_temperature aiConfig) true)
       = Ok stream
    /\ stream_failure stream = None
    /\ (exists request, chatCompletionStream env request = Ok stream
                        /\ outbox w' = outbox w0 ++ [request])
    /\ let deltas := deltasOf (stream_chunks stream) in
       let reading := S (S (reads w0)) in
       let finalMsg :=
         {| msg_id := "assistant-" +:+ pretty (clock env (S reading + length deltas));
            msg_role := assistant; msg_content := join deltas;
            msg_timestamp := clock env (S (S reading + length deltas));
            msg_attachments := None |} in
       events
       = event ev_user userMsg
         :: snapshots env ("assistant-" +:+ pretty (clock env reading)) deltas
                      EmptyString (S reading)
         ++ [event ev_done finalMsg]
       /\ sessionAt slot w'
          = Some (setUpdatedAt (clock env (S (S (S reading + length deltas))))
                    (pushMessage finalMsg (pushMessage userMsg s))).
Proof.
  intros Hcfg Hcompat. unfold sendMessageStream.
  rewrite (gbind_lift_ok _ _ _ _ _ Hcfg). cbv beta. rewrite Hcompat. cbn [negb].
  destruct (getOrCreateChatSession_total env containerId w1)
    as (slot & w0 & s & Hget & Hs & _).
  rewrite (gbind_lift_ok _ _ _ _ _ Hget). cbv beta.
  assert (newUserMessage env userMessage attachments w0
          = (Ok {| msg_id := "user-" +:+ pretty (clock env (reads w0)); msg_role := user;
                   msg_content := userMessage; msg_timestamp := clock env (S (reads w0));
                   msg_attachments :=
                     if (0 <? length attachments)%nat then Some attachments else None |},
             set_reads (S (S (reads w0))) w0)) as Hu by reflexivity.
  rewrite (gbind_lift_ok _ _ _ _ _ Hu). cbv beta.
  set (userMsg := {| msg_id := _ |}) in *.
  erewrite gbind_lift_ok by reflexivity. cbv beta.
  rewrite gbind_yield.
  set (w2 := set_chatSessions _ _).
  destruct (codeContext env containerId) as [context|e] eqn:Ectx.
  2: { erewrite gbind_lift_throw; [|unfold getSystemPrompt, bind, liftResult; by rewrite Ectx].
       intros [=]. }
  erewrite gbind_lift_ok; [|unfold getSystemPrompt, bind, liftResult, ret; by rewrite Ectx].
  cbv beta.
  erewrite gbind_lift_ok by reflexivity. cbv beta.
  erewrite gbind_lift_ok by reflexivity. cbv beta.
  assert (sessionAt slot w2 = Some (pushMessage userMsg s)) as Hs2.
  { unfold w2. rewrite sessionAt_alter, decide_True by done.
    change (sessionAt slot (set_reads (S (S (reads w0))) w0)) with (sessionAt slot w0).
    by rewrite Hs. }
  rewrite Hs2. cbn [from_option pushMessage cs_messages].
  match goal with
  | |- context [send (chatCompletionStream env) ?req] =>
      destruct (chatCompletionStream env req) as [stream|e] eqn:Estream;
      [erewrite gbind_lift_ok; [|unfold send; rewrite Estream; reflexivity]
      |erewrite gbind_lift_throw; [|unfold send; rewrite Estream; reflexivity]]
  end.
  2: { intros [=]. }
  cbv beta. rewrite (gbind_ok _ _ _ _ _ _ (streamLoop_run _ _ _ _)).
  destruct (stream_failure stream) as [e|] eqn:Efail.
  { erewrite gbind_lift_throw by reflexivity. intros [=]. }
  rewrite gbind_gret. erewrite gbind_lift_ok by apply createAssistantMessage_run.
  cbv beta. unfold yield.
  intros [= <- <-].
  exists slot, w0, s, userMsg, context, stream.
  split_and!; try done.
  { eexists. split; [exact Estream|reflexivity]. }
  repeat first [ rewrite sessionAt_set_reads | rewrite sessionAt_set_outbox
               | rewrite sessionAt_alter, decide_True by done ].
  rewrite Hs2. reflexivity.
Qed.



Lemma join_app l1 l2 : join (l1 ++ l2) = join l1 +:+ join l2.
Proof.
  induction l1 as [|x l1 IH]; [done|].
  simpl. unfold join in *. simpl. by rewrite IH, append_assoc.
Qed.

Lemma join_take_length (deltas : list string) j k :
  (j <= k)%nat ->
  (String.length (join (take j deltas)) <= String.length (join (take k deltas)))%nat.
Proof.
  intros Hjk. rewrite <- (take_drop j (take k deltas)).
  rewrite take_take, Nat.min_l by done.
  rewrite join_app, length_append. lia.
Qed.

Lemma deltasOf_nil chunks :
  (forall chunk, chunk ∈ chunks -> opt_or (firstContent (chunk_choices chunk)) EmptyString = EmptyString) ->
  deltasOf chunks = [].
Proof.
  induction chunks as [|chunk rest IH]; intros H; [done|].
  change (deltasOf (chunk :: rest))
    with (match deltaOf chunk with
          | Some delta => delta :: deltasOf rest
          | None => deltasOf rest
          end).
  rewrite IH by (intros c Hc; apply H; by right).
  unfold deltaOf. specialize (H chunk (list_elem_of_here _ _)).
  by destruct (firstContent (chunk_choices chunk)) as [[|c t]|].
Qed.

(** C2.  With an OpenAI-compatible configuration, a drain that ends
    normally yields one [user] event, then one [assistant] event per
    non-empty delta of the stream, then one [done] event.  Every
    [assistant] event carries the same id and the whole text accumulated
    so far (the concatenation of the deltas up to it), so the contents
    never get shorter; the [done] event carries the message appended last
    to the session, whose content is the concatenation of all deltas. *)
Theorem stream_openai_protocol
    containerId userMessage attachments w aiConfig w1 events w' :
  get_config w = (Ok aiConfig, w1) ->
  isOpenAICompatible (cfg_provider aiConfig) = true ->
  send_stream containerId userMessage attachments w = ((events, Ok tt), w') ->
  exists userMsg snaps finalMsg assistantId deltas,
    events = event ev_user userMsg :: snaps ++ [event ev_done finalMsg]
    /\ msg_role userMsg = user /\ msg_content userMsg = userMessage
    /\ (exists request stream,
          last (outbox w') = Some request
          /\ chatCompletionStream env request = Ok stream
          /\ deltas = deltasOf (stream_chunks stream))
    /\ length snaps = length deltas
    /\ (forall k ev,
          snaps !! k = Some ev ->
          ev_type ev = ev_assistant
          /\ msg_id (ev_data ev) = assistantId
          /\ msg_role (ev_data ev) = assistant
          /\ msg_content (ev_data ev) = join (take (S k) deltas))
    /\ (forall j k ej ek,
          (j <= k)%nat -> snaps !! j = Some ej -> snaps !! k = Some ek ->
          (String.length (msg_content (ev_data ej))
           <= String.length (msg_content (ev_data ek)))%nat)
    /\ msg_role finalMsg = assistant
    /\ msg_content finalMsg = join deltas
    /\ exists slot w0 s',
         getOrCreateChatSession env containerId w1 = (Ok slot, w0)
         /\ sessionAt slot w' = Some s'
         /\ last (cs_messages s') = Some finalMsg.
Proof.
  intros Hcfg Hcompat H.
  destruct (sendMessageStream_openai_inv _ _ _ _ _ _ _ _ Hcfg Hcompat H)
    as (slot & w0 & s & userMsg & context & stream & Hget & Hs & Hu & _ & _ & _
        & (request & Hreq & Hout) & Hev & Hsess).
  unfold newUserMessage, bind, now, ret in Hu. simpl in Hu. injection Hu as Hu.
  set (deltas := deltasOf (stream_chunks stream)) in *.
  set (assistantId := "assistant-" +:+ pretty (clock env (S (S (reads w0))))) in *.
  assert (forall k ev,
            snapshots env assistantId deltas EmptyString (S (S (S (reads w0)))) !! k = Some ev ->
            ev_type ev = ev_assistant /\ msg_id (ev_data ev) = assistantId
            /\ msg_role (ev_data ev) = assistant
            /\ msg_content (ev_data ev) = join (take (S k) deltas)) as Hsnap.
  { intros k ev. rewrite snapshots_lookup.
    destruct (deltas !! k); simpl; [|done]. intros [= <-]. simpl.
    by rewrite append_nil_l. }
  eexists userMsg, _, _, assistantId, deltas.
  split; [exact Hev|]. rewrite <- Hu. simpl.
  split_and!; try done.
  - exists request, stream. rewrite Hout, last_snoc. done.
  - apply snapshots_length.
  - intros j k ej ek Hjk Hj Hk.
    apply Hsnap in Hj as (_ & _ & _ & ->). apply Hsnap in Hk as (_ & _ & _ & ->).
    apply join_take_length. lia.
  - exists slot, w0. eexists. split; [done|]. split; [exact Hsess|].
    simpl. apply last_snoc.
Qed.

(** C10.  On the OpenAI-compatible streaming path nothing replaces an
    empty reply: when no chunk of the stream carries a non-empty delta
    content, a drain that ends normally yields the [user] event and the
    [done] event only, and the message of the [done] event, which is the
    message appended last to the session, has empty content, not the
    fallback sentence. *)
Theorem stream_openai_no_fallback
    containerId userMessage attachments w aiConfig w1 events w' :
  get_config w = (Ok aiConfig, w1) ->
  isOpenAICompatible (cfg_provider aiConfig) = true ->
  (forall request stream chunk,
     chatCompletionStream env request = Ok stream ->
     chunk ∈ stream_chunks stream ->
     opt_or (firstContent (chunk_choices chunk)) EmptyString = EmptyString) ->
  send_stream containerId userMessage attachments w = ((events, Ok tt), w') ->
  exists userMsg finalMsg,
    events = [event ev_user userMsg; event ev_done finalMsg]
    /\ msg_role finalMsg = assistant
    /\ msg_content finalMsg = EmptyString
    /\ msg_content finalMsg <> fallbackText
    /\ exists slot w0 s',
         getOrCreateChatSession env containerId w1 = (Ok slot, w0)
         /\ sessionAt slot w' = Some s'
         /\ last (cs_messages s') = Some finalMsg.
Proof.
  intros Hcfg Hcompat Hsilent H.
  destruct (sendMessageStream_openai_inv _ _ _ _ _ _ _ _ Hcfg Hcompat H)
    as (slot & w0 & s & userMsg & context & stream & Hget & Hs & _ & _ & Hstream & _
        & _ & Hev & Hsess).
  assert (deltasOf (stream_chunks stream) = []) as Hnil.
  { apply deltasOf_nil. intros chunk Hin. by eapply Hsilent. }
  rewrite Hnil in Hev, Hsess. simpl in Hev, Hsess.
  eexists userMsg, _. split; [exact Hev|]. simpl.
  split_and!; try done.
  exists slot, w0. eexists. split; [done|]. split; [exact Hsess|].
  simpl. apply last_snoc.
Qed.

(** C7.  With a provider that is neither [openai] nor [openrouter], the
    generator calls [sendMessage] once.  A drain that ends normally
    yields exactly the [user] event, an [assistant] event and a [done]
    event, the last two carrying the assistant message of that call; a
    drain that fails yields no event at all. *)
Theorem stream_other_providers_three_events
    containerId userMessage attachments w aiConfig w1 events r w' :
  get_config w = (Ok aiConfig, w1) ->
  cfg_provider aiConfig <> openai ->
  cfg_provider aiConfig <> openrouter ->
  send_stream containerId userMessage attachments w = ((events, r), w') ->
  (exists userMsg assistantMsg,
     r = Ok tt
     /\ sendMessage decode prompt parseConfig stringifyConfig env
                    containerId userMessage attachments w1
        = (Ok (userMsg, assistantMsg), w')
     /\ events = [event ev_user userMsg; event ev_assistant assistantMsg;
                  event ev_done assistantMsg]
     /\ msg_content (ev_data (event ev_assistant assistantMsg))
        = msg_content (ev_data (event ev_done assistantMsg)))
  \/ (exists e,
        r = Throw e
        /\ sendMessage decode prompt parseConfig stringifyConfig env
                       containerId userMessage attachments w1
           = (Throw e, w')
        /\ events = []).
Proof.
  intros Hcfg Hne1 Hne2. unfold sendMessageStream.
  rewrite (gbind_lift_ok _ _ _ _ _ Hcfg). cbv beta.
  assert (isOpenAICompatible (cfg_provider aiConfig) = false) as ->.
  { unfold isOpenAICompatible. by rewrite !bool_decide_eq_false_2. }
  cbn [negb].
  destruct (sendMessage decode prompt parseConfig stringifyConfig env
                        containerId userMessage attachments w1)
    as [[[userMsg assistantMsg]|e] w2] eqn:Esend.
  - rewrite (gbind_lift_ok _ _ _ _ _ Esend). cbv beta.
    unfold gbind, yield. simpl. intros [= <- <- <-].
    left. by exists userMsg, assistantMsg.
  - rewrite (gbind_lift_throw _ _ _ _ _ Esend). intros [= <- <- <-].
    right. by exists e.
Qed.

End StreamFacts.

Lemma stream_openai_protocol_witness :
  exists events w',
    sendMessageStream base64Text "PROMPT" demoParse demoStringify demoEnv "c1" "list files" []
                      (demoWorld openai)
    = ((events, Ok tt), w')
    /\ exists userMsg snaps finalMsg,
         events = event ev_user userMsg :: snaps ++ [event ev_done finalMsg]
         /\ length snaps = 2%nat
         /\ msg_content finalMsg = "Hello".
Proof.
  eexists _, _. split; [vm_compute; reflexivity|].
  edestruct (stream_openai_protocol base64Text "PROMPT" demoParse demoStringify demoEnv
               "c1" "list files" [] (demoWorld openai) (demoConfig openai) (demoWorld openai))
    as (userMsg & snaps & finalMsg & assistantId & deltas & Hev & _ & _
        & (request & stream & _ & Hstream & Hdeltas) & Hlen & _ & _ & _ & Hfinal & _);
    [reflexivity | reflexivity | vm_compute; reflexivity |].
  exists userMsg, snaps, finalMsg. split; [exact Hev|].
  vm_compute in Hstream. injection Hstream as <-.
  rewrite Hlen, Hfinal, Hdeltas. split; reflexivity.
Defined.

Lemma stream_openai_no_fallback_witness :
  exists events w',
    sendMessageStream base64Text "PROMPT" demoParse demoStringify silentEnv "c1" "list files" []
                      (demoWorld openrouter)
    = ((events, Ok tt), w')
    /\ exists userMsg finalMsg,
         events = [event ev_user userMsg; event ev_done finalMsg]
         /\ msg_content finalMsg = EmptyString.
Proof.
  eexists _, _. split; [vm_compute; reflexivity|].
  edestruct (stream_openai_no_fallback base64Text "PROMPT" demoParse demoStringify silentEnv
               "c1" "list files" [] (demoWorld openrouter) (demoConfig openrouter)
               (demoWorld openrouter))
    as (userMsg & finalMsg & Hev & _ & Hempty & _);
    [reflexivity | reflexivity | | vm_compute; reflexivity |].
  - intros request stream chunk [= <-] Hin. simpl in Hin.
    repeat (apply elem_of_cons in Hin as [->|Hin]; [reflexivity|]).
    by apply elem_of_nil in Hin.
  - by exists userMsg, finalMsg.
Defined.

Lemma stream_other_providers_three_events_witness :
  exists events w',
    sendMessageStream base64Text "PROMPT" demoParse demoStringify demoEnv "c1" "list files" []
                      (demoWorld anthropic)
    = ((events, Ok tt), w')
    /\ exists userMsg assistantMsg,
         events = [event ev_user userMsg; event ev_assistant assistantMsg;
                   event ev_done assistantMsg]
         /\ msg_content assistantMsg = "Hi".
Proof.
  pose (run := sendMessageStream base64Text "PROMPT" demoParse demoStringify demoEnv
                 "c1" "list files" [] (demoWorld anthropic)).
  exists run.1.1, run.2. split; [vm_compute; reflexivity|].
  destruct (stream_other_providers_three_events base64Text "PROMPT" demoParse demoStringify
              demoEnv "c1" "list files" [] (demoWorld anthropic) (demoConfig anthropic)
              (demoWorld anthropic) run.1.1 (Ok tt) run.2
              eq_refl ltac:(vm_compute; discriminate) ltac:(vm_compute; discriminate)
              ltac:(vm_compute; reflexivity))
    as [(userMsg & assistantMsg & _ & Hsend & Hev & _)|(e & Hthrow & _)];
    [|discriminate Hthrow].
  exists userMsg, assistantMsg. split; [exact Hev|].
  vm_compute in Hsend. by injection Hsend as _ <-.
Defined.

(** ** Configuration update *)

Section ConfigFacts.

Variable parseConfig : string -> Result RawConfig.
Variable stringifyConfig : AiConfig -> string.
Variable env : Env.

#[local] Abbreviation update_config := (updateAiConfig parseConfig stringifyConfig env).

(** An empty or blank API key in the merged configuration is refused. *)
Lemma updateAiConfig_requires_apiKey update w current w1 :
  getAiConfig parseConfig stringifyConfig env w = (Ok current, w1) ->
  cfg_apiKey (normalizeConfig (spread current update)) = EmptyString ->
  update_config update w = (Throw (mkError "API key is required"), w1).
Proof.
  intros Hcur Hkey. unfold updateAiConfig, bind. rewrite Hcur. by rewrite Hkey.
Qed.

(** A temperature below 0 or above 2 is refused. *)
Lemma updateAiConfig_requires_range update w current w1 t :
  getAiConfig parseConfig stringifyConfig env w = (Ok current, w1) ->
  cfg_temperature (normalizeConfig (spread current update)) = Some t ->
  PrimFloat.ltb t 0%float || PrimFloat.ltb 2%float t = true ->
  exists e, update_config update w = (Throw e, w1).
Proof.
  intros Hcur Ht Hrange. unfold updateAiConfig, bind. rewrite Hcur, Ht.
  destruct (negb (truthy _)); [by eexists|].
  destruct (negb (truthy _)); [by eexists|].
  destruct (isNaN _); [by eexists|].
  rewrite Hrange. by eexists.
Qed.

(** What a successful update returns is the merged configuration, and it
    is the configuration cached from then on. *)
Lemma updateAiConfig_returns_merged update w merged w' :
  update_config update w = (Ok merged, w') ->
  exists current w1,
    getAiConfig parseConfig stringifyConfig env w = (Ok current, w1)
    /\ merged = normalizeConfig (spread current update)
    /\ cachedConfig w' = Some merged.
Proof.
  unfold updateAiConfig, bind.
  destruct (getAiConfig parseConfig stringifyConfig env w) as [[current|e] w1]; [|done].
  destruct (negb (truthy _)); [done|].
  destruct (negb (truthy _)); [done|].
  destruct (isNaN _); [done|].
  destruct (match cfg_temperature _ with Some _ => _ | None => _ end); [done|].
  unfold modify, writeConfig, throw, ret. simpl.
  destruct (writeFailure env); simpl; [done|].
  intros [= <- <-]. by exists current, w1.
Qed.

(** The merged configuration never has an empty model: [normalizeConfig]
    puts the default model in its place, so the test for a missing model
    in [updateAiConfig] cannot fire. *)
Lemma normalizeConfig_model_defaulted raw :
  cfg_model (normalizeConfig raw) <> EmptyString.
Proof.
  unfold normalizeConfig. simpl.
  destruct (raw_model raw) as [m|]; simpl; [|done].
  by apply str_or_nonempty.
Qed.

(** Nor can the test for a temperature that is not a number: [t || 0] is
    never [NaN]. *)
Lemma num_or_zero_not_NaN t : isNaN (num_or_zero t) = false.
Proof.
  destruct t as [f|]; simpl; [|reflexivity].
  unfold truthyNumber. destruct (isNaN f) eqn:E; simpl; [reflexivity|].
  by destruct (PrimFloat.eqb f 0).
Qed.

End ConfigFacts.

(** C8 fails on the code.  With a valid cached configuration, an update
    whose temperature is not a number ([NaN], or a value [Number] maps to
    [NaN]) is accepted, and so is an update with an empty model, which
    comes back as the default model. *)
Theorem updateAiConfig_validation_gaps :
  updateAiConfig demoParse demoStringify demoEnv (temperatureUpdate (TNumber nan))
                 (demoWorld openai)
  = (Ok {| cfg_provider := openai; cfg_apiKey := "k";
           cfg_baseUrl := Some "https://api.openai.com/v1";
           cfg_model := "m-1"; cfg_temperature := Some nan |},
     {| chatSessions := [];
        cachedConfig :=
          Some {| cfg_provider := openai; cfg_apiKey := "k";
                  cfg_baseUrl := Some "https://api.openai.com/v1";
                  cfg_model := "m-1"; cfg_temperature := Some nan |};
        configFile := Content "{}"; reads := 0; outbox := [] |})
  /\ (updateAiConfig demoParse demoStringify demoEnv (temperatureUpdate TNonNumeric)
                     (demoWorld openai)).1
     = Ok {| cfg_provider := openai; cfg_apiKey := "k";
             cfg_baseUrl := Some "https://api.openai.com/v1";
             cfg_model := "m-1"; cfg_temperature := Some nan |}
  /\ (updateAiConfig demoParse demoStringify demoEnv (modelUpdate EmptyString)
                     (demoWorld openai)).1
     = Ok {| cfg_provider := openai; cfg_apiKey := "k";
             cfg_baseUrl := Some "https://api.openai.com/v1";
             cfg_model := "gpt-4o-mini"; cfg_temperature := Some defaultTemperature |}.
Proof. split_and!; vm_compute; reflexivity. Qed.

(** The sibling checks do fire: an empty API key and a temperature out of
    range are refused. *)
Example updateAiConfig_sibling_checks :
  (updateAiConfig demoParse demoStringify demoEnv (apiKeyUpdate "  ") (demoWorld openai)).1
  = Throw (mkError "API key is required")
  /\ (updateAiConfig demoParse demoStringify demoEnv
                     (temperatureUpdate (TNumber 2.5%float)) (demoWorld openai)).1
     = Throw (mkError "Temperature must be between 0 and 2").
Proof. split; vm_compute; reflexivity. Qed.

(** ** Two runs, step by step *)

(** The scenario of the specification: Anthropic, no prior history, the
    user sends [list files] without attachments.  The request has one
    [user] entry with one text part, and the system prompt is the template
    followed by the serialized context. *)
Example anthropic_first_turn :
  outbox (sendMessage base64Text "PROMPT" demoParse demoStringify demoEnv
                      "c1" "list files" [] (demoWorld anthropic)).2
  = [ AnthropicCreate "k" None "m-1" 4096 defaultTemperature
        ("PROMPT" +:+ nl +:+ nl +:+ "Current codebase structure and content:" +:+ nl +:+ "{}")
        [ {| an_role := "user"; an_content := [AText "list files"] |} ] ].
Proof. vm_compute. reflexivity. Qed.

(** A stream of four chunks, two of which carry text: type, id, content
    and timestamp of the events of the drain. *)
Example openai_stream_trace :
  map (fun e => (ev_type e, msg_id (ev_data e), msg_content (ev_data e),
                 msg_timestamp (ev_data e)))
      (sendMessageStream base64Text "PROMPT" demoParse demoStringify demoEnv
                         "c1" "list files" [] (demoWorld openai)).1.1
  = [ (ev_user, "user-1003", "list files", 1004%Z);
      (ev_assistant, "assistant-1005", "Hel", 1006%Z);
      (ev_assistant, "assistant-1005", "Hello", 1007%Z);
      (ev_done, "assistant-1008", "Hello", 1009%Z) ].
Proof. vm_compute. reflexivity. Qed.

(** * Further properties of the adapter and of the configuration store *)

(** ** Content normalizer and history translation *)

Section MoreNormalizerFacts.

Variable decode : string -> string.

(** X1.  The part of an image attachment at index [i] is at index [i + 1]
    of every builder's result: an [image_url] part whose URL is the data
    URI made of the MIME type and the base64 data as they are for
    OpenAI-compatible providers, an [image] part with that media type and
    data for Anthropic, an [inlineData] part for Gemini.  The data is never
    decoded. *)
Theorem image_attachment_parts message attachments i a :
  attachments !! i = Some a ->
  att_type a = image ->
  buildMessageContent decode message attachments !! S i
  = Some (OImageUrl ("data:" +:+ att_mimeType a +:+ ";base64," +:+ att_data a))
  /\ buildAnthropicContent decode message attachments !! S i
     = Some (AImage (att_mimeType a) (att_data a))
  /\ buildGeminiParts decode message attachments !! S i
     = Some (GInlineData (att_mimeType a) (att_data a)).
Proof.
  intros Hi Himg.
  rewrite buildMessageContent_map, buildAnthropicContent_map, buildGeminiParts_map.
  simpl. rewrite !list_lookup_fmap, Hi. simpl.
  unfold openAIPart, anthropicPart, geminiPart. by rewrite Himg.
Qed.

(** X2.  The OpenAI-style history has exactly one [system] message, the
    first, holding the system prompt; after it the stored messages follow
    one to one with their roles.  An assistant message and a user message
    without an attachment list are sent as plain strings; a user message
    with one is sent as parts.  The Anthropic-style history has no entry
    besides the stored messages, and the content of each entry is a list
    of parts that starts with the text of the message. *)
Theorem history_translation_shape systemPrompt messages :
  toOpenAIMessages decode systemPrompt messages !! 0
  = Some {| oa_role := "system"; oa_content := OPlain systemPrompt |}
  /\ length (toOpenAIMessages decode systemPrompt messages) = S (length messages)
  /\ length (toAnthropicMessages decode messages) = length messages
  /\ forall i m,
       messages !! i = Some m ->
       exists openaiEntry anthropicEntry,
         toOpenAIMessages decode systemPrompt messages !! S i = Some openaiEntry
         /\ toAnthropicMessages decode messages !! i = Some anthropicEntry
         /\ oa_role openaiEntry = roleName (msg_role m)
         /\ an_role anthropicEntry = roleName (msg_role m)
         /\ oa_role openaiEntry <> "system"
         /\ (msg_role m = assistant \/ msg_attachments m = None ->
             oa_content openaiEntry = OPlain (msg_content m)
             /\ an_content anthropicEntry = [AText (msg_content m)])
         /\ (forall files,
               msg_role m = user -> msg_attachments m = Some files ->
               oa_content openaiEntry
               = OParts (OText (msg_content m) :: map (openAIPart decode) files)
               /\ an_content anthropicEntry
                  = AText (msg_content m) :: map (anthropicPart decode) files).
Proof.
  unfold toOpenAIMessages, toAnthropicMessages. simpl. rewrite !length_map.
  split_and!; [done..|].
  intros i m Hm. rewrite !list_lookup_fmap, Hm. simpl.
  eexists _, _. split_and!; [done | done | done | done | | |]; simpl.
  - by destruct (msg_role m).
  - intros [Hrole|Hnone].
    + by rewrite Hrole.
    + rewrite Hnone. by destruct (msg_role m).
  - intros files -> ->.
    by rewrite buildMessageContent_map, buildAnthropicContent_map.
Qed.

End MoreNormalizerFacts.

Lemma image_attachment_parts_witness :
  buildMessageContent base64Text "hi" [notes; pic] !! 2
  = Some (OImageUrl "data:image/png;base64,iVBORw==").
Proof.
  apply (image_attachment_parts base64Text "hi" [notes; pic] 1 pic eq_refl eq_refl).
Defined.

(** ** Requests of the single-shot call *)

Section RequestFacts.

Variable decode : string -> string.
Variable prompt : string.
Variable parseConfig : string -> Result RawConfig.
Variable stringifyConfig : AiConfig -> string.
Variable env : Env.

#[local] Abbreviation send_message :=
  (sendMessage decode prompt parseConfig stringifyConfig env).
#[local] Abbreviation get_config := (getAiConfig parseConfig stringifyConfig env).
#[local] Abbreviation system_prompt context :=
  (prompt +:+ nl +:+ nl +:+ "Current codebase structure and content:" +:+ nl +:+ context).

Lemma getAiConfig_cached w config :
  cachedConfig w = Some config -> get_config w = (Ok config, w).
Proof. intros H. unfold getAiConfig, bind, gets. by rewrite H. Qed.

(** [sendMessage], one step after the other. *)
Lemma sendMessage_step containerId userMessage attachments w slot w0 :
  getOrCreateChatSession env containerId w = (Ok slot, w0) ->
  send_message containerId userMessage attachments w
  = (let userMsg :=
       {| msg_id := "user-" +:+ pretty (clock env (reads w0)); msg_role := user;
          msg_content := userMessage; msg_timestamp := clock env (S (reads w0));
          msg_attachments :=
            if (0 <? length attachments)%nat then Some attachments else None |} in
     let w1 :=
       set_chatSessions (alter (fun kv => (kv.1, pushMessage userMsg kv.2)) slot)
                        (set_reads (S (S (reads w0))) w0) in
     match get_config w1 with
     | (Throw e, w2) => (Throw e, w2)
     | (Ok aiConfig, w2) =>
         match codeContext env containerId with
         | Throw e => (Throw e, w2)
         | Ok context =>
             match dispatch decode env aiConfig (system_prompt context) slot userMsg w2 with
             | (Throw e, w3) => (Throw e, w3)
             | (Ok text, w3) =>
                 match createAssistantMessage env slot
                         (if negb (truthy text) then fallbackText else text) w3 with
                 | (Ok assistantMsg, w4) => (Ok (userMsg, assistantMsg), w4)
                 | (Throw e, w4) => (Throw e, w4)
                 end
             end
         end
     end).
Proof.
  intros Hget. unfold sendMessage. unfold bind at 1. rewrite Hget.
  unfold bind at 1. unfold newUserMessage at 1. unfold bind at 1 2, now, ret. simpl.
  unfold bind at 1. unfold updateSession at 1, modify. simpl.
  unfold bind at 1.
  destruct (get_config _) as [[aiConfig|e] w2]; [|done].
  unfold bind at 1. unfold getSystemPrompt, bind, liftResult, ret.
  destruct (codeContext env containerId) as [context|e]; [|done].
  by destruct (dispatch _ _ _ _ _ _ _) as [[text|e] w3].
Qed.

(** X3.  A call of [sendMessage] sends at most one request to a provider,
    whatever its outcome, and exactly one when it returns; when the
    context of the container cannot be fetched it sends none. *)
Theorem sendMessage_sends_one_request containerId userMessage attachments w r w' :
  sendMessage decode prompt parseConfig stringifyConfig env
              containerId userMessage attachments w = (r, w') ->
  (outbox w' = outbox w \/ exists request, outbox w' = outbox w ++ [request])
  /\ (forall userMsg assistantMsg,
        r = Ok (userMsg, assistantMsg) -> exists request, outbox w' = outbox w ++ [request])
  /\ (forall e, codeContext env containerId = Throw e -> outbox w' = outbox w).
Proof.
  destruct (getOrCreateChatSession_total env containerId w)
    as (slot & w0 & s & Hget & _ & _ & _ & _ & _ & _ & _ & Hout0).
  rewrite (sendMessage_step _ _ _ _ _ _ Hget). cbv zeta.
  destruct (get_config _) as [[aiConfig|e] w2] eqn:Ecfg;
    apply getAiConfig_frame in Ecfg as (_ & _ & Hout2 & _); simpl in Hout2.
  2: { intros [= <- <-]. rewrite Hout2, Hout0. split_and!; [by left | done | done]. }
  destruct (codeContext env containerId) as [context|e] eqn:Ectx.
  2: { intros [= <- <-]. rewrite Hout2, Hout0. split_and!; [by left | done | done]. }
  destruct (dispatch _ _ _ _ _ _ _) as [[text|e] w3] eqn:Ed;
    apply dispatch_frame in Ed as (_ & _ & _ & request & Hout3).
  - rewrite createAssistantMessage_run. intros [= <- <-]. simpl.
    rewrite Hout3, Hout2, Hout0. split_and!; [right | |]; eauto. done.
  - intros [= <- <-]. rewrite Hout3, Hout2, Hout0. split_and!; [right| |]; eauto; done.
Qed.

(** X4.  The request of a call that returns, for each provider.  The
    history sent is what the session held before the call followed by the
    new user message; the system prompt is the template, an empty line, a
    heading and the serialized context.  An OpenAI-compatible request is
    not streaming and passes the configured temperature on as it is; an
    Anthropic request asks for at most 4096 tokens and, like a Gemini
    request, takes 0.2 when no temperature is configured; the Gemini URL
    is the base URL without one trailing slash, the encoded model and the
    encoded key. *)
Theorem single_shot_request
    containerId userMessage attachments w userMsg assistantMsg w' aiConfig :
  send_message containerId userMessage attachments w = (Ok (userMsg, assistantMsg), w') ->
  cachedConfig w' = Some aiConfig ->
  exists slot w0 s context,
    getOrCreateChatSession env containerId w = (Ok slot, w0)
    /\ sessionAt slot w0 = Some s
    /\ codeContext env containerId = Ok context
    /\ last (outbox w')
       = Some
           match cfg_provider aiConfig with
           | openai | openrouter =>
               OpenAIChat (cfg_apiKey aiConfig)
                          (opt_or (cfg_baseUrl aiConfig) "https://api.openai.com/v1")
                          (cfg_model aiConfig)
                          (toOpenAIMessages decode (system_prompt context)
                                            (cs_messages s ++ [userMsg]))
                          (cfg_temperature aiConfig) false
           | anthropic =>
               AnthropicCreate (cfg_apiKey aiConfig) (cfg_baseUrl aiConfig)
                               (cfg_model aiConfig) 4096
                               (default defaultTemperature (cfg_temperature aiConfig))
                               (system_prompt context)
                               (toAnthropicMessages decode (cs_messages s ++ [userMsg]))
           | google_gemini =>
               GeminiFetch
                 (stripTrailingSlash
                    (opt_or (cfg_baseUrl aiConfig)
                            "https://generativelanguage.googleapis.com/v1beta")
                    +:+ "/models/" +:+ encodeURIComponent (cfg_model aiConfig)
                    +:+ ":generateContent?key=" +:+ encodeURIComponent (cfg_apiKey aiConfig))
                 {| contents :=
                      toGeminiHistory decode (cs_messages s)
                      ++ [ {| g_role := "user";
                              g_parts := buildGeminiParts decode userMessage attachments |} ];
                    systemInstruction :=
                      {| g_role := "system"; g_parts := [GText (system_prompt context)] |};
                    generationConfig_temperature :=
                      default defaultTemperature (cfg_temperature aiConfig) |}
           end.
Proof.
  intros H Hcached. apply sendMessage_inv in H
    as (slot & w0 & u & w1 & Hget & Hu & Hw1 & [(e & [=] & _)|Hok]).
  destruct Hok as (cfg & w2 & context & text & w3 & Hcfg & Hctx & Hd & Hs3 & Hr3
                   & a & Ha & [= <- <-]).
  apply getAiConfig_frame in Hcfg as (Hs2 & _ & _ & Hc2).
  specialize (Hc2 _ eq_refl).
  apply dispatch_frame in Hd as Hframe. destruct Hframe as (_ & _ & Hc3 & _).
  apply dispatch_inv in Hd.
  rewrite createAssistantMessage_run in Ha. injection Ha as Ha <-.
  simpl in Hcached. rewrite Hc3, Hc2 in Hcached. injection Hcached as ->.
  destruct (getOrCreateChatSession_total env containerId w)
    as (slot' & w0' & s & Hget' & Hs0 & _).
  rewrite Hget in Hget'. injection Hget' as <- <-.
  assert (sessionAt slot w2 = Some (pushMessage userMsg s)) as Hsess.
  { rewrite (sessionAt_ext slot w2 w1) by done.
    rewrite Hw1, sessionAt_alter, decide_True by done.
    change (sessionAt slot (set_reads (S (S (reads w0))) w0)) with (sessionAt slot w0).
    by rewrite Hs0. }
  rewrite Hsess in Hd. simpl in Hd.
  exists slot, w0, s, context. split_and!; [done..|]. simpl.
  destruct (cfg_provider aiConfig).
  1,2: destruct Hd as (c & -> & _); by rewrite last_snoc.
  - destruct Hd as (resp & -> & _). by rewrite last_snoc.
  - destruct Hd as (resp & data & -> & _). rewrite last_snoc.
    rewrite removelast_last.
    apply newUserMessage_attachments in Hu as [-> ->]. done.
Qed.

(** X5.  When the Gemini endpoint answers with an error status, the call
    throws an [Error] whose message is the message of the error object of
    the reply, or [Gemini request failed] when the reply has none; the
    session keeps the user message and gets no assistant message. *)
Theorem gemini_error_status_is_thrown
    containerId userMessage attachments w aiConfig context response data :
  cachedConfig w = Some aiConfig ->
  cfg_provider aiConfig = google_gemini ->
  codeContext env containerId = Ok context ->
  (forall request, fetch env request = Ok response) ->
  response_ok response = false ->
  response_json response = Ok data ->
  exists w' slot w0 s userMsg,
    send_message containerId userMessage attachments w
    = (Throw (mkError (opt_or (errorMessageOf data) "Gemini request failed")), w')
    /\ getOrCreateChatSession env containerId w = (Ok slot, w0)
    /\ sessionAt slot w0 = Some s
    /\ msg_content userMsg = userMessage
    /\ sessionAt slot w' = Some (pushMessage userMsg s).
Proof.
  intros Hcached Hprov Hctx Hfetch Hok Hjson.
  destruct (getOrCreateChatSession_total env containerId w)
    as (slot & w0 & s & Hget & Hs0 & _ & _ & _ & _ & Hc0 & _).
  rewrite (sendMessage_step _ _ _ _ _ _ Hget). cbv zeta.
  rewrite getAiConfig_cached with (config := aiConfig) by (simpl; congruence).
  rewrite Hctx.
  unfold dispatch, isOpenAICompatible. rewrite Hprov. simpl.
  unfold bind, messagesOf, gets, send, liftResult, throw. rewrite Hfetch. simpl.
  rewrite Hjson, Hok. simpl.
  eexists _, slot, w0, s,
    {| msg_id := "user-" +:+ pretty (clock env (reads w0)); msg_role := user;
       msg_content := userMessage; msg_timestamp := clock env (S (reads w0));
       msg_attachments :=
         if (0 <? length attachments)%nat then Some attachments else None |}.
  split; [reflexivity|].
  split_and!; [done | done | reflexivity |].
  rewrite sessionAt_set_outbox, sessionAt_alter, decide_True by done.
  rewrite sessionAt_set_reads, Hs0. reflexivity.
Qed.

End RequestFacts.

Lemma sendMessage_sends_one_request_witness :
  exists request,
    outbox (sendMessage base64Text "PROMPT" demoParse demoStringify demoEnv
                        "c1" "list files" [] (demoWorld openai)).2
    = outbox (demoWorld openai) ++ [request].
Proof.
  pose (run := sendMessage base64Text "PROMPT" demoParse demoStringify demoEnv
                 "c1" "list files" [] (demoWorld openai)).
  destruct (sendMessage_sends_one_request base64Text "PROMPT" demoParse demoStringify demoEnv
              "c1" "list files" [] (demoWorld openai) run.1 run.2
              ltac:(vm_compute; reflexivity))
    as (_ & Hok & _).
  eapply Hok. vm_compute. reflexivity.
Defined.

Lemma single_shot_request_witness :
  exists userMsg assistantMsg w',
    sendMessage base64Text "PROMPT" demoParse demoStringify demoEnv "c1" "list files" []
                (demoWorld anthropic)
    = (Ok (userMsg, assistantMsg), w')
    /\ last (outbox w')
       = Some (AnthropicCreate "k" None "m-1" 4096 defaultTemperature
                 ("PROMPT" +:+ nl +:+ nl +:+ "Current codebase structure and content:"
                           +:+ nl +:+ "{}")
                 (toAnthropicMessages base64Text [userMsg])).
Proof.
  eexists _, _, _. split; [vm_compute; reflexivity|].
  edestruct (single_shot_request base64Text "PROMPT" demoParse demoStringify demoEnv
               "c1" "list files" [] (demoWorld anthropic))
    as (slot & w0 & s & context & H1 & H2 & H3 & H4);
    [vm_compute; reflexivity | reflexivity |].
  vm_compute in H1. injection H1 as <- <-.
  vm_compute in H2. injection H2 as <-.
  vm_compute in H3. injection H3 as <-.
  exact H4.
Defined.

Lemma gemini_error_status_is_thrown_witness :
  exists w',
    sendMessage base64Text "PROMPT" demoParse demoStringify brokenEnv "c1" "list files" []
                (demoWorld google_gemini)
    = (Throw (mkError "API key not valid"), w').
Proof.
  destruct (gemini_error_status_is_thrown base64Text "PROMPT" demoParse demoStringify
              brokenEnv "c1" "list files" [] (demoWorld google_gemini)
              (demoConfig google_gemini) "{}"
              {| response_ok := false;
                 response_json :=
                   Ok (Some {| error_message := Some "API key not valid";
                               candidates := [] |}) |}
              (Some {| error_message := Some "API key not valid"; candidates := [] |})
              eq_refl eq_refl eq_refl (fun _ => eq_refl) eq_refl eq_refl)
    as (w' & _ & _ & _ & _ & H & _).
  by exists w'.
Defined.

(** ** The Gemini URL *)

Lemma hexDigit_unreserved k : (k < 16)%nat -> unreserved (hexDigit k) = true.
Proof.
  intros Hk. do 16 (destruct k as [|k]; [reflexivity|]). lia.
Qed.

Lemma list_ascii_of_string_app a b :
  list_ascii_of_string (a +:+ b) = list_ascii_of_string a ++ list_ascii_of_string b.
Proof.
  induction a as [|c a IH]; [done|]. rewrite append_cons. simpl. by rewrite IH.
Qed.

Lemma string_of_list_ascii_app l1 l2 :
  string_of_list_ascii (l1 ++ l2) = string_of_list_ascii l1 +:+ string_of_list_ascii l2.
Proof.
  induction l1 as [|c l1 IH]; [done|]. simpl. by rewrite IH, append_cons.
Qed.

Lemma revString_app a b : revString (a +:+ b) = revString b +:+ revString a.
Proof.
  unfold revString. by rewrite list_ascii_of_string_app, rev_app_distr, string_of_list_ascii_app.
Qed.

Lemma revString_involutive s : revString (revString s) = s.
Proof.
  unfold revString.
  by rewrite list_ascii_of_string_of_list_ascii, rev_involutive, string_of_list_ascii_of_string.
Qed.

(** X6.  [encodeURIComponent] leaves a string made of letters, digits and
    the marks [-_.!~*'()] as it is, and whatever the string, every
    character of the result is one of those or a percent sign: no [&],
    [=], [?], [/], [#] or space of a model name or an API key reaches the
    URL of the Gemini request. *)
Theorem encodeURIComponent_safe s :
  (forall c, In c (list_ascii_of_string (encodeURIComponent s)) ->
             unreserved c = true \/ c = "%"%char)
  /\ (forall c, In c (list_ascii_of_string (encodeURIComponent s)) ->
                ~ In c (list_ascii_of_string "&=?/# "))
  /\ ((forall c, In c (list_ascii_of_string s) -> unreserved c = true) ->
      encodeURIComponent s = s).
Proof.
  assert (forall c, In c (list_ascii_of_string (encodeURIComponent s)) ->
                    unreserved c = true \/ c = "%"%char) as Hsafe.
  { induction s as [|a s IH]; [intros c []|]. cbn -[Nat.div Nat.modulo unreserved].
    destruct (unreserved a) eqn:Ea; cbn -[Nat.div Nat.modulo unreserved].
    - intros c [<-|Hc]; [by left|by apply IH].
    - intros c [<-|[<-|[<-|Hc]]]; [by right | left | left | by apply IH].
      + apply hexDigit_unreserved, Nat.Div0.div_lt_upper_bound.
        pose proof (nat_ascii_bounded a). lia.
      + apply hexDigit_unreserved, Nat.mod_upper_bound. lia. }
  split_and!; [exact Hsafe | |].
  - intros c Hc Hbad. destruct (Hsafe c Hc) as [Hu| ->].
    + simpl in Hbad. destruct Hbad as [<-|[<-|[<-|[<-|[<-|[<-|[]]]]]]]; discriminate Hu.
    + simpl in Hbad. destruct Hbad as [?|[?|[?|[?|[?|[?|[]]]]]]]; discriminate.
  - clear Hsafe. induction s as [|a s IH]; [done|]. intros Hall. simpl.
    rewrite (Hall a) by (by left). f_equal. apply IH. intros c Hc. apply Hall. by right.
Qed.

(** X7.  The base URL of the Gemini request loses exactly one trailing
    slash: a base URL written with a final slash gives the URL that the
    same base URL without it gives, and a base URL that does not end in a
    slash is used as it is. *)
Theorem stripTrailingSlash_one_slash s :
  stripTrailingSlash (s +:+ "/") = s
  /\ ((forall t, s <> t +:+ "/") -> stripTrailingSlash s = s).
Proof.
  split.
  - unfold stripTrailingSlash. rewrite revString_app.
    change (revString "/") with "/". rewrite append_cons, append_nil_l.
    apply revString_involutive.
  - intros Hno. unfold stripTrailingSlash.
    destruct (revString s) as [|c r] eqn:E; [done|].
    destruct (Ascii.eqb_spec c "/"%char) as [->|Hne].
    + exfalso. apply (Hno (revString r)).
      rewrite <- (revString_involutive s), E.
      change (String "/" r) with ("/" +:+ r). rewrite revString_app. done.
    + destruct c as [[] [] [] [] [] [] [] []]; try done.
Qed.

(** ** The configuration store *)

Lemma opt_or_nonempty a b : b <> EmptyString -> opt_or a b <> EmptyString.
Proof. destruct a as [s|]; simpl; [apply str_or_nonempty|done]. Qed.

Lemma providerMetadata_find p :
  exists item,
    find (fun item => bool_decide (pm_id item = p)) providerMetadata = Some item
    /\ In item providerMetadata /\ pm_id item = p
    /\ pm_defaultBaseUrl item <> EmptyString.
Proof.
  destruct p; eexists; (split; [reflexivity|]);
    (split; [simpl; tauto|]); (split; [reflexivity|done]).
Qed.

Lemma normalizeConfig_fields raw :
  cfg_model (normalizeConfig raw) <> EmptyString
  /\ (exists baseUrl, cfg_baseUrl (normalizeConfig raw) = Some baseUrl
                      /\ baseUrl <> EmptyString)
  /\ (exists t, cfg_temperature (normalizeConfig raw) = Some t).
Proof.
  unfold normalizeConfig. cbn [cfg_model cfg_baseUrl cfg_temperature].
  destruct (providerMetadata_find (default openai (raw_provider raw)))
    as (item & -> & Hin & Hid & Hurl).
  split_and!.
  - by apply opt_or_nonempty.
  - eexists. split; [reflexivity|]. apply opt_or_nonempty. simpl.
    by apply str_or_nonempty.
  - by eexists.
Qed.

(** X8.  Whatever the raw object, the configuration [normalizeConfig]
    returns has a provider, a non-empty model, a non-empty base URL and a
    temperature.  A missing provider is [openai], a missing model is
    [gpt-4o-mini], a missing base URL is the default base URL that the
    provider table gives for the provider, a missing temperature is 0.2
    and a [null] one is 0; a missing API key is the empty string. *)
Theorem normalizeConfig_fills_defaults raw :
  cfg_model (normalizeConfig raw) <> EmptyString
  /\ (exists baseUrl, cfg_baseUrl (normalizeConfig raw) = Some baseUrl
                      /\ baseUrl <> EmptyString)
  /\ (exists t, cfg_temperature (normalizeConfig raw) = Some t)
  /\ (raw_provider raw = None -> cfg_provider (normalizeConfig raw) = openai)
  /\ (raw_model raw = None -> cfg_model (normalizeConfig raw) = "gpt-4o-mini")
  /\ (raw_apiKey raw = None -> cfg_apiKey (normalizeConfig raw) = EmptyString)
  /\ (raw_baseUrl raw = None ->
      exists item,
        In item getSupportedProviders
        /\ pm_id item = cfg_provider (normalizeConfig raw)
        /\ cfg_baseUrl (normalizeConfig raw) = Some (pm_defaultBaseUrl item))
  /\ (raw_temperature raw = None ->
      cfg_temperature (normalizeConfig raw) = Some defaultTemperature)
  /\ (raw_temperature raw = Some TNull ->
      cfg_temperature (normalizeConfig raw) = Some 0%float).
Proof.
  unfold normalizeConfig, getSupportedProviders. cbn [cfg_model cfg_baseUrl cfg_temperature
    cfg_provider cfg_apiKey].
  destruct (providerMetadata_find (default openai (raw_provider raw)))
    as (item & -> & Hin & Hid & Hurl).
  split_and!.
  - by apply opt_or_nonempty.
  - eexists. split; [reflexivity|]. apply opt_or_nonempty. simpl.
    by apply str_or_nonempty.
  - by eexists.
  - by intros ->.
  - by intros ->.
  - by intros ->.
  - intros ->. exists item. split_and!; [done..|]. simpl.
    unfold str_or. by destruct (pm_defaultBaseUrl item).
  - by intros ->.
  - by intros ->.
Qed.

Section ConfigStoreFacts.

Variable parseConfig : string -> Result RawConfig.
Variable stringifyConfig : AiConfig -> string.
Variable env : Env.

#[local] Abbreviation get_config := (getAiConfig parseConfig stringifyConfig env).
#[local] Abbreviation update_config := (updateAiConfig parseConfig stringifyConfig env).

(** X9.  Once [getAiConfig] has returned a configuration, every later
    call returns that configuration and changes nothing, whatever has
    become of the configuration file in the meantime: the file is read at
    most once until an update. *)
Theorem getAiConfig_reads_once w config w1 :
  get_config w = (Ok config, w1) ->
  get_config w1 = (Ok config, w1)
  /\ forall file, get_config (set_configFile file w1) = (Ok config, set_configFile file w1).
Proof.
  intros H. apply getAiConfig_frame in H as (_ & _ & _ & Hc).
  specialize (Hc _ eq_refl).
  split; [|intros file]; unfold getAiConfig, bind, gets; simpl; by rewrite Hc.
Qed.

(** X10.  With nothing cached and no configuration file, [getAiConfig]
    returns the defaults (provider [openai], empty API key, base URL
    [https://api.openai.com/v1], model [gpt-4o-mini], temperature 0.2),
    writes them to the file and caches them; when the file cannot be
    written it throws the error of the write instead, with nothing cached
    and no file. *)
Theorem getAiConfig_missing_file w :
  cachedConfig w = None ->
  configFile w = Missing ->
  let defaults :=
    {| cfg_provider := openai; cfg_apiKey := EmptyString;
       cfg_baseUrl := Some "https://api.openai.com/v1";
       cfg_model := "gpt-4o-mini"; cfg_temperature := Some defaultTemperature |} in
  match writeFailure env with
  | None =>
      get_config w
      = (Ok defaults,
         set_cachedConfig (Some defaults)
           (set_configFile (Content (stringifyConfig defaults)) w))
  | Some e => get_config w = (Throw e, w)
  end.
Proof.
  intros Hcache Hfile defaults.
  unfold getAiConfig, bind, gets, readConfig, try_catch, bind, readFile, writeConfig,
    modify, throw, ret.
  rewrite Hcache, Hfile. simpl.
  by destruct (writeFailure env).
Qed.

(** X11.  A call of [getAiConfig] that throws caches nothing: with an
    empty cache before, the cache is empty after, the file is as it was,
    and the next call reads the file again. *)
Theorem getAiConfig_failure_not_cached w e w' :
  cachedConfig w = None ->
  getAiConfig parseConfig stringifyConfig env w = (Throw e, w') ->
  w' = w.
Proof.
  intros Hcache.
  unfold getAiConfig, bind, gets, readConfig, try_catch, bind, readFile, writeConfig,
    liftResult, modify, throw, ret.
  rewrite Hcache.
  destruct (configFile w) as [|err|text]; simpl.
  - destruct (writeFailure env); simpl; [by intros [= _ <-]|done].
  - destruct (bool_decide _); [destruct (writeFailure env)|]; simpl;
      first [by intros [= _ <-] | done].
  - destruct (parseConfig text) as [raw|err]; simpl; [done|].
    destruct (bool_decide _); [destruct (writeFailure env)|]; simpl;
      first [by intros [= _ <-] | done].
Qed.

(** X12.  The configuration a successful update returns has a non-empty
    API key, a non-empty model, a non-empty base URL and a temperature
    that is neither below 0 nor above 2; it is the cached configuration
    from then on, and the file holds its serialization. *)
Theorem updateAiConfig_postcondition update w merged w' :
  updateAiConfig parseConfig stringifyConfig env update w = (Ok merged, w') ->
  cfg_apiKey merged <> EmptyString
  /\ cfg_model merged <> EmptyString
  /\ (exists baseUrl, cfg_baseUrl merged = Some baseUrl /\ baseUrl <> EmptyString)
  /\ (exists t, cfg_temperature merged = Some t
                /\ PrimFloat.ltb t 0%float = false /\ PrimFloat.ltb 2%float t = false)
  /\ cachedConfig w' = Some merged
  /\ configFile w' = Content (stringifyConfig merged).
Proof.
  unfold updateAiConfig, bind.
  destruct (get_config w) as [[current|e] w1]; [|done].
  destruct (normalizeConfig_fields (spread current update))
    as (Hmodel & Hurl & (t & Ht)).
  destruct (negb (truthy (cfg_apiKey _))) eqn:Ekey; [done|].
  destruct (negb (truthy (cfg_model _))); [done|].
  destruct (isNaN _); [done|].
  rewrite Ht.
  destruct (PrimFloat.ltb t 0 || PrimFloat.ltb 2 t) eqn:Erange; [done|].
  apply orb_false_elim in Erange as [Hlo Hhi].
  unfold modify, writeConfig, throw, ret. simpl.
  destruct (writeFailure env); simpl; [done|].
  intros [= <- <-]. simpl.
  apply negb_false_iff, truthy_true in Ekey.
  split_and!; [done | done | done | by exists t | done | done].
Qed.

(** X13.  An update that throws with a configuration already cached
    either leaves the world exactly as it was (the update was refused), or
    failed to write the file, and then the merged configuration is already
    the cached one although the file does not hold it. *)
Theorem updateAiConfig_failure_state update w current e w' :
  cachedConfig w = Some current ->
  update_config update w = (Throw e, w') ->
  w' = w
  \/ (writeFailure env = Some e
      /\ w' = set_cachedConfig (Some (normalizeConfig (spread current update))) w
      /\ configFile w' = configFile w).
Proof.
  intros Hcache. unfold updateAiConfig, bind.
  assert (get_config w = (Ok current, w)) as ->.
  { unfold getAiConfig, bind, gets. by rewrite Hcache. }
  destruct (negb (truthy _)); [intros [= _ <-]; by left|].
  destruct (negb (truthy _)); [intros [= _ <-]; by left|].
  destruct (isNaN _); [intros [= _ <-]; by left|].
  destruct (match cfg_temperature _ with Some _ => _ | None => _ end);
    [intros [= _ <-]; by left|].
  unfold modify, writeConfig, throw, ret. simpl.
  destruct (writeFailure env) as [err|]; simpl; [|done].
  intros [= <- <-]. by right.
Qed.

End ConfigStoreFacts.

(** X14.  The providers that the provider table advertises as streaming
    are exactly those for which [sendMessageStream] takes the incremental
    path, and the table has one entry for every provider. *)
Theorem streaming_support_matches_adapter p :
  (exists item,
     filter (fun item => pm_id item = p) getSupportedProviders = [item]
     /\ pm_supportsStreaming item = isOpenAICompatible p)
  /\ (isOpenAICompatible p = true <-> p = openai \/ p = openrouter).
Proof.
  split.
  - destruct p; eexists; (split; [vm_compute; reflexivity|reflexivity]).
  - destruct p; vm_compute; split; intros H; try done; auto;
      destruct H as [H|H]; discriminate H.
Qed.

Lemma getAiConfig_reads_once_witness :
  getAiConfig demoParse demoStringify demoEnv
              (set_configFile (Content "not json") (demoWorld anthropic))
  = (Ok (demoConfig anthropic), set_configFile (Content "not json") (demoWorld anthropic)).
Proof.
  apply (getAiConfig_reads_once demoParse demoStringify demoEnv (demoWorld anthropic)
           (demoConfig anthropic) (demoWorld anthropic) eq_refl).
Defined.

Lemma getAiConfig_missing_file_witness :
  (getAiConfig demoParse demoStringify demoEnv emptyWorld).1
  = Ok {| cfg_provider := openai; cfg_apiKey := EmptyString;
          cfg_baseUrl := Some "https://api.openai.com/v1";
          cfg_model := "gpt-4o-mini"; cfg_temperature := Some defaultTemperature |}.
Proof.
  pose proof (getAiConfig_missing_file demoParse demoStringify demoEnv emptyWorld
                eq_refl eq_refl) as H.
  simpl in H. by rewrite H.
Defined.

Lemma getAiConfig_failure_not_cached_witness :
  exists e,
    getAiConfig demoParse demoStringify readOnlyEnv emptyWorld = (Throw e, emptyWorld).
Proof.
  eexists.
  rewrite <- (getAiConfig_failure_not_cached demoParse demoStringify readOnlyEnv emptyWorld
                _ (getAiConfig demoParse demoStringify readOnlyEnv emptyWorld).2
                eq_refl ltac:(vm_compute; reflexivity)) at 2.
  vm_compute. reflexivity.
Defined.

Lemma updateAiConfig_postcondition_witness :
  exists merged w',
    updateAiConfig demoParse demoStringify demoEnv (apiKeyUpdate " sk-1 ") (demoWorld openai)
    = (Ok merged, w')
    /\ cfg_apiKey merged = "sk-1"
    /\ cachedConfig w' = Some merged.
Proof.
  eexists _, _. split; [vm_compute; reflexivity|]. split; [reflexivity|].
  eapply (updateAiConfig_postcondition demoParse demoStringify demoEnv
            (apiKeyUpdate " sk-1 ") (demoWorld openai)).
  vm_compute. reflexivity.
Defined.

Lemma updateAiConfig_failure_state_witness :
  exists e w',
    updateAiConfig demoParse demoStringify readOnlyEnv (modelUpdate "m-2") (demoWorld openai)
    = (Throw e, w')
    /\ (cfg_model <$> cachedConfig w') = Some "m-2"
    /\ configFile w' = Missing.
Proof.
  eexists _, _. split; [vm_compute; reflexivity|].
  destruct (updateAiConfig_failure_state demoParse demoStringify readOnlyEnv
              (modelUpdate "m-2") (demoWorld openai) (demoConfig openai)
              {| err_message := "EACCES: permission denied"; err_code := Some "EACCES" |}
              (updateAiConfig demoParse demoStringify readOnlyEnv (modelUpdate "m-2")
                              (demoWorld openai)).2
              eq_refl ltac:(vm_compute; reflexivity))
    as [Hsame|(_ & _ & Hfile)].
  - vm_compute in Hsame. discriminate Hsame.
  - split; [reflexivity|exact Hfile].
Defined.

(** ** Trimming, and normalizing twice *)

Section TrimFacts.

Variable ws : list string.

Lemma stripPrefix_Some p s t : stripPrefix p s = Some t -> s = p +:+ t.
Proof.
  revert s. induction p as [|a p IH]; intros s.
  - simpl. intros [= ->]. reflexivity.
  - destruct s as [|b s]; simpl; [done|].
    destruct (Ascii.eqb_spec a b) as [->|]; [|done].
    intros H. rewrite append_cons. f_equal. by apply IH.
Qed.

Lemma stripPrefix_app p t : stripPrefix p (p +:+ t) = Some t.
Proof.
  induction p as [|a p IH]; [done|]. rewrite append_cons. simpl.
  by rewrite Ascii.eqb_refl.
Qed.

Lemma dropSpace_Some s t :
  dropSpace ws s = Some t -> exists p, In p ws /\ s = p +:+ t.
Proof.
  unfold dropSpace. induction ws as [|p l IH]; simpl; [done|].
  destruct (stripPrefix p s) as [t'|] eqn:E.
  - intros [= <-]. exists p. split; [by left|]. by apply stripPrefix_Some.
  - intros H. destruct (IH H) as (q & Hq & ->). exists q. split; [by right|done].
Qed.

Lemma dropSpace_prefix p t : In p ws -> dropSpace ws (p +:+ t) <> None.
Proof.
  unfold dropSpace. induction ws as [|q l IH]; simpl; [done|].
  intros [->|Hin].
  - by rewrite stripPrefix_app.
  - destruct (stripPrefix q (p +:+ t)); [done|]. by apply IH.
Qed.

Lemma trimStartFuel_fixed fuel s :
  dropSpace ws s = None -> trimStartFuel ws fuel s = s.
Proof. intros H. destruct fuel; simpl; [done|]. by rewrite H. Qed.

(** The result is what is left of the input after a prefix. *)
Lemma trimStartFuel_suffix fuel s :
  exists prefix, s = prefix +:+ trimStartFuel ws fuel s.
Proof.
  revert s. induction fuel as [|fuel IH]; intros s; simpl; [by exists EmptyString|].
  destruct (dropSpace ws s) as [t|] eqn:E; [|by exists EmptyString].
  apply dropSpace_Some in E as (p & _ & ->).
  destruct (IH t) as (prefix & Hp). exists (p +:+ prefix).
  by rewrite append_assoc, <- Hp.
Qed.

Hypothesis ws_nonempty : forall p, In p ws -> p <> EmptyString.

(** With fuel for every character, nothing is left to drop. *)
Lemma trimStartFuel_done fuel s :
  (String.length s <= fuel)%nat -> dropSpace ws (trimStartFuel ws fuel s) = None.
Proof.
  revert s. induction fuel as [|fuel IH]; intros s Hlen; simpl.
  - destruct s; [|simpl in Hlen; lia].
    destruct (dropSpace ws EmptyString) as [t|] eqn:E; [|done].
    apply dropSpace_Some in E as (p & Hp & Heq).
    destruct p; [by apply ws_nonempty in Hp|done].
  - destruct (dropSpace ws s) as [t|] eqn:E; [|done].
    apply IH. apply dropSpace_Some in E as (p & Hp & ->).
    rewrite length_append in Hlen.
    destruct p; [by apply ws_nonempty in Hp|]. simpl in Hlen. lia.
Qed.

End TrimFacts.

Lemma revString_length s : String.length (revString s) = String.length s.
Proof.
  unfold revString.
  assert (forall l, String.length (string_of_list_ascii l) = length l) as Hlen
    by (induction l; simpl; congruence).
  assert (forall t, length (list_ascii_of_string t) = String.length t) as Hlen'
    by (induction t; simpl; congruence).
  by rewrite Hlen, length_rev, Hlen'.
Qed.

Lemma whiteSpace_nonempty p : In p whiteSpace -> p <> EmptyString.
Proof.
  intros Hin Hp. subst p. vm_compute in Hin.
  repeat (destruct Hin as [Hin|Hin]; [discriminate Hin|]). done.
Qed.

Lemma whiteSpace_rev_nonempty p : In p (map revString whiteSpace) -> p <> EmptyString.
Proof.
  intros Hin Hp. subst p. vm_compute in Hin.
  repeat (destruct Hin as [Hin|Hin]; [discriminate Hin|]). done.
Qed.

Lemma trimStart_fixed s : dropSpace whiteSpace s = None -> trimStart s = s.
Proof. apply trimStartFuel_fixed. Qed.

Lemma trimStart_done s : dropSpace whiteSpace (trimStart s) = None.
Proof. apply trimStartFuel_done; [apply whiteSpace_nonempty|done]. Qed.

Lemma trimEnd_prefix s : exists suffix, s = trimEnd s +:+ suffix.
Proof.
  unfold trimEnd.
  destruct (trimStartFuel_suffix (map revString whiteSpace) (String.length s) (revString s))
    as (prefix & Hp).
  exists (revString prefix).
  rewrite <- revString_app, <- Hp. by rewrite revString_involutive.
Qed.

Lemma trimEnd_idempotent s : trimEnd (trimEnd s) = trimEnd s.
Proof.
  assert (trimEnd s
          = revString (trimStartFuel (map revString whiteSpace) (String.length s)
                                     (revString s))) as -> by reflexivity.
  unfold trimEnd. rewrite revString_involutive. f_equal.
  apply trimStartFuel_fixed.
  apply trimStartFuel_done; [apply whiteSpace_rev_nonempty|].
  by rewrite revString_length.
Qed.

Lemma trim_idempotent s : trim (trim s) = trim s.
Proof.
  unfold trim.
  assert (dropSpace whiteSpace (trimEnd (trimStart s)) = None) as Hnone.
  { destruct (dropSpace whiteSpace (trimEnd (trimStart s))) as [t|] eqn:E; [|done].
    apply dropSpace_Some in E as (p & Hp & Heq).
    destruct (trimEnd_prefix (trimStart s)) as (suffix & Hs).
    rewrite Heq, append_assoc in Hs.
    pose proof (trimStart_done s) as Hdone. rewrite Hs in Hdone.
    by apply dropSpace_prefix in Hdone. }
  rewrite (trimStart_fixed _ Hnone). apply trimEnd_idempotent.
Qed.

Lemma trim_empty : trim EmptyString = EmptyString.
Proof. reflexivity. Qed.

Lemma trim_spaces n : trim (bytes (repeat 32%nat n)) = EmptyString.
Proof.
  assert (forall fuel, (n <= fuel)%nat ->
            trimStartFuel whiteSpace fuel (bytes (repeat 32%nat n)) = EmptyString) as H.
  { induction n as [|n IH]; intros fuel Hle.
    - by destruct fuel.
    - destruct fuel as [|fuel]; [lia|].
      change (bytes (repeat 32%nat (S n))) with (String " " (bytes (repeat 32%nat n))).
      change (trimStartFuel whiteSpace (S fuel) (String " " (bytes (repeat 32%nat n))))
        with (trimStartFuel whiteSpace fuel (bytes (repeat 32%nat n))).
      apply IH. lia. }
  unfold trim, trimStart. rewrite H; [reflexivity|].
  clear H. induction n as [|n IH]; simpl; lia.
Qed.

(** Normalizing what [normalizeConfig] produced: a trimmed string stays
    as it is, and a default that was filled in is found again. *)
Lemma opt_or_trim_stable o d :
  trim d = d ->
  opt_or (trim <$> Some (opt_or (trim <$> o) d)) d = opt_or (trim <$> o) d.
Proof.
  intros Hd. destruct o as [x|]; simpl.
  - unfold str_or at 2 3. destruct (truthy (trim x)) eqn:E.
    + rewrite trim_idempotent. unfold str_or. by rewrite E.
    + rewrite Hd. unfold str_or. by destruct (truthy d).
  - rewrite Hd. unfold str_or. by destruct (truthy d).
Qed.

Lemma normalizeConfig_idempotent raw :
  normalizeConfig (spread (normalizeConfig raw) noUpdate) = normalizeConfig raw.
Proof.
  unfold normalizeConfig, spread, noUpdate.
  cbn [cfg_provider cfg_apiKey cfg_baseUrl cfg_model cfg_temperature raw_provider
       raw_apiKey raw_baseUrl raw_model raw_temperature upd_provider upd_apiKey
       upd_baseUrl upd_model upd_temperature default from_option fmap option_fmap
       option_map Number].
  f_equal.
  - apply opt_or_trim_stable. reflexivity.
  - f_equal. apply opt_or_trim_stable.
    destruct (raw_provider raw) as [[]|]; vm_compute; reflexivity.
  - apply opt_or_trim_stable. vm_compute. reflexivity.
Qed.

Section UpdateFacts.

Variable parseConfig : string -> Result RawConfig.
Variable stringifyConfig : AiConfig -> string.
Variable env : Env.

#[local] Abbreviation get_config := (getAiConfig parseConfig stringifyConfig env).
#[local] Abbreviation update_config := (updateAiConfig parseConfig stringifyConfig env).

(** X15.  An update with no key at all changes nothing of a cached
    configuration that [normalizeConfig] produced (as every configuration
    the store caches is): when it returns, it returns that configuration,
    which stays the cached one.  Normalizing is idempotent. *)
Theorem updateAiConfig_empty_update raw w merged w' :
  cachedConfig w = Some (normalizeConfig raw) ->
  update_config noUpdate w = (Ok merged, w') ->
  merged = normalizeConfig raw
  /\ cachedConfig w' = cachedConfig w
  /\ normalizeConfig (spread merged noUpdate) = merged.
Proof.
  intros Hcache H. apply updateAiConfig_returns_merged in H as (current & w1 & Hget & -> & Hc).
  rewrite (getAiConfig_cached _ _ _ _ _ Hcache) in Hget.
  assert (current = normalizeConfig raw) as -> by congruence.
  rewrite !normalizeConfig_idempotent. by rewrite Hc, Hcache, normalizeConfig_idempotent.
Qed.

(** X16.  An update is refused with [API key is required], before
    anything is cached or written, when its API key is made of spaces
    only, when it is [undefined] or [null], and when the update has no API
    key and the current configuration has an empty one (as the defaults
    have). *)
Theorem updateAiConfig_blank_apiKey_refused update w current w1 n :
  get_config w = (Ok current, w1) ->
  upd_apiKey update = Some (Some (bytes (repeat 32%nat n)))
  \/ upd_apiKey update = Some None
  \/ (upd_apiKey update = None /\ cfg_apiKey current = EmptyString) ->
  update_config update w = (Throw (mkError "API key is required"), w1).
Proof.
  intros Hget Hkey. apply (updateAiConfig_requires_apiKey _ _ _ _ _ _ _ Hget).
  unfold normalizeConfig, spread. cbn [cfg_apiKey raw_apiKey].
  destruct Hkey as [->|[->|[-> ->]]]; simpl; [|done..].
  by rewrite trim_spaces.
Qed.

End UpdateFacts.

Lemma updateAiConfig_empty_update_witness :
  exists merged w',
    updateAiConfig demoParse demoStringify demoEnv noUpdate
                   (set_cachedConfig (Some (normalizeConfig (spread (demoConfig openai)
                                                                    noUpdate)))
                                     (demoWorld openai))
    = (Ok merged, w')
    /\ merged = normalizeConfig (spread (demoConfig openai) noUpdate).
Proof.
  pose (w := set_cachedConfig (Some (normalizeConfig (spread (demoConfig openai) noUpdate)))
                              (demoWorld openai)).
  pose (run := updateAiConfig demoParse demoStringify demoEnv noUpdate w).
  exists (normalizeConfig (spread (demoConfig openai) noUpdate)), run.2.
  split; [vm_compute; reflexivity|].
  apply (updateAiConfig_empty_update demoParse demoStringify demoEnv
           (spread (demoConfig openai) noUpdate) w
           (normalizeConfig (spread (demoConfig openai) noUpdate)) run.2 eq_refl).
  vm_compute. reflexivity.
Defined.

Lemma updateAiConfig_blank_apiKey_refused_witness :
  updateAiConfig demoParse demoStringify demoEnv (apiKeyUpdate "   ") (demoWorld openai)
  = (Throw (mkError "API key is required"), demoWorld openai).
Proof.
  apply (updateAiConfig_blank_apiKey_refused demoParse demoStringify demoEnv
           (apiKeyUpdate "   ") (demoWorld openai) (demoConfig openai) (demoWorld openai) 3
           eq_refl).
  left. reflexivity.
Defined.

(** ** The session store as a map *)

Lemma keyIndex_Some k m i :
  keyIndex k m = Some i <->
  exists s, m !! i = Some (k, s)
            /\ forall j k' s', (j < i)%nat -> m !! j = Some (k', s') -> k' <> k.
Proof.
  unfold keyIndex. split.
  - destruct (list_find _ m) as [[i' [k0 s]]|] eqn:E; simpl; [|done].
    intros [= <-]. apply list_find_Some in E as (Hi & HP & Hlt). simpl in HP. subst k0.
    exists s. split; [done|]. intros j k' s' Hj Hl. exact (Hlt j (k', s') Hl Hj).
  - intros (s & Hi & Hlt).
    assert (list_find (fun kv : string * ChatSession => kv.1 = k) m = Some (i, (k, s)))
      as ->; [|done].
    apply list_find_Some. split_and!; [done..|].
    intros j [k' s'] Hl Hj. exact (Hlt j k' s' Hj Hl).
Qed.

Lemma keyIndex_None k m :
  keyIndex k m = None <-> forall j k' s', m !! j = Some (k', s') -> k' <> k.
Proof.
  unfold keyIndex. rewrite fmap_None, list_find_None, Forall_lookup. split.
  - intros H j k' s' Hl. exact (H j (k', s') Hl).
  - intros H j [k' s'] Hl. exact (H j k' s' Hl).
Qed.

Lemma mapGet_Some_intro k m i s :
  m !! i = Some (k, s) ->
  (forall j k' s', (j < i)%nat -> m !! j = Some (k', s') -> k' <> k) ->
  mapGet k m = Some s.
Proof.
  intros Hi Hlt. unfold mapGet.
  assert (list_find (fun kv : string * ChatSession => kv.1 = k) m = Some (i, (k, s)))
    as ->; [|done].
  apply list_find_Some. split_and!; [done..|].
  intros j [k' s'] Hl Hj. exact (Hlt j k' s' Hj Hl).
Qed.

Lemma mapGet_keyIndex k m :
  mapGet k m = match keyIndex k m with
               | Some i => snd <$> m !! i
               | None => None
               end.
Proof.
  unfold mapGet, keyIndex.
  destruct (list_find _ m) as [[i [k0 s]]|] eqn:E; simpl; [|done].
  apply list_find_Some in E as (-> & _). done.
Qed.

(** [get] after [set]: the value set under the key, and for every other
    key what [get] gave before. *)
Lemma mapGet_mapSet k v m : mapGet k (mapSet k v m) = Some v.
Proof.
  pose proof (mapSet_lookup k v m) as Hl.
  apply (mapGet_Some_intro _ _ _ _ Hl).
  intros j k' s' Hj Hlj. rewrite mapSet_lookup_ne in Hlj by lia.
  unfold slotOf in Hj. destruct (keyIndex k m) as [i|] eqn:E; simpl in Hj.
  - apply keyIndex_Some in E as (s & _ & Hlt). by eapply Hlt.
  - eapply keyIndex_None; eauto.
Qed.

Lemma keyIndex_mapSet_ne k v m k' : k' <> k -> keyIndex k' (mapSet k v m) = keyIndex k' m.
Proof.
  intros Hne.
  assert (forall j q s, mapSet k v m !! j = Some (q, s) -> q = k' ->
                        m !! j = Some (q, s)) as Hback.
  { intros j q s Hl ->.
    destruct (decide (j = slotOf k m)) as [->|Hj].
    - rewrite mapSet_lookup in Hl. congruence.
    - by rewrite mapSet_lookup_ne in Hl. }
  assert (forall j q s, m !! j = Some (q, s) -> q = k' ->
                        mapSet k v m !! j = Some (q, s)) as Hforth.
  { intros j q s Hl ->.
    destruct (decide (j = slotOf k m)) as [->|Hj]; [|by rewrite mapSet_lookup_ne].
    exfalso. unfold slotOf in Hl. destruct (keyIndex k m) as [i|] eqn:E; simpl in Hl.
    - apply keyIndex_Some in E as (s0 & Hi & _). congruence.
    - by rewrite lookup_ge_None_2 in Hl. }
  destruct (keyIndex k' m) as [i|] eqn:E.
  - apply keyIndex_Some in E as (s & Hi & Hlt). apply keyIndex_Some.
    exists s. split; [by apply Hforth|].
    intros j q s' Hj Hl ->. apply Hback in Hl; [|done]. by eapply Hlt.
  - apply keyIndex_None. intros j q s Hl ->. apply Hback in Hl; [|done].
    eapply keyIndex_None in E; eauto.
Qed.

Lemma mapGet_mapSet_ne k v m k' : k' <> k -> mapGet k' (mapSet k v m) = mapGet k' m.
Proof.
  intros Hne. rewrite !mapGet_keyIndex, keyIndex_mapSet_ne by done.
  destruct (keyIndex k' m) as [i|] eqn:E; [|done].
  rewrite mapSet_lookup_ne; [done|].
  intros ->. unfold slotOf in E. apply keyIndex_Some in E as (s & Hi & _).
  destruct (keyIndex k m) as [i|] eqn:E'; simpl in Hi.
  - apply keyIndex_Some in E' as (s0 & Hi' & _). congruence.
  - by rewrite lookup_ge_None_2 in Hi.
Qed.

Lemma storeOk_mapSet k v m : storeOk m -> cs_id v = k -> storeOk (mapSet k v m).
Proof.
  intros [Hnd Hid] Hv. split.
  - unfold mapSet. destruct (keyIndex k m) as [i|] eqn:E.
    + apply keyIndex_Some in E as (s & Hi & _).
      rewrite list_fmap_insert. simpl.
      rewrite list_insert_id; [done|]. by rewrite list_lookup_fmap, Hi.
    + rewrite fmap_app. simpl. apply NoDup_app. split_and!; [done | |apply NoDup_singleton].
      intros q Hq ->%list_elem_of_singleton.
      apply list_elem_of_fmap in Hq as ([q s] & Hq1 & Hq2). simpl in Hq1. subst q.
      apply list_elem_of_lookup in Hq2 as (j & Hj).
      exact (proj1 (keyIndex_None _ _) E j _ s Hj eq_refl).
  - intros i q s Hl. destruct (decide (i = slotOf k m)) as [->|Hne].
    + rewrite mapSet_lookup in Hl. congruence.
    + rewrite mapSet_lookup_ne in Hl by done. by eapply Hid.
Qed.

Lemma storeOk_alter slot f m :
  (forall s, cs_id (f s) = cs_id s) ->
  storeOk m -> storeOk (alter (fun kv => (kv.1, f kv.2)) slot m).
Proof.
  intros Hf [Hnd Hid]. split.
  - assert ((alter (fun kv : string * ChatSession => (kv.1, f kv.2)) slot m).*1 = m.*1)
      as ->; [|done].
    apply list_eq. intros j. rewrite !list_lookup_fmap.
    destruct (decide (j = slot)) as [->|Hne].
    + rewrite list_lookup_alter_eq. by destruct (m !! slot).
    + by rewrite list_lookup_alter_ne.
  - intros i q s Hl. destruct (decide (i = slot)) as [->|Hne].
    + rewrite list_lookup_alter_eq in Hl.
      destruct (m !! slot) as [[q0 s0]|] eqn:E; simpl in Hl; [|done].
      injection Hl as <- <-. rewrite Hf. by eapply Hid.
    + rewrite list_lookup_alter_ne in Hl by done. by eapply Hid.
Qed.

(** In a well-formed store a session is found under its id. *)
Lemma mapGet_storeOk m i k s : storeOk m -> m !! i = Some (k, s) -> mapGet (cs_id s) m = Some s.
Proof.
  intros [Hnd Hid] Hi. rewrite (Hid _ _ _ Hi).
  apply (mapGet_Some_intro _ _ _ _ Hi).
  intros j k' s' Hj Hl ->.
  assert (m.*1 !! j = Some k) as H1 by (by rewrite list_lookup_fmap, Hl).
  assert (m.*1 !! i = Some k) as H2 by (by rewrite list_lookup_fmap, Hi).
  pose proof (NoDup_lookup _ _ _ _ Hnd H1 H2). lia.
Qed.

Lemma chatSessions_set f w : chatSessions (set_chatSessions f w) = f (chatSessions w).
Proof. reflexivity. Qed.

Lemma chatSessions_set_reads n w : chatSessions (set_reads n w) = chatSessions w.
Proof. reflexivity. Qed.

Lemma mapSet_length_new k v m :
  keyIndex k m = None -> length (mapSet k v m) = S (length m).
Proof. intros H. unfold mapSet. rewrite H, length_app. simpl. lia. Qed.

Lemma mapSet_length_old k v m i :
  keyIndex k m = Some i -> length (mapSet k v m) = length m.
Proof. intros H. unfold mapSet. rewrite H. apply length_insert. Qed.

Section StoreFacts.

Variable env : Env.

Lemma createChatSession_run containerId w :
  createChatSession env containerId w
  = (Ok (slotOf (cs_id (freshSession env containerId w)) (chatSessions w)),
     set_chatSessions (mapSet (cs_id (freshSession env containerId w))
                              (freshSession env containerId w))
                      (set_reads (S (S (S (reads w)))) w)).
Proof. reflexivity. Qed.

(** X17.  [createChatSession] always registers a session without
    messages for the container, and [getChatSession] with its id returns
    that session right away; what [getChatSession] returns for any other
    id is what it returned before. *)
Theorem createChatSession_then_get containerId w :
  exists slot w1,
    createChatSession env containerId w = (Ok slot, w1)
    /\ sessionAt slot w1 = Some (freshSession env containerId w)
    /\ getChatSession (cs_id (freshSession env containerId w)) w1
       = (Ok (Some (freshSession env containerId w)), w1)
    /\ cs_containerId (freshSession env containerId w) = containerId
    /\ cs_messages (freshSession env containerId w) = []
    /\ forall sessionId,
         sessionId <> cs_id (freshSession env containerId w) ->
         (getChatSession sessionId w1).1 = (getChatSession sessionId w).1.
Proof.
  eexists _, _. rewrite createChatSession_run. split; [reflexivity|].
  unfold sessionAt, getChatSession, gets. simpl.
  rewrite mapSet_lookup, mapGet_mapSet. split_and!; [done..|].
  intros sessionId Hne. by rewrite mapGet_mapSet_ne.
Qed.

(** X18.  A second session created for a container does not take the
    place of the first: when the id made from the clock is new, the store
    grows by one session and [getOrCreateChatSession] still resolves the
    session it resolved before.  When that id is already registered (the
    same container, the same clock reading), the session registered under
    it is replaced by the empty one and the store does not grow. *)
Theorem createChatSession_second_session containerId w slot w1 :
  createChatSession env containerId w = (Ok slot, w1) ->
  (keyIndex (cs_id (freshSession env containerId w)) (chatSessions w) = None ->
   length (chatSessions w1) = S (length (chatSessions w))
   /\ slot = length (chatSessions w)
   /\ forall first,
        findByContainer containerId (chatSessions w) = Some first ->
        getOrCreateChatSession env containerId w1 = (Ok first, w1)
        /\ sessionAt first w1 = sessionAt first w)
  /\ (forall i,
        keyIndex (cs_id (freshSession env containerId w)) (chatSessions w) = Some i ->
        slot = i
        /\ length (chatSessions w1) = length (chatSessions w)
        /\ sessionAt i w1 = Some (freshSession env containerId w)).
Proof.
  rewrite createChatSession_run. intros [= <- <-]. split.
  - intros Hnew.
    assert (slotOf (cs_id (freshSession env containerId w)) (chatSessions w)
            = length (chatSessions w)) as Hslot
      by (unfold slotOf; by rewrite Hnew).
    change (cs_id (freshSession env containerId w))
      with (containerId +:+ "-" +:+ pretty (clock env (reads w))) in *.
    split_and!; [|done|].
    + rewrite chatSessions_set, chatSessions_set_reads. by apply mapSet_length_new.
    + intros first Hfirst.
      apply findByContainer_Some in Hfirst as (k & s & Hl & Hc & Hlt).
      assert ((first < length (chatSessions w))%nat) as Hlen by (by eapply lookup_lt_Some).
      split.
      * apply getOrCreateChatSession_found. rewrite chatSessions_set, chatSessions_set_reads.
        apply findByContainer_Some.
        exists k, s.
        split_and!; [by rewrite mapSet_lookup_ne by (rewrite Hslot; lia) | done |].
        intros j k' s' Hj Hlj.
        rewrite mapSet_lookup_ne in Hlj by (rewrite Hslot; lia). by eapply Hlt.
      * unfold sessionAt. rewrite chatSessions_set, chatSessions_set_reads.
        by rewrite mapSet_lookup_ne by (rewrite Hslot; lia).
  - intros i Hi.
    assert (slotOf (cs_id (freshSession env containerId w)) (chatSessions w) = i) as Hslot
      by (unfold slotOf; by rewrite Hi).
    change (cs_id (freshSession env containerId w))
      with (containerId +:+ "-" +:+ pretty (clock env (reads w))) in *.
    split_and!; [done | |].
    + rewrite chatSessions_set, chatSessions_set_reads. by eapply mapSet_length_old.
    + unfold sessionAt. rewrite chatSessions_set, chatSessions_set_reads.
      by rewrite <- Hslot, mapSet_lookup.
Qed.

End StoreFacts.

Lemma createChatSession_second_session_witness :
  exists slot w1,
    createChatSession demoEnv "c1" worldAfterPicture = (Ok slot, w1)
    /\ length (chatSessions w1) = 2%nat
    /\ getOrCreateChatSession demoEnv "c1" w1 = (Ok 0%nat, w1).
Proof.
  pose (run := createChatSession demoEnv "c1" worldAfterPicture).
  exists 1%nat, run.2. split.
  { vm_compute. reflexivity. }
  destruct (createChatSession_second_session demoEnv "c1" worldAfterPicture 1%nat run.2
              ltac:(vm_compute; reflexivity)) as [Hnew _].
  destruct (Hnew ltac:(vm_compute; reflexivity)) as (Hlen & _ & Hfirst).
  split; [exact Hlen|].
  apply (Hfirst 0%nat). vm_compute. reflexivity.
Defined.

(** ** The incremental call, whatever its outcome *)

Section StreamStepFacts.

Variable decode : string -> string.
Variable prompt : string.
Variable parseConfig : string -> Result RawConfig.
Variable stringifyConfig : AiConfig -> string.
Variable env : Env.

#[local] Abbreviation send_stream :=
  (sendMessageStream decode prompt parseConfig stringifyConfig env).
#[local] Abbreviation get_config := (getAiConfig parseConfig stringifyConfig env).

(** The OpenAI-compatible path, one step after the other. *)
Lemma sendMessageStream_openai_step
    containerId userMessage attachments w aiConfig w1 slot w0 s :
  get_config w = (Ok aiConfig, w1) ->
  isOpenAICompatible (cfg_provider aiConfig) = true ->
  getOrCreateChatSession env containerId w1 = (Ok slot, w0) ->
  sessionAt slot w0 = Some s ->
  send_stream containerId userMessage attachments w
  = (let userMsg :=
       {| msg_id := "user-" +:+ pretty (clock env (reads w0)); msg_role := user;
          msg_content := userMessage; msg_timestamp := clock env (S (reads w0));
          msg_attachments :=
            if (0 <? length attachments)%nat then Some attachments else None |} in
     let w2 :=
       set_chatSessions (alter (fun kv => (kv.1, pushMessage userMsg kv.2)) slot)
                        (set_reads (S (S (reads w0))) w0) in
     match codeContext env containerId with
     | Throw e => (([event ev_user userMsg], Throw e), w2)
     | Ok context =>
         let request :=
           OpenAIChat (cfg_apiKey aiConfig)
                      (opt_or (cfg_baseUrl aiConfig) "https://api.openai.com/v1")
                      (cfg_model aiConfig)
                      (toOpenAIMessages decode
                         (prompt +:+ nl +:+ nl +:+ "Current codebase structure and content:"
                                 +:+ nl +:+ context)
                         (cs_messages s ++ [userMsg]))
                      (cfg_temperature aiConfig) true in
         let w3 := set_outbox (outbox w0 ++ [request]) (set_reads (S (S (S (reads w0)))) w2) in
         match chatCompletionStream env request with
         | Throw e => (([event ev_user userMsg], Throw e), w3)
         | Ok stream =>
             let deltas := deltasOf (stream_chunks stream) in
             let snaps :=
               snapshots env ("assistant-" +:+ pretty (clock env (S (S (reads w0)))))
                         deltas EmptyString (S (S (S (reads w0)))) in
             let w4 := set_reads (S (S (S (reads w0))) + length deltas) w3 in
             match stream_failure stream with
             | Some e => ((event ev_user userMsg :: snaps, Throw e), w4)
             | None =>
                 match createAssistantMessage env slot (join deltas) w4 with
                 | (Ok finalMsg, w5) =>
                     ((event ev_user userMsg :: snaps ++ [event ev_done finalMsg], Ok tt), w5)
                 | (Throw e, w5) => ((event ev_user userMsg :: snaps, Throw e), w5)
                 end
             end
         end
     end).
Proof.
  intros Hcfg Hcompat Hget Hs. unfold sendMessageStream.
  rewrite (gbind_lift_ok _ _ _ _ _ Hcfg). cbv beta. rewrite Hcompat. cbn [negb].
  rewrite (gbind_lift_ok _ _ _ _ _ Hget). cbv beta.
  assert (newUserMessage env userMessage attachments w0
          = (Ok {| msg_id := "user-" +:+ pretty (clock env (reads w0)); msg_role := user;
                   msg_content := userMessage; msg_timestamp := clock env (S (reads w0));
                   msg_attachments :=
                     if (0 <? length attachments)%nat then Some attachments else None |},
             set_reads (S (S (reads w0))) w0)) as Hu by reflexivity.
  rewrite (gbind_lift_ok _ _ _ _ _ Hu). cbv beta zeta.
  set (userMsg := {| msg_id := _ |}) in *.
  erewrite gbind_lift_ok by reflexivity. cbv beta.
  rewrite gbind_yield.
  set (w2 := set_chatSessions _ _).
  assert (sessionAt slot w2 = Some (pushMessage userMsg s)) as Hs2.
  { unfold w2. rewrite sessionAt_alter, decide_True by done.
    by rewrite sessionAt_set_reads, Hs. }
  destruct (codeContext env containerId) as [context|e] eqn:Ectx.
  2: { erewrite gbind_lift_throw; [|unfold getSystemPrompt, bind, liftResult; by rewrite Ectx].
       reflexivity. }
  erewrite gbind_lift_ok; [|unfold getSystemPrompt, bind, liftResult, ret; by rewrite Ectx].
  cbv beta.
  erewrite gbind_lift_ok by reflexivity. cbv beta.
  erewrite gbind_lift_ok by reflexivity. cbv beta.
  rewrite Hs2. cbn [from_option pushMessage cs_messages].
  match goal with
  | |- context [send (chatCompletionStream env) ?req] =>
      destruct (chatCompletionStream env req) as [stream|e] eqn:Estream;
      [erewrite gbind_lift_ok; [|unfold send; rewrite Estream; reflexivity]
      |erewrite gbind_lift_throw; [|unfold send; rewrite Estream; reflexivity]]
  end.
  2: { reflexivity. }
  cbv beta. rewrite (gbind_ok _ _ _ _ _ _ (streamLoop_run _ _ _ _ _)).
  destruct (stream_failure stream) as [e|] eqn:Efail.
  { erewrite gbind_lift_throw by reflexivity. simpl. by rewrite app_nil_r. }
  rewrite gbind_gret. erewrite gbind_lift_ok by apply createAssistantMessage_run.
  cbv beta. unfold yield. rewrite createAssistantMessage_run. simpl.
  by rewrite append_nil_l.
Qed.

End StreamStepFacts.

(** ** Well-formed stores are kept *)

Lemma pushMessage_id m s : cs_id (pushMessage m s) = cs_id s.
Proof. reflexivity. Qed.

Lemma setUpdatedAt_id t s : cs_id (setUpdatedAt t s) = cs_id s.
Proof. reflexivity. Qed.

Lemma sessionAt_lookup slot w s :
  sessionAt slot w = Some s -> exists k, chatSessions w !! slot = Some (k, s).
Proof.
  unfold sessionAt. destruct (chatSessions w !! slot) as [[k s0]|]; simpl; [|done].
  intros [= ->]. by exists k.
Qed.

Section InvariantFacts.

Variable decode : string -> string.
Variable prompt : string.
Variable parseConfig : string -> Result RawConfig.
Variable stringifyConfig : AiConfig -> string.
Variable env : Env.

#[local] Abbreviation send_message :=
  (sendMessage decode prompt parseConfig stringifyConfig env).
#[local] Abbreviation send_stream :=
  (sendMessageStream decode prompt parseConfig stringifyConfig env).
#[local] Abbreviation get_config := (getAiConfig parseConfig stringifyConfig env).

Lemma getOrCreateChatSession_storeOk containerId w slot w0 :
  storeOk (chatSessions w) ->
  getOrCreateChatSession env containerId w = (Ok slot, w0) ->
  storeOk (chatSessions w0).
Proof.
  intros Hok. destruct (findByContainer containerId (chatSessions w)) as [i|] eqn:E.
  - rewrite (getOrCreateChatSession_found _ _ _ _ E). by intros [= _ <-].
  - rewrite (getOrCreateChatSession_fresh _ _ _ E). intros [= _ <-].
    rewrite chatSessions_set, chatSessions_set_reads. by apply storeOk_mapSet.
Qed.

(** The sessions after a call of [sendMessage]. *)
Lemma sendMessage_sessions containerId userMessage attachments w r w' :
  send_message containerId userMessage attachments w = (r, w') ->
  exists slot w0 s userMsg,
    getOrCreateChatSession env containerId w = (Ok slot, w0)
    /\ sessionAt slot w0 = Some s
    /\ cs_containerId s = containerId
    /\ ((exists e, r = Throw e)
        /\ chatSessions w'
           = alter (fun kv => (kv.1, pushMessage userMsg kv.2)) slot (chatSessions w0)
        \/ exists assistantMsg t,
             r = Ok (userMsg, assistantMsg)
             /\ chatSessions w'
                = alter (fun kv => (kv.1, setUpdatedAt t kv.2)) slot
                    (alter (fun kv => (kv.1, pushMessage assistantMsg kv.2)) slot
                       (alter (fun kv => (kv.1, pushMessage userMsg kv.2)) slot
                          (chatSessions w0)))).
Proof.
  intros H. apply sendMessage_inv in H
    as (slot & w0 & u & w1 & Hget & Hu & Hw1 & Hcases).
  destruct (getOrCreateChatSession_total env containerId w)
    as (slot' & w0' & s & Hget' & Hs0 & Hc & _).
  rewrite Hget in Hget'. injection Hget' as <- <-.
  exists slot, w0, s, u. split_and!; [done..|].
  destruct Hcases as [(e & -> & Hs & _)|Hok].
  - left. split; [by exists e|]. by rewrite Hs, Hw1.
  - destruct Hok as (cfg & w2 & context & text & w3 & _ & _ & _ & Hs3 & _ & a & Ha & ->).
    rewrite createAssistantMessage_run in Ha. injection Ha as Ha <-.
    right. eexists a, _. split; [done|].
    rewrite !chatSessions_set, chatSessions_set_reads, !chatSessions_set.
    rewrite Hs3, Hw1. rewrite chatSessions_set, chatSessions_set_reads.
    by rewrite Ha.
Qed.

Lemma sendMessage_storeOk containerId userMessage attachments w r w' :
  storeOk (chatSessions w) ->
  send_message containerId userMessage attachments w = (r, w') ->
  storeOk (chatSessions w').
Proof.
  intros Hok H. apply sendMessage_sessions in H
    as (slot & w0 & s & u & Hget & _ & _ & [[_ ->]|(a & t & _ & ->)]);
    apply (getOrCreateChatSession_storeOk _ _ _ _ Hok) in Hget;
    repeat apply storeOk_alter; done.
Qed.

Lemma sendMessageStream_storeOk containerId userMessage attachments w p w' :
  storeOk (chatSessions w) ->
  send_stream containerId userMessage attachments w = (p, w') ->
  storeOk (chatSessions w').
Proof.
  intros Hok.
  destruct (get_config w) as [[aiConfig|e] w1] eqn:Ecfg.
  2: { unfold sendMessageStream. rewrite (gbind_lift_throw _ _ _ _ _ Ecfg).
       intros [= _ <-]. apply getAiConfig_frame in Ecfg as (-> & _). done. }
  apply getAiConfig_frame in Ecfg as Hframe. destruct Hframe as (Hs1 & _).
  destruct (isOpenAICompatible (cfg_provider aiConfig)) eqn:Ecompat.
  - destruct (getOrCreateChatSession_total env containerId w1)
      as (slot & w0 & s & Hget & Hs0 & _).
    rewrite (sendMessageStream_openai_step decode prompt parseConfig stringifyConfig env
              containerId userMessage attachments _ _ _ _ _ _ Ecfg Ecompat Hget Hs0).
    cbv zeta.
    assert (storeOk (chatSessions w0)) as Hok0.
    { eapply getOrCreateChatSession_storeOk; [|exact Hget]. by rewrite Hs1. }
    destruct (codeContext env containerId) as [context|e].
    2: { intros [= _ <-]. rewrite chatSessions_set, chatSessions_set_reads.
         by apply storeOk_alter. }
    destruct (chatCompletionStream env _) as [stream|e].
    2: { intros [= _ <-]. simpl. by apply storeOk_alter. }
    destruct (stream_failure stream).
    { intros [= _ <-]. simpl. by apply storeOk_alter. }
    rewrite createAssistantMessage_run. intros [= _ <-]. simpl.
    by repeat apply storeOk_alter.
  - unfold sendMessageStream. rewrite (gbind_lift_ok _ _ _ _ _ Ecfg). cbv beta.
    rewrite Ecompat. cbn [negb].
    destruct (send_message containerId userMessage attachments w1)
      as [[[userMsg assistantMsg]|e] w2] eqn:Esend.
    + rewrite (gbind_lift_ok _ _ _ _ _ Esend). cbv beta. unfold gbind, yield. simpl.
      intros [= _ <-]. eapply sendMessage_storeOk; [|exact Esend]. by rewrite Hs1.
    + rewrite (gbind_lift_throw _ _ _ _ _ Esend). intros [= _ <-].
      eapply sendMessage_storeOk; [|exact Esend]. by rewrite Hs1.
Qed.

(** X19.  When every session is registered under its own id and no id is
    registered twice, this is still so after [createChatSession], after
    [getOrCreateChatSession], after [sendMessage] and after a drain of
    [sendMessageStream], whatever their outcome. *)
Theorem session_store_stays_well_formed w :
  storeOk (chatSessions w) ->
  (forall containerId slot w1,
     createChatSession env containerId w = (Ok slot, w1) -> storeOk (chatSessions w1))
  /\ (forall containerId slot w1,
        getOrCreateChatSession env containerId w = (Ok slot, w1) ->
        storeOk (chatSessions w1))
  /\ (forall containerId userMessage attachments r w1,
        send_message containerId userMessage attachments w = (r, w1) ->
        storeOk (chatSessions w1))
  /\ (forall containerId userMessage attachments p w1,
        send_stream containerId userMessage attachments w = (p, w1) ->
        storeOk (chatSessions w1)).
Proof.
  intros Hok. split_and!.
  - intros containerId slot w1. rewrite createChatSession_run. intros [= _ <-].
    rewrite chatSessions_set, chatSessions_set_reads. by apply storeOk_mapSet.
  - intros containerId slot w1. by apply getOrCreateChatSession_storeOk.
  - intros containerId userMessage attachments r w1. by apply sendMessage_storeOk.
  - intros containerId userMessage attachments p w1. by apply sendMessageStream_storeOk.
Qed.

(** X20.  In a well-formed store, after a call of [sendMessage] that
    returns, [getChatSession] with the id of the session of the container
    returns a session of that container whose last two messages are the
    user message and the assistant message of the call. *)
Theorem session_of_exchange_found_by_id
    containerId userMessage attachments w userMsg assistantMsg w' :
  storeOk (chatSessions w) ->
  send_message containerId userMessage attachments w = (Ok (userMsg, assistantMsg), w') ->
  exists s' earlier,
    getChatSession (cs_id s') w' = (Ok (Some s'), w')
    /\ cs_containerId s' = containerId
    /\ cs_messages s' = earlier ++ [userMsg; assistantMsg].
Proof.
  intros Hok H.
  pose proof (sendMessage_storeOk _ _ _ _ _ _ Hok H) as Hok'.
  apply sendMessage_sessions in H
    as (slot & w0 & s & u & Hget & Hs0 & Hc & [[(e & [=]) _]|(a & t & [= <- <-] & Hw')]).
  apply sessionAt_lookup in Hs0 as (k & Hl).
  assert (chatSessions w' !! slot
          = Some (k, setUpdatedAt t (pushMessage assistantMsg (pushMessage userMsg s))))
    as Hl'.
  { rewrite Hw', !list_lookup_alter_eq, Hl. reflexivity. }
  eexists _, (cs_messages s). split_and!.
  - unfold getChatSession, gets. by rewrite (mapGet_storeOk _ _ _ _ Hok' Hl').
  - done.
  - simpl. by rewrite <- app_assoc.
Qed.

End InvariantFacts.

Lemma storeOk_nil : storeOk [].
Proof. split; [apply NoDup_nil_2|]. intros i k s H. by rewrite lookup_nil in H. Qed.

Lemma session_store_stays_well_formed_witness :
  storeOk (chatSessions (sendMessage base64Text "PROMPT" demoParse demoStringify demoEnv
                                     "c1" "list files" [] (demoWorld openai)).2).
Proof.
  pose (run := sendMessage base64Text "PROMPT" demoParse demoStringify demoEnv
                 "c1" "list files" [] (demoWorld openai)).
  destruct (session_store_stays_well_formed base64Text "PROMPT" demoParse demoStringify
              demoEnv (demoWorld openai) storeOk_nil) as (_ & _ & Hsend & _).
  apply (Hsend "c1" "list files" [] run.1 run.2). apply surjective_pairing.
Defined.

Lemma session_of_exchange_found_by_id_witness :
  exists userMsg assistantMsg w',
    sendMessage base64Text "PROMPT" demoParse demoStringify demoEnv "c1" "list files" []
                (demoWorld openai)
    = (Ok (userMsg, assistantMsg), w')
    /\ exists s' earlier,
         getChatSession (cs_id s') w' = (Ok (Some s'), w')
         /\ cs_containerId s' = "c1"
         /\ cs_messages s' = earlier ++ [userMsg; assistantMsg].
Proof.
  eexists _, _, _. split; [vm_compute; reflexivity|].
  eapply (session_of_exchange_found_by_id base64Text "PROMPT" demoParse demoStringify
            demoEnv "c1" "list files" [] (demoWorld openai)); [apply storeOk_nil|].
  vm_compute. reflexivity.
Defined.

(** ** Drains that fail *)

Section StreamFailureFacts.

Variable decode : string -> string.
Variable prompt : string.
Variable parseConfig : string -> Result RawConfig.
Variable stringifyConfig : AiConfig -> string.
Variable env : Env.

#[local] Abbreviation send_stream :=
  (sendMessageStream decode prompt parseConfig stringifyConfig env).
#[local] Abbreviation get_config := (getAiConfig parseConfig stringifyConfig env).

(** X21.  When the stream breaks after it was opened, the drain ends with
    the error of the stream.  The consumer has received the [user] event
    and one [assistant] event for every non-empty delta delivered before
    the break, and no [done] event; the session holds the user message and
    no assistant message, so the text received so far is not kept. *)
Theorem stream_broken_midway
    containerId userMessage attachments w aiConfig w1 context stream e :
  get_config w = (Ok aiConfig, w1) ->
  isOpenAICompatible (cfg_provider aiConfig) = true ->
  codeContext env containerId = Ok context ->
  (forall request, chatCompletionStream env request = Ok stream) ->
  stream_failure stream = Some e ->
  exists events w' slot w0 s userMsg,
    send_stream containerId userMessage attachments w = ((events, Throw e), w')
    /\ getOrCreateChatSession env containerId w1 = (Ok slot, w0)
    /\ sessionAt slot w0 = Some s
    /\ events
       = event ev_user userMsg
         :: snapshots env ("assistant-" +:+ pretty (clock env (S (S (reads w0)))))
                      (deltasOf (stream_chunks stream)) EmptyString (S (S (S (reads w0))))
    /\ length events = S (length (deltasOf (stream_chunks stream)))
    /\ (forall ev, In ev events -> ev_type ev <> ev_done)
    /\ msg_content userMsg = userMessage
    /\ sessionAt slot w' = Some (pushMessage userMsg s).
Proof.
  intros Hcfg Hcompat Hctx Hstream Hfail.
  destruct (getOrCreateChatSession_total env containerId w1)
    as (slot & w0 & s & Hget & Hs0 & _).
  rewrite (sendMessageStream_openai_step decode prompt parseConfig stringifyConfig env
             containerId userMessage attachments _ _ _ _ _ _ Hcfg Hcompat Hget Hs0).
  cbv zeta. rewrite Hctx, Hstream, Hfail.
  eexists _, _, slot, w0, s, _. split; [reflexivity|].
  split_and!; [done | done | reflexivity | | | reflexivity |].
  - simpl. by rewrite snapshots_length.
  - intros ev [<-|Hin]; [done|].
    apply list_elem_of_In, list_elem_of_lookup in Hin as (k & Hk).
    rewrite snapshots_lookup in Hk.
    destruct (deltasOf (stream_chunks stream) !! k); simpl in Hk; [|done].
    by injection Hk as <-.
  - repeat first [ rewrite sessionAt_set_reads | rewrite sessionAt_set_outbox
                 | rewrite sessionAt_alter, decide_True by done ].
    by rewrite Hs0.
Qed.

(** X22.  When the context of the container cannot be fetched, or the
    stream cannot be opened, the consumer has received the [user] event
    and nothing else when the drain ends with that error; the session
    holds the user message and no assistant message.  No request was sent
    in the first case, one in the second. *)
Theorem stream_fails_before_first_chunk
    containerId userMessage attachments w aiConfig w1 e :
  get_config w = (Ok aiConfig, w1) ->
  isOpenAICompatible (cfg_provider aiConfig) = true ->
  codeContext env containerId = Throw e
  \/ ((exists context, codeContext env containerId = Ok context)
      /\ forall request, chatCompletionStream env request = Throw e) ->
  exists w' slot w0 s userMsg,
    send_stream containerId userMessage attachments w
    = (([event ev_user userMsg], Throw e), w')
    /\ getOrCreateChatSession env containerId w1 = (Ok slot, w0)
    /\ sessionAt slot w0 = Some s
    /\ msg_content userMsg = userMessage
    /\ sessionAt slot w' = Some (pushMessage userMsg s)
    /\ (codeContext env containerId = Throw e -> outbox w' = outbox w)
    /\ ((exists context, codeContext env containerId = Ok context) ->
        exists request, outbox w' = outbox w ++ [request]).
Proof.
  intros Hcfg Hcompat Hcases.
  destruct (getOrCreateChatSession_total env containerId w1)
    as (slot & w0 & s & Hget & Hs0 & _ & _ & _ & _ & _ & _ & Hout0).
  apply getAiConfig_frame in Hcfg as Hframe. destruct Hframe as (_ & _ & Hout1 & _).
  rewrite (sendMessageStream_openai_step decode prompt parseConfig stringifyConfig env
             containerId userMessage attachments _ _ _ _ _ _ Hcfg Hcompat Hget Hs0).
  cbv zeta.
  destruct Hcases as [Hctx|[(context & Hctx) Hstream]]; rewrite Hctx; [|rewrite Hstream];
    (eexists _, slot, w0, s, _; split; [reflexivity|]);
    (split_and!; [done | done | reflexivity | | |]).
  - rewrite sessionAt_alter, decide_True by done. by rewrite sessionAt_set_reads, Hs0.
  - intros _. simpl. congruence.
  - intros (c & [=]).
  - repeat first [ rewrite sessionAt_set_reads | rewrite sessionAt_set_outbox
                 | rewrite sessionAt_alter, decide_True by done ].
    by rewrite Hs0.
  - intros [=].
  - intros _. eexists. simpl. by rewrite Hout0, Hout1.
Qed.

(** X23.  A drain of the OpenAI-compatible path that ends normally has
    appended to the session the user message of the [user] event and then
    the message of the [done] event, and nothing else, and has sent one
    request: a streaming request with the system prompt, the history the
    session held before and the new user message. *)
Theorem stream_appends_user_then_final
    containerId userMessage attachments w aiConfig w1 events w' :
  get_config w = (Ok aiConfig, w1) ->
  isOpenAICompatible (cfg_provider aiConfig) = true ->
  send_stream containerId userMessage attachments w = ((events, Ok tt), w') ->
  exists slot w0 s s' userMsg finalMsg context,
    getOrCreateChatSession env containerId w1 = (Ok slot, w0)
    /\ sessionAt slot w0 = Some s
    /\ sessionAt slot w' = Some s'
    /\ head events = Some (event ev_user userMsg)
    /\ last events = Some (event ev_done finalMsg)
    /\ cs_messages s' = cs_messages s ++ [userMsg; finalMsg]
    /\ codeContext env containerId = Ok context
    /\ outbox w'
       = outbox w
         ++ [ OpenAIChat (cfg_apiKey aiConfig)
                (opt_or (cfg_baseUrl aiConfig) "https://api.openai.com/v1")
                (cfg_model aiConfig)
                (toOpenAIMessages decode
                   (prompt +:+ nl +:+ nl +:+ "Current codebase structure and content:"
                           +:+ nl +:+ context)
                   (cs_messages s ++ [userMsg]))
                (cfg_temperature aiConfig) true ].
Proof.
  intros Hcfg Hcompat.
  destruct (getOrCreateChatSession_total env containerId w1)
    as (slot & w0 & s & Hget & Hs0 & _ & _ & _ & _ & _ & _ & Hout0).
  apply getAiConfig_frame in Hcfg as Hframe. destruct Hframe as (_ & _ & Hout1 & _).
  rewrite (sendMessageStream_openai_step decode prompt parseConfig stringifyConfig env
             containerId userMessage attachments _ _ _ _ _ _ Hcfg Hcompat Hget Hs0).
  cbv zeta.
  destruct (codeContext env containerId) as [context|e]; [|done].
  destruct (chatCompletionStream env _) as [stream|e]; [|done].
  destruct (stream_failure stream); [done|].
  rewrite createAssistantMessage_run. intros [= <- <-].
  exists slot, w0, s. eexists _, _, _, context.
  split_and!; [done | done | | reflexivity | rewrite app_comm_cons; apply last_snoc
              | | done |].
  - repeat first [ rewrite sessionAt_set_reads | rewrite sessionAt_set_outbox
                 | rewrite sessionAt_alter, decide_True by done ].
    rewrite Hs0. reflexivity.
  - simpl. by rewrite <- app_assoc.
  - simpl. by rewrite Hout0, Hout1.
Qed.

End StreamFailureFacts.

Lemma stream_broken_midway_witness :
  exists events w',
    sendMessageStream base64Text "PROMPT" demoParse demoStringify brokenEnv
                      "c1" "list files" [] (demoWorld openai)
    = ((events, Throw (mkError "socket hang up")), w')
    /\ length events = 2%nat.
Proof.
  destruct (stream_broken_midway base64Text "PROMPT" demoParse demoStringify brokenEnv
              "c1" "list files" [] (demoWorld openai) (demoConfig openai) (demoWorld openai)
              "{}"
              {| stream_chunks := [ {| chunk_choices := [Some (Some "Hel")] |} ];
                 stream_failure := Some (mkError "socket hang up") |}
              (mkError "socket hang up")
              eq_refl eq_refl eq_refl (fun _ => eq_refl) eq_refl)
    as (events & w' & slot & w0 & s & userMsg & Hrun & _ & _ & _ & Hlen & _).
  exists events, w'. split; [exact Hrun|exact Hlen].
Defined.

Lemma stream_fails_before_first_chunk_witness :
  exists w' userMsg,
    sendMessageStream base64Text "PROMPT" demoParse demoStringify noContextEnv
                      "c1" "list files" [] (demoWorld openai)
    = (([event ev_user userMsg], Throw (mkError "container not found")), w')
    /\ outbox w' = [].
Proof.
  destruct (stream_fails_before_first_chunk base64Text "PROMPT" demoParse demoStringify
              noContextEnv "c1" "list files" [] (demoWorld openai) (demoConfig openai)
              (demoWorld openai) (mkError "container not found")
              eq_refl eq_refl (or_introl eq_refl))
    as (w' & slot & w0 & s & userMsg & Hrun & _ & _ & _ & _ & Hout & _).
  exists w', userMsg. split; [exact Hrun|]. exact (Hout eq_refl).
Defined.

Lemma stream_appends_user_then_final_witness :
  exists events w',
    sendMessageStream base64Text "PROMPT" demoParse demoStringify demoEnv
                      "c1" "list files" [] (demoWorld openrouter)
    = ((events, Ok tt), w')
    /\ exists s' userMsg finalMsg,
         sessionAt 0 w' = Some s' /\ cs_messages s' = [userMsg; finalMsg].
Proof.
  pose (run := sendMessageStream base64Text "PROMPT" demoParse demoStringify demoEnv
                 "c1" "list files" [] (demoWorld openrouter)).
  exists run.1.1, run.2. split; [vm_compute; reflexivity|].
  destruct (stream_appends_user_then_final base64Text "PROMPT" demoParse demoStringify
              demoEnv "c1" "list files" [] (demoWorld openrouter) (demoConfig openrouter)
              (demoWorld openrouter) run.1.1 run.2 eq_refl eq_refl
              ltac:(vm_compute; reflexivity))
    as (slot & w0 & s & s' & userMsg & finalMsg & context & Hget & Hs & Hs' & _ & _
        & Hmsgs & _).
  vm_compute in Hget. injection Hget as <- <-.
  vm_compute in Hs. injection Hs as <-.
  by exists s', userMsg, finalMsg.
Defined.

(** ** The configuration routes *)

Section RouteFacts.

Variable parseConfig : string -> Result RawConfig.
Variable stringifyConfig : AiConfig -> string.
Variable env : Env.

#[local] Abbreviation get_config := (getAiConfig parseConfig stringifyConfig env).
#[local] Abbreviation update_config := (updateAiConfig parseConfig stringifyConfig env).
#[local] Abbreviation get_route := (getAiRoute parseConfig stringifyConfig env).
#[local] Abbreviation put_route := (putAiRoute parseConfig stringifyConfig env).

(** The two handlers over the configuration always answer and let
    no error escape.  [PUT /ai] answers 200 with the merged configuration
    when the update returns and 400 with the message of the error
    otherwise, also when the error is a failure to read or write the file;
    a missing body stands for the empty update.  [GET /ai] answers 200
    with the configuration, or 500 with the message of the error. *)
Theorem config_routes_always_answer body w :
  (exists response w',
     put_route body w = (Ok response, w')
     /\ match update_config (default noUpdate body) w with
        | (Ok config, w1) =>
            w' = w1
            /\ response = {| res_status := 200; res_success := true;
                             res_body := ConfigBody config |}
        | (Throw e, w1) =>
            w' = w1
            /\ response = {| res_status := 400; res_success := false;
                             res_body := ErrorBody (err_message e) |}
        end)
  /\ (exists response w',
        get_route w = (Ok response, w')
        /\ match get_config w with
           | (Ok config, w1) =>
               w' = w1
               /\ response = {| res_status := 200; res_success := true;
                                res_body := ConfigBody config |}
           | (Throw e, w1) =>
               w' = w1
               /\ response = {| res_status := 500; res_success := false;
                                res_body := ErrorBody (err_message e) |}
           end).
Proof.
  split.
  - unfold putAiRoute, try_catch, bind, ret.
    destruct (update_config (default noUpdate body) w) as [[config|e] w1]; by eexists _, _.
  - unfold getAiRoute, try_catch, bind, ret.
    destruct (get_config w) as [[config|e] w1]; by eexists _, _.
Qed.

(** X24.  When an update passes the checks and the file cannot be
    written, [PUT /ai] answers 400 with the message of the write error,
    yet the merged configuration is the cached one: a [GET /ai] that
    follows answers 200 with the configuration that was not saved. *)
Theorem unsaved_config_is_served update w current e :
  cachedConfig w = Some current ->
  writeFailure env = Some e ->
  let merged := normalizeConfig (spread current update) in
  cfg_apiKey merged <> EmptyString ->
  (forall t, cfg_temperature merged = Some t ->
             PrimFloat.ltb t 0%float = false /\ PrimFloat.ltb 2%float t = false) ->
  exists w',
    put_route (Some update) w
    = (Ok {| res_status := 400; res_success := false;
             res_body := ErrorBody (err_message e) |}, w')
    /\ configFile w' = configFile w
    /\ get_route w'
       = (Ok {| res_status := 200; res_success := true; res_body := ConfigBody merged |},
          w').
Proof.
  intros Hcache Hwrite merged Hkey Hrange.
  assert (update_config update w = (Throw e, set_cachedConfig (Some merged) w)) as Hupd.
  { unfold updateAiConfig, bind.
    rewrite (getAiConfig_cached _ _ _ _ _ Hcache). fold merged.
    apply truthy_true in Hkey. rewrite Hkey.
    pose proof (normalizeConfig_model_defaulted (spread current update)) as Hmodel.
    fold merged in Hmodel. apply truthy_true in Hmodel. rewrite Hmodel.
    rewrite num_or_zero_not_NaN. cbn [negb].
    destruct (normalizeConfig_fields (spread current update)) as (_ & _ & t & Ht).
    fold merged in Ht. rewrite Ht. destruct (Hrange t Ht) as [-> ->]. cbn [orb].
    unfold modify, writeConfig, throw. simpl. by rewrite Hwrite. }
  exists (set_cachedConfig (Some merged) w).
  unfold putAiRoute, getAiRoute, try_catch, bind, ret. simpl default. rewrite Hupd.
  split_and!; [done | done |].
  by rewrite (getAiConfig_cached _ _ _ (set_cachedConfig (Some merged) w) merged).
Qed.

End RouteFacts.

Lemma unsaved_config_is_served_witness :
  exists w',
    putAiRoute demoParse demoStringify readOnlyEnv (Some (modelUpdate "m-2"))
               (demoWorld openai)
    = (Ok {| res_status := 400; res_success := false;
             res_body := ErrorBody "EACCES: permission denied" |}, w')
    /\ (getAiRoute demoParse demoStringify readOnlyEnv w').1
       = Ok {| res_status := 200; res_success := true;
               res_body :=
                 ConfigBody (normalizeConfig (spread (demoConfig openai)
                                                     (modelUpdate "m-2"))) |}.
Proof.
  destruct (unsaved_config_is_served demoParse demoStringify readOnlyEnv
              (modelUpdate "m-2") (demoWorld openai) (demoConfig openai)
              {| err_message := "EACCES: permission denied"; err_code := Some "EACCES" |}
              eq_refl eq_refl ltac:(vm_compute; discriminate)
              ltac:(intros t [= <-]; split; reflexivity))
    as (w' & Hput & _ & Hget).
  exists w'. split; [exact Hput|]. by rewrite Hget.
Defined.

(** ** Reading the configuration file *)

Section ReadConfigFacts.

Variable parseConfig : string -> Result RawConfig.
Variable stringifyConfig : AiConfig -> string.
Variable env : Env.

#[local] Abbreviation get_config := (getAiConfig parseConfig stringifyConfig env).

(** X25.  With nothing cached and a configuration file in place,
    [getAiConfig] returns the normalized content of the file and caches
    it without touching the file.  When the content cannot be parsed it
    throws the error of the parser and leaves everything as it was: the
    defaults are written only when the file is missing, never over a file
    that cannot be read. *)
Theorem getAiConfig_reads_file w text :
  cachedConfig w = None ->
  configFile w = Content text ->
  match parseConfig text with
  | Ok raw =>
      get_config w = (Ok (normalizeConfig raw), set_cachedConfig (Some (normalizeConfig raw)) w)
  | Throw e =>
      err_code e <> Some "ENOENT" -> get_config w = (Throw e, w)
  end.
Proof.
  intros Hcache Hfile.
  unfold getAiConfig, bind, gets, readConfig, try_catch, bind, readFile, liftResult,
    modify, throw, ret.
  rewrite Hcache, Hfile. simpl.
  destruct (parseConfig text) as [raw|e]; simpl; [done|].
  intros Hcode. by rewrite bool_decide_eq_false_2.
Qed.

End ReadConfigFacts.

Lemma getAiConfig_reads_file_witness :
  getAiConfig parseEmptyObject demoStringify demoEnv
              (set_configFile (Content "{}") emptyWorld)
  = (Ok (normalizeConfig emptyRaw),
     set_cachedConfig (Some (normalizeConfig emptyRaw))
                      (set_configFile (Content "{}") emptyWorld)).
Proof.
  apply (getAiConfig_reads_file parseEmptyObject demoStringify demoEnv
           (set_configFile (Content "{}") emptyWorld) "{}" eq_refl eq_refl).
Defined.

(** ** A temperature out of range *)

Section RangeFacts.

Variable parseConfig : string -> Result RawConfig.
Variable stringifyConfig : AiConfig -> string.
Variable env : Env.

(** X26.  An update whose merged API key is not empty and whose merged
    temperature is below 0 or above 2 is refused with [Temperature must be
    between 0 and 2], before anything is cached or written. *)
Theorem updateAiConfig_out_of_range_refused update w current w1 t :
  getAiConfig parseConfig stringifyConfig env w = (Ok current, w1) ->
  cfg_apiKey (normalizeConfig (spread current update)) <> EmptyString ->
  cfg_temperature (normalizeConfig (spread current update)) = Some t ->
  PrimFloat.ltb t 0%float || PrimFloat.ltb 2%float t = true ->
  updateAiConfig parseConfig stringifyConfig env update w
  = (Throw (mkError "Temperature must be between 0 and 2"), w1).
Proof.
  intros Hget Hkey Ht Hrange. unfold updateAiConfig, bind. rewrite Hget.
  apply truthy_true in Hkey. rewrite Hkey.
  pose proof (normalizeConfig_model_defaulted (spread current update)) as Hmodel.
  apply truthy_true in Hmodel. rewrite Hmodel.
  rewrite num_or_zero_not_NaN. cbn [negb]. by rewrite Ht, Hrange.
Qed.

End RangeFacts.

Lemma updateAiConfig_out_of_range_refused_witness :
  updateAiConfig demoParse demoStringify demoEnv (temperatureUpdate (TNumber (-1)%float))
                 (demoWorld anthropic)
  = (Throw (mkError "Temperature must be between 0 and 2"), demoWorld anthropic).
Proof.
  apply (updateAiConfig_out_of_range_refused demoParse demoStringify demoEnv
           (temperatureUpdate (TNumber (-1)%float)) (demoWorld anthropic)
           (demoConfig anthropic) (demoWorld anthropic) (-1)%float eq_refl).
  - vm_compute. discriminate.
  - reflexivity.
  - reflexivity.
Defined.
